(** * A shallow embedding of the text classification engine

    The development follows [text_classifier.py]: the [ClassificationResult]
    record, the [TextClassifier] constructor, [_build_prompt],
    [_parse_response], [classify] and [classify_batch].

    Modelling choices.
    - A Python [str] is a [string] whose characters are read as the code
      points below 256; [isspace] and [lower] are the Python ones on that
      range.
    - A decoded JSON document is a [pyval]; a number is kept as the lexeme
      it was decoded from, so that no floating point arithmetic is needed
      to say that a value is handed on unchanged.
    - An exception is a class and the text [str(e)] yields.  Only
      subclasses of [Exception] are modelled: [KeyboardInterrupt] and
      [SystemExit] are process control, not failures of a call.
    - Library code the module calls but does not define is a parameter of
      the development: [json.loads], [str.format] and the remote
      [chat.completions.create].  Concrete instances are given at the end
      and used wherever a statement is evaluated on an input.
    - An engine is a value of [TextClassifier] where the methods read it.
      Where a statement is about what the methods assign to, the engine
      is an object of a store, and its labels a reference to a list
      ([Obj]); the methods over the store are shown to return what the
      methods over values return. *)

From Stdlib Require Import String Ascii List Bool Arith Lia DecimalString.
Import ListNotations.

Open Scope string_scope.

(** ** Python string operations *)

Module PyStr.

(** [c.isspace()] for a code point below 256. *)
Definition isspace (c : ascii) : bool :=
  let n := nat_of_ascii c in
  (((9 <=? n) && (n <=? 13)) || ((28 <=? n) && (n <=? 32))
   || (n =? 133) || (n =? 160))%nat.

(** [s.lstrip()] *)
Fixpoint lstrip (s : string) : string :=
  match s with
  | EmptyString => EmptyString
  | String c s' => if isspace c then lstrip s' else s
  end.

(** [s.rstrip()] *)
Fixpoint rstrip (s : string) : string :=
  match s with
  | EmptyString => EmptyString
  | String c s' =>
      match rstrip s' with
      | EmptyString => if isspace c then EmptyString else String c EmptyString
      | r => String c r
      end
  end.

(** [s.strip()] *)
Definition strip (s : string) : string := lstrip (rstrip s).

(** [s[n:]] *)
Fixpoint slice_from (n : nat) (s : string) : string :=
  match n, s with
  | 0, _ => s
  | S _, EmptyString => EmptyString
  | S n', String _ s' => slice_from n' s'
  end.

(** [s[:n]] for a non-negative [n] *)
Fixpoint slice_to (n : nat) (s : string) : string :=
  match n, s with
  | 0, _ => EmptyString
  | S _, EmptyString => EmptyString
  | S n', String c s' => String c (slice_to n' s')
  end.

(** [s[:-n]] for a positive [n]: the stop index is [len(s) - n],
    clipped at 0. *)
Definition slice_to_minus (n : nat) (s : string) : string :=
  slice_to (String.length s - n) s.

(** [s.startswith(p)] *)
Definition startswith (p s : string) : bool := String.prefix p s.

(** [s.endswith(p)] *)
Definition endswith (p s : string) : bool :=
  (String.length p <=? String.length s)%nat
  && (slice_from (String.length s - String.length p) s =? p).

(** [p in s] for two strings: substring search. *)
Fixpoint contains (p s : string) : bool :=
  String.prefix p s
  || match s with
     | EmptyString => false
     | String _ s' => contains p s'
     end.

(** [c.lower()] for a code point below 256: the ASCII capitals and the
    Latin-1 capitals U+00C0..U+00DE without the multiplication sign. *)
Definition lower_char (c : ascii) : ascii :=
  let n := nat_of_ascii c in
  if (((65 <=? n) && (n <=? 90))
      || ((192 <=? n) && (n <=? 222) && negb (n =? 215)))%nat
  then ascii_of_nat (n + 32) else c.

(** [s.lower()] *)
Fixpoint lower (s : string) : string :=
  match s with
  | EmptyString => EmptyString
  | String c s' => String (lower_char c) (lower s')
  end.

(** [sep.join(l)] *)
Definition join (sep : string) (l : list string) : string :=
  String.concat sep l.

(** Truth value of a string: [bool(s)]. *)
Definition truthy (s : string) : bool :=
  match s with EmptyString => false | _ => true end.

(** [x in l] for a list of strings. *)
Definition mem (x : string) (l : list string) : bool :=
  existsb (String.eqb x) l.

(** The double quote and the line feed, which a literal cannot hold. *)
Definition dq : string := String "034"%char EmptyString.
Definition nl : string := String "010"%char EmptyString.

(** A hexadecimal digit as [repr] writes it, in lower case. *)
Definition hex_digit (n : nat) : ascii :=
  if (n <? 10)%nat then ascii_of_nat (48 + n) else ascii_of_nat (87 + n).

(** Is the code point printed as it is by [repr]?  Below 256 the
    unprintable ones are the C0 and C1 controls, DEL, the no-break space
    and the soft hyphen. *)
Definition isprintable (c : ascii) : bool :=
  let n := nat_of_ascii c in
  (((32 <=? n) && (n <=? 126)) || ((161 <=? n) && negb (n =? 173)))%nat.

Definition repr_char (quote : ascii) (c : ascii) : string :=
  let n := nat_of_ascii c in
  if (Ascii.eqb c quote) || (n =? 92)%nat then String "\"%char (String c "")
  else if (n =? 9)%nat then "\t"
  else if (n =? 10)%nat then "\n"
  else if (n =? 13)%nat then "\r"
  else if isprintable c then String c ""
  else "\x" ++ String (hex_digit (n / 16)) (String (hex_digit (n mod 16)) "").

Fixpoint repr_body (quote : ascii) (s : string) : string :=
  match s with
  | EmptyString => EmptyString
  | String c s' => repr_char quote c ++ repr_body quote s'
  end.

Fixpoint has_char (c : ascii) (s : string) : bool :=
  match s with
  | EmptyString => false
  | String c' s' => Ascii.eqb c c' || has_char c s'
  end.

(** [repr(s)]: single quotes, unless the string holds a single quote
    and no double quote. *)
Definition repr (s : string) : string :=
  let quote :=
    if has_char "'"%char s && negb (has_char "034"%char s)
    then "034"%char else "'"%char in
  String quote (repr_body quote s ++ String quote "").

(** [repr(l)], which is also [str(l)], for a list of strings. *)
Definition repr_list (l : list string) : string :=
  "[" ++ String.concat ", " (map repr l) ++ "]".

End PyStr.

Import PyStr.

(** ** Values, exceptions and results *)

(** What [json.loads] returns.  [PyNone] is both the decoded [null] and
    the value of [d.get(k)] for a missing key. *)
#[warnings="-register-all"]
Inductive pyval : Type :=
| PyNone
| PyBool (b : bool)
| PyNum (lexeme : string)
| PyStr (s : string)
| PyList (items : list pyval)
| PyDict (entries : list (string * pyval)).

(** The exception classes the module meets.  [JSONDecodeError] is the one
    class with a handler of its own; [LibraryError] stands for any other
    subclass of [Exception], named by the library that raises it. *)
Inductive exn_class : Type :=
| JSONDecodeError
| ValueError
| TypeError
| AttributeError
| IndexError
| KeyError
| LibraryError (name : string).

(** An exception: its class and [str(e)]. *)
Record exn : Type := Exn { exn_cls : exn_class; exn_str : string }.

Inductive result (A : Type) : Type :=
| Ok (a : A)
| Raise (e : exn).

Arguments Ok {A} a.
Arguments Raise {A} e.

Definition bind {A B : Type} (m : result A) (k : A -> result B) : result B :=
  match m with
  | Ok a => k a
  | Raise e => Raise e
  end.

(** [try: body except Exception as e: handler(e)] *)
Definition try_except {A : Type} (body : result A) (handler : exn -> result A)
  : result A :=
  match body with
  | Ok a => Ok a
  | Raise e => handler e
  end.

Declare Scope py_scope.
Delimit Scope py_scope with py.
Notation "x <- m ;; k" := (bind m (fun x => k))
  (at level 61, m at next level, right associativity) : py_scope.

(** [isinstance(e, json.JSONDecodeError)] *)
Definition is_JSONDecodeError (e : exn) : bool :=
  match exn_cls e with
  | JSONDecodeError => true
  | _ => false
  end.

(** Is the number an [int] or a [float]?  The decoder makes a [float] of
    a lexeme with a fraction or an exponent, and of [NaN] and
    [Infinity]. *)
Definition is_float_lexeme (lexeme : string) : bool :=
  has_char "."%char lexeme || has_char "e"%char lexeme
  || has_char "E"%char lexeme || has_char "N"%char lexeme
  || has_char "I"%char lexeme.

(** [type(v).__name__] *)
Definition type_name (v : pyval) : string :=
  match v with
  | PyNone => "NoneType"
  | PyBool _ => "bool"
  | PyNum lexeme => if is_float_lexeme lexeme then "float" else "int"
  | PyStr _ => "str"
  | PyList _ => "list"
  | PyDict _ => "dict"
  end.

(** [d[k]] on the entries of a dict, [None] for a missing key. *)
Fixpoint dict_lookup (d : list (string * pyval)) (k : string) : option pyval :=
  match d with
  | [] => None
  | (k', v) :: d' => if (k' =? k)%string then Some v else dict_lookup d' k
  end.

(** [d.get(k)] *)
Definition dict_get (d : list (string * pyval)) (k : string) : pyval :=
  match dict_lookup d k with
  | Some v => v
  | None => PyNone
  end.

(** [d[k] = v]: the value is replaced where the key is, a new key goes to
    the end. *)
Fixpoint dict_set (d : list (string * pyval)) (k : string) (v : pyval)
  : list (string * pyval) :=
  match d with
  | [] => [(k, v)]
  | (k', v') :: d' =>
      if (k' =? k)%string then (k', v) :: d' else (k', v') :: dict_set d' k v
  end.

(** [v == s] for a string [s] *)
Definition eq_str (v : pyval) (s : string) : bool :=
  match v with
  | PyStr s' => (s' =? s)%string
  | _ => false
  end.

(** [k in v]: a key of a dict, an element of a list, a substring of a
    string; any other value is no container. *)
Definition py_contains (k : string) (v : pyval) : result bool :=
  match v with
  | PyDict d =>
      Ok (match dict_lookup d k with Some _ => true | None => false end)
  | PyList items => Ok (existsb (fun x => eq_str x k) items)
  | PyStr s => Ok (contains k s)
  | _ =>
      Raise (Exn TypeError
        ("argument of type '" ++ type_name v ++ "' is not iterable"))
  end.

(** [v[k]] for a string [k] *)
Definition py_getitem (v : pyval) (k : string) : result pyval :=
  match v with
  | PyDict d =>
      match dict_lookup d k with
      | Some x => Ok x
      | None => Raise (Exn KeyError (repr k))
      end
  | PyList _ =>
      Raise (Exn TypeError "list indices must be integers or slices, not str")
  | PyStr _ =>
      Raise (Exn TypeError "string indices must be integers, not 'str'")
  | _ =>
      Raise (Exn TypeError
        ("'" ++ type_name v ++ "' object is not subscriptable"))
  end.

(** [v[k] = x] for a string [k]; the result is the updated value. *)
Definition py_setitem (v : pyval) (k : string) (x : pyval) : result pyval :=
  match v with
  | PyDict d => Ok (PyDict (dict_set d k x))
  | PyList _ =>
      Raise (Exn TypeError "list indices must be integers or slices, not str")
  | _ =>
      Raise (Exn TypeError
        ("'" ++ type_name v ++ "' object does not support item assignment"))
  end.

(** [v.get(k)] *)
Definition py_get (v : pyval) (k : string) : result pyval :=
  match v with
  | PyDict d => Ok (dict_get d k)
  | _ =>
      Raise (Exn AttributeError
        ("'" ++ type_name v ++ "' object has no attribute 'get'"))
  end.

(** [v in l] for a list of strings [l] *)
Definition py_in (v : pyval) (l : list string) : bool :=
  existsb (eq_str v) l.

(** The message of the source for a label that matches nothing. *)
Definition invalid_label (label : string) (labels : list string) : string :=
  "Invalid label '" ++ label ++ "'. Must be one of: " ++ repr_list labels.

(** ** The data model of the module *)

(** The [ClassificationResult] dataclass.  A dataclass does not check its
    annotations: [predicted_label], [confidence] and [rationale] hold
    whatever they are given, the last two [PyNone] by default. *)
Record ClassificationResult : Type := {
  text : string;
  predicted_label : pyval;
  confidence : pyval;
  rationale : pyval;
  error : option string
}.

(** The dict [_parse_response] returns, with its three keys. *)
Record Parsed : Type := {
  parsed_predicted_label : pyval;
  parsed_confidence : pyval;
  parsed_rationale : pyval
}.

(** The attributes of a [TextClassifier].  The client handle is the
    remote service of the state below. *)
Record TextClassifier : Type := {
  api_key : string;
  model : string;
  labels : list string;
  prompt_template : string
}.

(** The configuration document [json.load] reads from [config_file]: an
    object whose ["labels"], when present, is a list of strings and whose
    ["prompt_template"], when present, is a string. *)
Record Config : Type := {
  cfg_labels : option (list string);
  cfg_prompt_template : option string
}.

(** What the constructor meets at a path it is given.  [Path.exists]
    raises when the path cannot be examined (the [OSError] of a name that
    is too long, or of a directory that may not be searched), and is
    false when nothing is there.  When a file is there, [open],
    [json.load] or [config.get] may raise: a directory, a text that is
    no JSON, a document that is no object.  A document that is an object
    with entries of other types than those of [Config] is outside the
    model. *)
Inductive ConfigFile : Type :=
| StatError (e : exn)
| Absent
| ReadError (e : exn)
| Document (config : Config).

(** What the constructor reads from outside: the environment variable and
    the file system. *)
Record Env : Type := {
  OPENAI_API_KEY : option string;
  config_files : string -> ConfigFile
}.

(** One message of a chat request. *)
Record Message : Type := { role : string; content : string }.

(** The keyword arguments of [chat.completions.create].  The temperature
    is the literal of the source. *)
Record ChatRequest : Type := {
  req_model : string;
  req_messages : list Message;
  req_temperature : string;
  req_max_tokens : nat;
  req_response_format : string
}.

(** A completion: for each choice, [message.content], which may be
    [None]. *)
Record ChatCompletion : Type := { choices : list (option string) }.

(** ** The constructor *)

Definition _default_labels : list string :=
  ["Complaint"; "Inquiry"; "Feedback"; "Other"].

Definition _default_prompt_template : string :=
  "You are a text classification system. Classify the following text into exactly one of these categories: {labels}"
  ++ nl ++ nl
  ++ "Classification Rules:" ++ nl
  ++ "- Complaint: Expresses dissatisfaction, problems, or negative experiences" ++ nl
  ++ "- Inquiry: Asks questions, seeks information, or requests clarification" ++ nl
  ++ "- Feedback: Provides suggestions, opinions, or general comments (positive or constructive)" ++ nl
  ++ "- Other: Does not fit into the above categories" ++ nl
  ++ nl
  ++ "Text to classify: " ++ dq ++ "{text}" ++ dq ++ nl
  ++ nl
  ++ "Respond with a JSON object containing:" ++ nl
  ++ "1. " ++ dq ++ "label" ++ dq ++ ": The exact category name (must match one of: {labels})" ++ nl
  ++ "2. " ++ dq ++ "confidence" ++ dq ++ ": A number between 0.0 and 1.0 indicating classification confidence" ++ nl
  ++ "3. " ++ dq ++ "rationale" ++ dq ++ ": A brief explanation (1-2 sentences) of why this classification was chosen" ++ nl
  ++ nl
  ++ "Response format (JSON only, no additional text):".

(** [x or y] for an optional string [x]: [None] and the empty string are
    false. *)
Definition or_str (x y : option string) : option string :=
  match x with
  | Some s => if truthy s then x else y
  | None => y
  end.

(** [labels or default] for an optional list. *)
Definition or_labels (x : option (list string)) (default : list string)
  : list string :=
  match x with
  | Some (l :: ls) => l :: ls
  | _ => default
  end.

(** [config_file and Path(config_file).exists()], with the open file
    decoded when the test is true.  The test is not made for a path that
    is [None] or empty; an exception of the test or of the reading is
    not handled. *)
Definition existing_config (env : Env) (config_file : option string)
  : result (option Config) :=
  match config_file with
  | Some path =>
      if truthy path then
        match config_files env path with
        | StatError e => Raise e
        | Absent => Ok None
        | ReadError e => Raise e
        | Document config => Ok (Some config)
        end
      else Ok None
  | None => Ok None
  end.

Definition __init__ (env : Env) (api_key : option string) (model : string)
  (labels : option (list string)) (config_file : option string)
  : result TextClassifier :=
  let self_api_key := or_str api_key (OPENAI_API_KEY env) in
  match self_api_key with
  | None | Some EmptyString =>
      Raise (Exn ValueError
        "OpenAI API key not found. Set OPENAI_API_KEY environment variable or pass api_key parameter.")
  | Some key =>
      (found <- existing_config env config_file ;;
       let '(self_labels, self_prompt_template) :=
         match found with
         | Some config =>
             (match cfg_labels config with
              | Some l => l
              | None => or_labels labels _default_labels
              end,
              match cfg_prompt_template config with
              | Some t => t
              | None => _default_prompt_template
              end)
         | None => (or_labels labels _default_labels, _default_prompt_template)
         end in
       if match self_labels with [] => true | _ => false end
          || (List.length self_labels <? 2)%nat
       then Raise (Exn ValueError
              "At least 2 labels are required for classification")
       else Ok {| api_key := key; model := model; labels := self_labels;
                  prompt_template := self_prompt_template |})%py
  end.

(** ** The engine *)

(** The state a call runs in: the remote service, and the requests sent
    to it so far. *)
Record Sys (World : Type) : Type := {
  remote : World;
  sent : list ChatRequest
}.

Arguments remote {World} _.
Arguments sent {World} _.

Section Engine.

(** [json.loads] *)
Variable json_loads : string -> result pyval.

(** [template.format(labels=..., text=...)] *)
Variable str_format : string -> string -> string -> result string.

(** The remote service behind [client.chat.completions.create]: it
    answers a request or raises, and moves to a new state. *)
Variable World : Type.
Variable remote_create : ChatRequest -> World -> result ChatCompletion * World.

(** Computations that may raise and that talk to the remote service. *)
Definition Py (A : Type) : Type := Sys World -> result A * Sys World.

Definition ret {A : Type} (a : A) : Py A := fun st => (Ok a, st).

Definition lift {A : Type} (r : result A) : Py A := fun st => (r, st).

Definition bind_py {A B : Type} (m : Py A) (k : A -> Py B) : Py B :=
  fun st =>
    match m st with
    | (Ok a, st') => k a st'
    | (Raise e, st') => (Raise e, st')
    end.

(** [try: body except Exception as e: handler(e)] around a computation
    with effects: what the body did to the state stays done. *)
Definition try_except_py {A : Type} (body : Py A) (handler : exn -> Py A)
  : Py A :=
  fun st =>
    match body st with
    | (Ok a, st') => (Ok a, st')
    | (Raise e, st') => handler e st'
    end.

(** [self.client.chat.completions.create(...)]: one request is sent. *)
Definition chat_completions_create (req : ChatRequest) : Py ChatCompletion :=
  fun st =>
    let '(r, w) := remote_create req (remote st) in
    (r, {| remote := w; sent := sent st ++ [req] |}).

Local Notation "x <-- m ;; k" := (bind_py m (fun x => k))
  (at level 61, m at next level, right associativity).

Definition _build_prompt (self : TextClassifier) (text : string)
  : result string :=
  let labels_str := join ", " (labels self) in
  str_format (prompt_template self) labels_str text.

(** [response_text] is [message.content], [None] when the message has no
    content. *)
Definition _parse_response (self : TextClassifier)
  (response_text : option string) : result Parsed :=
  try_except
    (match response_text with
     | None =>
         Raise (Exn AttributeError "'NoneType' object has no attribute 'strip'")
     | Some response_text =>
         let response_text := strip response_text in
         let response_text :=
           if startswith "```json" response_text
           then slice_from 7 response_text else response_text in
         let response_text :=
           if startswith "```" response_text
           then slice_from 3 response_text else response_text in
         let response_text :=
           if endswith "```" response_text
           then slice_to_minus 3 response_text else response_text in
         let response_text := strip response_text in
         (result <- json_loads response_text ;;
          has_label <- py_contains "label" result ;;
          if negb has_label
          then Raise (Exn ValueError "Response missing 'label' field")
          else
            label <- py_getitem result "label" ;;
            result <-
              (if negb (py_in label (labels self)) then
                 match label with
                 | PyStr label_s =>
                     let label_lower := lower label_s in
                     let matching_label :=
                       find (fun l => (lower l =? label_lower)%string)
                            (labels self) in
                     match matching_label with
                     | Some m =>
                         if truthy m
                         then py_setitem result "label" (PyStr m)
                         else Raise (Exn ValueError (invalid_label label_s (labels self)))
                     | None =>
                         Raise (Exn ValueError (invalid_label label_s (labels self)))
                     end
                 | _ =>
                     Raise (Exn AttributeError
                       ("'" ++ type_name label
                        ++ "' object has no attribute 'lower'"))
                 end
               else Ok result) ;;
            predicted_label <- py_getitem result "label" ;;
            confidence <- py_get result "confidence" ;;
            rationale <- py_get result "rationale" ;;
            Ok {| parsed_predicted_label := predicted_label;
                  parsed_confidence := confidence;
                  parsed_rationale := rationale |})%py
     end)
    (fun e =>
       if is_JSONDecodeError e
       then Raise (Exn ValueError ("Failed to parse JSON response: " ++ exn_str e))
       else Raise (Exn ValueError ("Error parsing response: " ++ exn_str e))).

Definition system_content : string :=
  "You are a precise text classification assistant. Always respond with valid JSON only.".

Definition classify (self : TextClassifier) (text_ : string)
  : Py ClassificationResult :=
  if negb (truthy text_) || negb (truthy (strip text_)) then
    ret {| text := text_;
           predicted_label := PyStr "Other";
           confidence := PyNone;
           rationale := PyNone;
           error := Some "Empty text provided" |}
  else
    try_except_py
      (prompt <-- lift (_build_prompt self text_) ;;
       response <-- chat_completions_create
         {| req_model := model self;
            req_messages :=
              [ {| role := "system"; content := system_content |};
                {| role := "user"; content := prompt |} ];
            req_temperature := "0.0";
            req_max_tokens := 200;
            req_response_format := "json_object" |} ;;
       response_text <-- lift
         (match choices response with
          | [] => Raise (Exn IndexError "list index out of range")
          | choice :: _ => Ok choice
          end) ;;
       parsed <-- lift (_parse_response self response_text) ;;
       ret {| text := text_;
              predicted_label := parsed_predicted_label parsed;
              confidence := parsed_confidence parsed;
              rationale := parsed_rationale parsed;
              error := None |})
      (fun e =>
         ret {| text := text_;
                predicted_label := PyStr "Other";
                confidence := PyNone;
                rationale := PyNone;
                error := Some (exn_str e) |}).

(** The loop of [classify_batch], with [results] the list built so far. *)
Fixpoint classify_batch_loop (self : TextClassifier) (texts : list string)
  (results : list ClassificationResult) : Py (list ClassificationResult) :=
  match texts with
  | [] => ret results
  | text_ :: texts' =>
      result <-- classify self text_ ;;
      classify_batch_loop self texts' (results ++ [result])
  end.

Definition classify_batch (self : TextClassifier) (texts : list string)
  : Py (list ClassificationResult) :=
  classify_batch_loop self texts [].

End Engine.

Arguments ret {World A} a _.
Arguments lift {World A} r _.
Arguments bind_py {World A B} m k _.
Arguments try_except_py {World A} body handler _.
Arguments chat_completions_create {World} remote_create req _.
Arguments classify json_loads str_format {World} remote_create self text_ _.
Arguments classify_batch_loop json_loads str_format {World} remote_create
  self texts results _.
Arguments classify_batch json_loads str_format {World} remote_create
  self texts _.

(** ** Notions the statements use *)

(** The state before any request. *)
Definition fresh {World : Type} (w : World) : Sys World :=
  {| remote := w; sent := [] |}.

(** The text [_parse_response] hands to [json.loads]: the first steps of
    its [try] block, on their own. *)
Definition normalize (response_text : string) : string :=
  let response_text := strip response_text in
  let response_text :=
    if startswith "```json" response_text
    then slice_from 7 response_text else response_text in
  let response_text :=
    if startswith "```" response_text
    then slice_from 3 response_text else response_text in
  let response_text :=
    if endswith "```" response_text
    then slice_to_minus 3 response_text else response_text in
  strip response_text.

(** A string of white space only, the empty string included. *)
Fixpoint all_space (s : string) : bool :=
  match s with
  | EmptyString => true
  | String c s' => isspace c && all_space s'
  end.

(** A body between code fence markers: three backticks, the tag [json]
    or none, white space [l] (a line feed, say, or nothing), the body,
    white space [r], three backticks. *)
Definition fence (tagged : bool) (l r s : string) : string :=
  "```" ++ (if tagged then "json" else "") ++ l ++ s ++ r ++ "```".

(** The result of a call that failed, and of one that did not. *)
Definition failed (text_ message : string) : ClassificationResult :=
  {| text := text_;
     predicted_label := PyStr "Other";
     confidence := PyNone;
     rationale := PyNone;
     error := Some message |}.

Definition classified (text_ : string) (parsed : Parsed)
  : ClassificationResult :=
  {| text := text_;
     predicted_label := parsed_predicted_label parsed;
     confidence := parsed_confidence parsed;
     rationale := parsed_rationale parsed;
     error := None |}.

(** The request [classify] sends for a rendered prompt. *)
Definition request_for (self : TextClassifier) (prompt : string)
  : ChatRequest :=
  {| req_model := model self;
     req_messages :=
       [ {| role := "system"; content := system_content |};
         {| role := "user"; content := prompt |} ];
     req_temperature := "0.0";
     req_max_tokens := 200;
     req_response_format := "json_object" |}.

(** [response.choices[0].message.content] *)
Definition first_content (response : ChatCompletion)
  : result (option string) :=
  match choices response with
  | [] => Raise (Exn IndexError "list index out of range")
  | choice :: _ => Ok choice
  end.

(** What the parser makes of a decoded object whose label is a string. *)
Definition parse_outcome (self : TextClassifier) (d : list (string * pyval))
  (label : string) : result Parsed :=
  if mem label (labels self) then
    Ok {| parsed_predicted_label := PyStr label;
          parsed_confidence := dict_get d "confidence";
          parsed_rationale := dict_get d "rationale" |}
  else
    match find (fun l => (lower l =? lower label)%string) (labels self) with
    | Some m =>
        Ok {| parsed_predicted_label := PyStr m;
              parsed_confidence := dict_get d "confidence";
              parsed_rationale := dict_get d "rationale" |}
    | None =>
        Raise (Exn ValueError
          ("Error parsing response: " ++ invalid_label label (labels self)))
    end.

(** The state in which a batch leaves the remote service and the log of
    requests: the texts are classified one after the other. *)
Fixpoint state_after (json_loads : string -> result pyval)
  (str_format : string -> string -> string -> result string)
  {World : Type}
  (remote_create : ChatRequest -> World -> result ChatCompletion * World)
  (self : TextClassifier) (texts : list string) (st : Sys World) : Sys World :=
  match texts with
  | [] => st
  | text_ :: texts' =>
      state_after json_loads str_format remote_create self texts'
        (snd (classify json_loads str_format remote_create self text_ st))
  end.

(** The two kinds of result: an error with the fallback label, and no
    error with a label of the engine. *)
Definition error_with_fallback (r : ClassificationResult) : Prop :=
  (exists message, error r = Some message)
  /\ predicted_label r = PyStr "Other".

Definition labelled_by (self : TextClassifier) (r : ClassificationResult)
  : Prop :=
  error r = None
  /\ exists l, predicted_label r = PyStr l /\ In l (labels self).

(** The labels and the template of the configuration the constructor
    found, when it found one that has them. *)
Definition found_labels (found : option Config) : option (list string) :=
  match found with
  | Some config => cfg_labels config
  | None => None
  end.

Definition found_template (found : option Config) : option string :=
  match found with
  | Some config => cfg_prompt_template config
  | None => None
  end.

(** The label list in effect: the one of the configuration file when
    there is one with labels, else the argument when it is not empty,
    else the default. *)
Definition resolved_labels (found : option Config)
  (labels : option (list string)) : list string :=
  match found_labels found with
  | Some l => l
  | None => or_labels labels _default_labels
  end.

(** The template in effect. *)
Definition resolved_template (found : option Config) : string :=
  match found_template found with
  | Some t => t
  | None => _default_prompt_template
  end.

(** The credential the constructor settles on. *)
Definition credential (env : Env) (api_key : option string) : option string :=
  match or_str api_key (OPENAI_API_KEY env) with
  | Some EmptyString => None
  | k => k
  end.

(** ** Instances of the library parameters

    The statements below hold for every decoder, formatter and remote
    service.  To evaluate the engine on an input they are instantiated
    with the three definitions of this part. *)

Module Json.

(** The four characters JSON counts as white space. *)
Definition is_ws (c : ascii) : bool :=
  let n := nat_of_ascii c in
  ((n =? 32) || (n =? 9) || (n =? 10) || (n =? 13))%nat.

Fixpoint skip_ws (s : string) : string :=
  match s with
  | EmptyString => EmptyString
  | String c r => if is_ws c then skip_ws r else s
  end.

Definition is_digit (c : ascii) : bool :=
  let n := nat_of_ascii c in ((48 <=? n) && (n <=? 57))%nat.

(** The longest run of digits at the head of [s], and what follows. *)
Fixpoint digits (s : string) : string * string :=
  match s with
  | EmptyString => (EmptyString, EmptyString)
  | String c r =>
      if is_digit c
      then let '(d, r') := digits r in (String c d, r')
      else (EmptyString, s)
  end.

Definition hex_value (c : ascii) : option nat :=
  let n := nat_of_ascii c in
  if ((48 <=? n) && (n <=? 57))%nat then Some (n - 48)
  else if ((97 <=? n) && (n <=? 102))%nat then Some (n - 87)
  else if ((65 <=? n) && (n <=? 70))%nat then Some (n - 55)
  else None.

Definition cons_char (c : ascii) (r : option (string * string))
  : option (string * string) :=
  match r with
  | Some (s, rest) => Some (String c s, rest)
  | None => None
  end.

(** The one-letter escapes. *)
Definition escape (e : ascii) : option ascii :=
  let n := nat_of_ascii e in
  if ((n =? 34) || (n =? 92) || (n =? 47))%nat then Some e
  else if (n =? 98)%nat then Some "008"%char
  else if (n =? 102)%nat then Some "012"%char
  else if (n =? 110)%nat then Some "010"%char
  else if (n =? 114)%nat then Some "013"%char
  else if (n =? 116)%nat then Some "009"%char
  else None.

(** A string literal, read from behind its opening quote.  An escape
    [\uXXXX] is decoded when the code point is below 256. *)
Fixpoint scan_string (s : string) : option (string * string) :=
  match s with
  | EmptyString => None
  | String c r =>
      if Ascii.eqb c "034"%char then Some (EmptyString, r)
      else if Ascii.eqb c "\"%char then
        match r with
        | EmptyString => None
        | String e r' =>
            if Ascii.eqb e "u"%char then
              match r' with
              | String h1 (String h2 (String h3 (String h4 r''))) =>
                  match hex_value h1, hex_value h2, hex_value h3, hex_value h4 with
                  | Some 0, Some 0, Some a, Some b =>
                      cons_char (ascii_of_nat (16 * a + b)) (scan_string r'')
                  | _, _, _, _ => None
                  end
              | _ => None
              end
            else
              match escape e with
              | Some c' => cons_char c' (scan_string r')
              | None => None
              end
        end
      else if (nat_of_ascii c <? 32)%nat then None
      else cons_char c (scan_string r)
  end.

(** The lexeme of a number: sign, integer part, fraction, exponent. *)
Definition scan_number (s : string) : option (string * string) :=
  let '(sign, s1) :=
    match s with
    | String c r => if Ascii.eqb c "-"%char then ("-", r) else ("", s)
    | EmptyString => ("", s)
    end in
  let '(int, s2) :=
    match s1 with
    | String c r => if Ascii.eqb c "0"%char then ("0", r) else digits s1
    | EmptyString => ("", s1)
    end in
  match int with
  | EmptyString => None
  | _ =>
      let '(frac, s3) :=
        match s2 with
        | String c r =>
            if Ascii.eqb c "."%char then
              match digits r with
              | (EmptyString, _) => ("", s2)
              | (f, r') => (String c f, r')
              end
            else ("", s2)
        | EmptyString => ("", s2)
        end in
      let '(exp, s4) :=
        match s3 with
        | String c r =>
            if Ascii.eqb c "e"%char || Ascii.eqb c "E"%char then
              let '(esign, r1) :=
                match r with
                | String c' r' =>
                    if Ascii.eqb c' "-"%char || Ascii.eqb c' "+"%char
                    then (String c' "", r') else ("", r)
                | EmptyString => ("", r)
                end in
              match digits r1 with
              | (EmptyString, _) => ("", s3)
              | (d, r2) => (String c (esign ++ d), r2)
              end
            else ("", s3)
        | EmptyString => ("", s3)
        end in
      Some (sign ++ int ++ frac ++ exp, s4)
  end.

(** A keyword at the head of [s]. *)
Definition keyword (k : string) (v : pyval) (s : string)
  : option (pyval * string) :=
  if String.prefix k s then Some (v, slice_from (String.length k) s) else None.

(** One value at the head of [s]; the members of an object and the
    elements of an array, read from behind the opening bracket with the
    entries found so far.  A repeated key keeps its last value. *)
Fixpoint value (fuel : nat) (s : string) {struct fuel}
  : option (pyval * string) :=
  match fuel with
  | 0 => None
  | S fuel' =>
      match s with
      | EmptyString => None
      | String c r =>
          if Ascii.eqb c "{"%char then
            match skip_ws r with
            | String c' r' =>
                if Ascii.eqb c' "}"%char then Some (PyDict [], r')
                else members fuel' (String c' r') []
            | EmptyString => None
            end
          else if Ascii.eqb c "["%char then
            match skip_ws r with
            | String c' r' =>
                if Ascii.eqb c' "]"%char then Some (PyList [], r')
                else elements fuel' (String c' r') []
            | EmptyString => None
            end
          else if Ascii.eqb c "034"%char then
            match scan_string r with
            | Some (str, r') => Some (PyStr str, r')
            | None => None
            end
          else if String.prefix "null" s then keyword "null" PyNone s
          else if String.prefix "true" s then keyword "true" (PyBool true) s
          else if String.prefix "false" s then keyword "false" (PyBool false) s
          else if String.prefix "NaN" s then keyword "NaN" (PyNum "NaN") s
          else if String.prefix "Infinity" s
          then keyword "Infinity" (PyNum "Infinity") s
          else if String.prefix "-Infinity" s
          then keyword "-Infinity" (PyNum "-Infinity") s
          else
            match scan_number s with
            | Some (lexeme, r') => Some (PyNum lexeme, r')
            | None => None
            end
      end
  end
with members (fuel : nat) (s : string) (acc : list (string * pyval))
  {struct fuel} : option (pyval * string) :=
  match fuel with
  | 0 => None
  | S fuel' =>
      match s with
      | EmptyString => None
      | String c r =>
          if Ascii.eqb c "034"%char then
            match scan_string r with
            | Some (key, r1) =>
                match skip_ws r1 with
                | String c1 r2 =>
                    if Ascii.eqb c1 ":"%char then
                      match value fuel' (skip_ws r2) with
                      | Some (v, r3) =>
                          let acc' := dict_set acc key v in
                          match skip_ws r3 with
                          | String c3 r4 =>
                              if Ascii.eqb c3 ","%char
                              then members fuel' (skip_ws r4) acc'
                              else if Ascii.eqb c3 "}"%char
                              then Some (PyDict acc', r4)
                              else None
                          | EmptyString => None
                          end
                      | None => None
                      end
                    else None
                | EmptyString => None
                end
            | None => None
            end
          else None
      end
  end
with elements (fuel : nat) (s : string) (acc : list pyval)
  {struct fuel} : option (pyval * string) :=
  match fuel with
  | 0 => None
  | S fuel' =>
      match value fuel' s with
      | Some (v, r) =>
          match skip_ws r with
          | String c r1 =>
              if Ascii.eqb c ","%char
              then elements fuel' (skip_ws r1) (acc ++ [v])
              else if Ascii.eqb c "]"%char
              then Some (PyList (acc ++ [v]), r1)
              else None
          | EmptyString => None
          end
      | None => None
      end
  end.

(** A decoder for [json.loads].  The text of its errors is shorter than
    the library's, which also gives the position. *)
Definition loads (s : string) : result pyval :=
  match value (2 * String.length s + 2) (skip_ws s) with
  | Some (v, r) =>
      match skip_ws r with
      | EmptyString => Ok v
      | _ => Raise (Exn JSONDecodeError "Extra data")
      end
  | None => Raise (Exn JSONDecodeError "Expecting value")
  end.

End Json.

Module Format.

(** [str.format] for a template whose replacement fields are plain names:
    [{labels}] and [{text}] are filled in, [{{] and [}}] are the two
    braces, another name is a [KeyError], the empty name an [IndexError]
    (no positional argument is passed) and a brace left alone a
    [ValueError].  [field] is the name being read, if any. *)
Fixpoint fill (labels_ text_ : string) (field : option string) (s : string)
  : result string :=
  match field, s with
  | None, EmptyString => Ok EmptyString
  | Some _, EmptyString =>
      Raise (Exn ValueError "expected '}' before end of string")
  | None, String c r =>
      if Ascii.eqb c "{"%char then
        match r with
        | String c' r' =>
            if Ascii.eqb c' "{"%char
            then (out <- fill labels_ text_ None r' ;; Ok (String c out))%py
            else fill labels_ text_ (Some EmptyString) r
        | EmptyString =>
            Raise (Exn ValueError "Single '{' encountered in format string")
        end
      else if Ascii.eqb c "}"%char then
        match r with
        | String c' r' =>
            if Ascii.eqb c' "}"%char
            then (out <- fill labels_ text_ None r' ;; Ok (String c out))%py
            else Raise (Exn ValueError "Single '}' encountered in format string")
        | EmptyString =>
            Raise (Exn ValueError "Single '}' encountered in format string")
        end
      else (out <- fill labels_ text_ None r ;; Ok (String c out))%py
  | Some name, String c r =>
      if Ascii.eqb c "}"%char then
        if (name =? "labels")%string
        then (out <- fill labels_ text_ None r ;; Ok (labels_ ++ out))%py
        else if (name =? "text")%string
        then (out <- fill labels_ text_ None r ;; Ok (text_ ++ out))%py
        else if (name =? "")%string
        then Raise (Exn IndexError
               "Replacement index 0 out of range for positional args tuple")
        else Raise (Exn KeyError (repr name))
      else fill labels_ text_ (Some (name ++ String c EmptyString)) r
  end.

Definition format (template labels_ text_ : string) : result string :=
  fill labels_ text_ None template.

End Format.

Module Scripted.

(** A remote service that plays a script: each request takes the next
    reply of the list, and fails to connect when none is left. *)
Definition World : Type := list (result ChatCompletion).

Definition create (req : ChatRequest) (w : World)
  : result ChatCompletion * World :=
  match w with
  | reply :: w' => (reply, w')
  | [] => (Raise (Exn (LibraryError "APIConnectionError") "Connection error."), [])
  end.

(** A reply with one choice. *)
Definition says (content_ : string) : result ChatCompletion :=
  Ok {| choices := [Some content_] |}.

End Scripted.

Module Canned.

(** A remote service without memory: it cannot be reached for a prompt
    that mentions an outage, and answers every other prompt alike. *)
Definition create (reply : string) (req : ChatRequest) (w : unit)
  : result ChatCompletion * unit :=
  (if existsb (fun m => contains "outage" (content m)) (req_messages req)
   then Raise (Exn (LibraryError "APIConnectionError") "Connection error.")
   else Scripted.says reply,
   tt).

End Canned.

(** The engine over the three instances. *)
Definition parse (self : TextClassifier) (response_text : string)
  : result Parsed :=
  _parse_response Json.loads self (Some response_text).

Definition run_classify (self : TextClassifier) (text_ : string)
  (script : Scripted.World) :=
  classify Json.loads Format.format Scripted.create self text_
    (fresh script).

Definition run_classify_batch (self : TextClassifier) (texts : list string)
  (script : Scripted.World) :=
  classify_batch Json.loads Format.format Scripted.create self texts
    (fresh script).

(** An engine with the default labels, and one with two labels. *)
Definition default_engine : TextClassifier :=
  {| api_key := "sk-test"; model := "gpt-3.5-turbo";
     labels := _default_labels;
     prompt_template := _default_prompt_template |}.

Definition two_label_engine : TextClassifier :=
  {| api_key := "sk-test"; model := "gpt-3.5-turbo";
     labels := ["Complaint"; "Inquiry"];
     prompt_template := _default_prompt_template |}.

(** The raw output [{"label":"complaint","confidence":0.9}]. *)
Definition lowercase_complaint : string :=
  "{" ++ dq ++ "label" ++ dq ++ ":" ++ dq ++ "complaint" ++ dq ++ ","
  ++ dq ++ "confidence" ++ dq ++ ":0.9}".

(** The raw output
    [{"label":"Inquiry","confidence":0.95,"rationale":"..."}]. *)
Definition inquiry_reply : string :=
  "{" ++ dq ++ "label" ++ dq ++ ":" ++ dq ++ "Inquiry" ++ dq ++ ","
  ++ dq ++ "confidence" ++ dq ++ ":0.95,"
  ++ dq ++ "rationale" ++ dq ++ ":" ++ dq ++ "..." ++ dq ++ "}".

(** The raw output [{"label":"Other","confidence":1.7}], with a
    confidence out of range. *)
Definition overconfident_reply : string :=
  "{" ++ dq ++ "label" ++ dq ++ ":" ++ dq ++ "Other" ++ dq ++ ","
  ++ dq ++ "confidence" ++ dq ++ ":1.7}".

(** [lowercase_complaint] between fence markers of its own. *)
Definition fenced_complaint : string := "```" ++ lowercase_complaint ++ "```".

(** An environment without a key and without files, and one with a key. *)
Definition bare_env : Env :=
  {| OPENAI_API_KEY := None; config_files := fun _ => Absent |}.

Definition keyed_env : Env :=
  {| OPENAI_API_KEY := Some "sk-env"; config_files := fun _ => Absent |}.

(** An environment with a key and one configuration file. *)
Definition env_with_config : Env :=
  {| OPENAI_API_KEY := Some "sk-env";
     config_files := fun path =>
       if (path =? "labels.json")%string
       then Document {| cfg_labels := Some ["Spam"; "Ham"];
                        cfg_prompt_template := None |}
       else Absent |}.

(** An environment with a key and the files of a directory: a file with
    one label, a file without labels, a text that is no JSON, and a
    limit of 255 characters on a name. *)
Definition env_with_files : Env :=
  {| OPENAI_API_KEY := Some "sk-env";
     config_files := fun path =>
       if (255 <? String.length path)%nat
       then StatError (Exn (LibraryError "OSError")
                         ("[Errno 36] File name too long: " ++ repr path))
       else if (path =? "one.json")%string
       then Document {| cfg_labels := Some ["Solo"];
                        cfg_prompt_template := None |}
       else if (path =? "template.json")%string
       then Document {| cfg_labels := None;
                        cfg_prompt_template := Some "{labels}: {text}" |}
       else if (path =? "notes.txt")%string
       then ReadError (Exn JSONDecodeError
                         "Expecting value: line 1 column 1 (char 0)")
       else Absent |}.

(** A name of 300 characters. *)
Definition long_name : string :=
  String.concat "" (repeat "a" 300).

(** * The callers of the engine

    The command line of [text_classifier.py], the handlers of [app.py]
    and the key setup of [setup_api_key.py].  Printing is left out; what
    a caller reads and what it hands back is kept. *)

(** ** More of Python *)

(** [s.split(sep)] for a separator of one character: the pieces between
    the separators, the empty ones included; never the empty list. *)
Fixpoint split_on (sep : ascii) (s : string) : list string :=
  match s with
  | EmptyString => [EmptyString]
  | String c s' =>
      if Ascii.eqb c sep then EmptyString :: split_on sep s'
      else
        match split_on sep s' with
        | piece :: pieces => String c piece :: pieces
        | [] => [String c EmptyString]
        end
  end.

(** [s.split('\n')] *)
Definition split_lines (s : string) : list string := split_on "010"%char s.

(** What a file opened for reading in text mode hands to the program:
    a carriage return with a line feed behind it, and a carriage return
    on its own, are read as one line feed. *)
Fixpoint universal_newlines (s : string) : string :=
  match s with
  | EmptyString => EmptyString
  | String c r =>
      if Ascii.eqb c "013"%char then
        match r with
        | String c' _ =>
            if Ascii.eqb c' "010"%char then universal_newlines r
            else String "010"%char (universal_newlines r)
        | EmptyString => nl
        end
      else String c (universal_newlines r)
  end.

(** The digits of a number lexeme, before the exponent. *)
Fixpoint mantissa (lexeme : string) : string :=
  match lexeme with
  | EmptyString => EmptyString
  | String c r =>
      if Ascii.eqb c "e"%char || Ascii.eqb c "E"%char then EmptyString
      else String c (mantissa r)
  end.

Fixpoint all_chars (p : ascii -> bool) (s : string) : bool :=
  match s with
  | EmptyString => true
  | String c r => p c && all_chars p r
  end.

(** Is the number written as zero?  For a lexeme of the JSON grammar:
    every digit of the mantissa is a zero.  [NaN] and [Infinity] are
    not. *)
Definition zero_lexeme (lexeme : string) : bool :=
  all_chars (fun c => Ascii.eqb c "0"%char || Ascii.eqb c "-"%char
                      || Ascii.eqb c "."%char)
            (mantissa lexeme).

(** [bool(v)].  The truth value of a number is left to [number_truthy],
    which is given its lexeme: an [int] is true when it is not written
    as zero, but a [float] is rounded first, and may be rounded to
    zero. *)
Definition py_truthy (number_truthy : string -> bool) (v : pyval) : bool :=
  match v with
  | PyNone => false
  | PyBool b => b
  | PyNum lexeme => number_truthy lexeme
  | PyStr s => truthy s
  | PyList items => match items with [] => false | _ => true end
  | PyDict d => match d with [] => false | _ => true end
  end.

(** [v.get(k, default)] *)
Definition py_get_or (v : pyval) (k : string) (default : pyval) : result pyval :=
  match v with
  | PyDict d =>
      Ok (match dict_lookup d k with Some x => x | None => default end)
  | _ =>
      Raise (Exn AttributeError
        ("'" ++ type_name v ++ "' object has no attribute 'get'"))
  end.

(** [v.strip()] *)
Definition py_strip (v : pyval) : result string :=
  match v with
  | PyStr s => Ok (strip s)
  | _ =>
      Raise (Exn AttributeError
        ("'" ++ type_name v ++ "' object has no attribute 'strip'"))
  end.

(** [str(v)]: a string is itself; the text of any other value (of a
    float, say) is left to [str_other]. *)
Definition py_str (str_other : pyval -> string) (v : pyval) : string :=
  match v with
  | PyStr s => s
  | _ => str_other v
  end.

(** [len(l)] as the number [jsonify] writes. *)
Definition py_len {A : Type} (l : list A) : pyval :=
  PyNum (NilZero.string_of_uint (Nat.to_uint (List.length l))).

(** [error] is set and not empty: the test [if result.error:]. *)
Definition error_shown (error_ : option string) : option string :=
  match error_ with
  | Some message => if truthy message then Some message else None
  | None => None
  end.

(** ** [classify] on a value that is no string

    [classify_batch] of the web application is handed a decoded JSON
    list, whose elements need not be strings.  The test that opens
    [classify] is [not text or not text.strip()]: a false value is
    answered like the empty text, and any other value that is no string
    has no [strip]; that [AttributeError] is raised before the [try]
    block, so it leaves [classify]. *)

(** A [ClassificationResult] whose [text] may be any value. *)
Record AnyResult : Type := {
  any_text : pyval;
  any_predicted_label : pyval;
  any_confidence : pyval;
  any_rationale : pyval;
  any_error : option string
}.

Definition of_result (r : ClassificationResult) : AnyResult :=
  {| any_text := PyStr (text r);
     any_predicted_label := predicted_label r;
     any_confidence := confidence r;
     any_rationale := rationale r;
     any_error := error r |}.

(** A line that ends the interactive loop. *)
Definition is_quit (line : string) : bool :=
  mem (lower (strip line)) ["quit"; "exit"; "q"].

(** The texts the interactive loop classifies among the lines it reads:
    the lines, stripped, that are not empty then. *)
Definition spoken (lines : list string) : list string :=
  filter truthy (map strip lines).

Section Callers.

Variable json_loads : string -> result pyval.
Variable str_format : string -> string -> string -> result string.
Variable str_other : pyval -> string.
Variable number_truthy : string -> bool.
Variable World : Type.
Variable remote_create : ChatRequest -> World -> result ChatCompletion * World.

Definition classify_value (self : TextClassifier) (v : pyval)
  : Py World AnyResult :=
  match v with
  | PyStr s =>
      fun st =>
        match classify json_loads str_format remote_create self s st with
        | (Ok r, st') => (Ok (of_result r), st')
        | (Raise e, st') => (Raise e, st')
        end
  | _ =>
      if negb (py_truthy number_truthy v) then
        ret {| any_text := v;
               any_predicted_label := PyStr "Other";
               any_confidence := PyNone;
               any_rationale := PyNone;
               any_error := Some "Empty text provided" |}
      else
        lift (Raise (Exn AttributeError
                ("'" ++ type_name v ++ "' object has no attribute 'strip'")))
  end.

(** The loop of [classify_batch] on such a list. *)
Fixpoint classify_values_loop (self : TextClassifier) (texts : list pyval)
  (results : list AnyResult) : Py World (list AnyResult) :=
  match texts with
  | [] => ret results
  | v :: texts' =>
      bind_py (classify_value self v)
        (fun result => classify_values_loop self texts' (results ++ [result]))
  end.

Definition classify_values (self : TextClassifier) (texts : list pyval)
  : Py World (list AnyResult) :=
  classify_values_loop self texts [].

(** ** The command line: [main] of [text_classifier.py] *)

(** The texts of a file, read from its content: a JSON list gives its
    elements as strings, any other JSON value the content as one text,
    and a content that is no JSON its lines, stripped, without the blank
    ones.  An exception that is no [JSONDecodeError] is not handled
    here. *)
Definition texts_of_content (content : string) : result (list string) :=
  match json_loads content with
  | Ok (PyList items) => Ok (map (py_str str_other) items)
  | Ok _ => Ok [content]
  | Raise e =>
      if is_JSONDecodeError e
      then Ok (map strip
                 (filter (fun line => truthy (strip line))
                         (split_lines content)))
      else Raise e
  end.

(** [main] reads the file and strips it first. *)
Definition cli_texts (file_content : string) : result (list string) :=
  let content := strip file_content in
  texts_of_content content.

(** One entry of the output list of [main]. *)
Definition cli_item (r : ClassificationResult) : list (string * pyval) :=
  let item := [("text", PyStr (text r));
               ("predicted_label", predicted_label r)] in
  let item :=
    match confidence r with
    | PyNone => item
    | c => dict_set item "confidence" c
    end in
  let item :=
    if py_truthy number_truthy (rationale r)
    then dict_set item "rationale" (rationale r) else item in
  match error_shown (error r) with
  | Some message => dict_set item "error" (PyStr message)
  | None => item
  end.

(** What one round of the interactive loop prints on standard output. *)
Definition interactive_item (r : ClassificationResult)
  : list (string * pyval) :=
  let output := [("text", PyStr (text r));
                 ("predicted_label", predicted_label r);
                 ("confidence", confidence r);
                 ("rationale", rationale r)] in
  match error_shown (error r) with
  | Some message => dict_set output "error" (PyStr message)
  | None => output
  end.

(** The interactive loop.  [inputs] are the lines still to be read from
    standard input, after which [input] raises [EOFError] for good, as
    on a pipe.  That error is an [Exception]: the loop prints it and goes
    round again.  [fuel] bounds the rounds; the value is [None] when the
    loop is still running after them, and else what was printed on
    standard output and the state at the exit. *)
Fixpoint interactive (fuel : nat) (self : TextClassifier)
  (inputs : list string) (st : Sys World)
  (printed : list (list (string * pyval)))
  : option (list (list (string * pyval)) * Sys World) :=
  match fuel with
  | 0 => None
  | S fuel' =>
      match inputs with
      | [] => interactive fuel' self [] st printed
      | line :: inputs' =>
          let text_ := strip line in
          if mem (lower text_) ["quit"; "exit"; "q"] then Some (printed, st)
          else if negb (truthy text_)
          then interactive fuel' self inputs' st printed
          else
            match classify json_loads str_format remote_create self text_ st with
            | (Ok result, st') =>
                interactive fuel' self inputs' st'
                  (printed ++ [interactive_item result])
            | (Raise e, st') => interactive fuel' self inputs' st' printed
            end
      end
  end.

End Callers.

Arguments classify_value json_loads str_format number_truthy {World}
  remote_create self v _.
Arguments classify_values_loop json_loads str_format number_truthy {World}
  remote_create self texts results _.
Arguments classify_values json_loads str_format number_truthy {World}
  remote_create self texts _.
Arguments interactive json_loads str_format {World} remote_create
  fuel self inputs st printed.

(** ** The web application: [app.py] *)

Module App.

(** The module level state: the global [classifier], and the remote
    service with its log. *)
Record State (World : Type) : Type := {
  classifier : option TextClassifier;
  sys : Sys World
}.

Arguments classifier {World} _.
Arguments sys {World} _.

(** The engine's [classify_batch], which a handler of the same name
    hides below. *)
Local Abbreviation engine_classify_batch := (@classify_batch).

(** What a handler returns: the object given to [jsonify] and the status
    code, 200 when the source gives none. *)
Definition Response : Type := (pyval * nat)%type.

Definition error_body (message : string) : pyval :=
  PyDict [("error", PyStr message)].

(** The dict a handler builds for one result. *)
Definition item (r : AnyResult) : list (string * pyval) :=
  let response := [("text", any_text r);
                   ("predicted_label", any_predicted_label r);
                   ("confidence", any_confidence r);
                   ("rationale", any_rationale r)] in
  match error_shown (any_error r) with
  | Some message => dict_set response "error" (PyStr message)
  | None => response
  end.

(** The engine [TextClassifier()] builds from a key of the environment. *)
Definition default_classifier (key : string) : TextClassifier :=
  {| api_key := key; model := "gpt-3.5-turbo"; labels := _default_labels;
     prompt_template := _default_prompt_template |}.

(** The message of the constructor when there is no key. *)
Definition no_key_message : string :=
  "OpenAI API key not found. Set OPENAI_API_KEY environment variable or pass api_key parameter.".

Section Handlers.

Variable json_loads : string -> result pyval.
Variable str_format : string -> string -> string -> result string.
Variable str_other : pyval -> string.
Variable number_truthy : string -> bool.
Variable World : Type.
Variable remote_create : ChatRequest -> World -> result ChatCompletion * World.

(** The environment of the process. *)
Variable env : Env.

(** [init_classifier]: [TextClassifier()] with every argument at its
    default. *)
Definition init_classifier (app : State World)
  : (bool * string) * State World :=
  match __init__ env None "gpt-3.5-turbo" None None with
  | Ok c =>
      ((true, "Classifier initialized successfully"),
       {| classifier := Some c; sys := sys app |})
  | Raise e => ((false, exn_str e), app)
  end.

(** The lines that open each handler: the classifier is built at the
    first request that needs it.  The value is the response that ends
    the handler, or the state to go on with. *)
Definition need_classifier (app : State World) : Response + State World :=
  match classifier app with
  | Some _ => inr app
  | None =>
      match init_classifier app with
      | ((true, _), app') => inr app'
      | ((false, message), app') =>
          inl (error_body ("Failed to initialize classifier: " ++ message), 500)
      end
  end.

(** The same lines in [get_status], which answers a failure with the
    status code 200. *)
Definition need_status (app : State World) : Response + State World :=
  match classifier app with
  | Some _ => inr app
  | None =>
      match init_classifier app with
      | ((true, _), app') => inr app'
      | ((false, message), app') =>
          inl (PyDict [("status", PyStr "error");
                       ("message", PyStr message);
                       ("labels", PyList [])], 200)
      end
  end.

(** [POST /api/classify], with [data] the decoded body.  What is raised
    before the [try] block leaves the handler. *)
Definition classify_text (data : pyval) (app : State World)
  : result Response * State World :=
  match need_classifier app with
  | inl response => (Ok response, app)
  | inr app =>
      match (v <- py_get_or data "text" (PyStr "") ;; py_strip v)%py with
      | Raise e => (Raise e, app)
      | Ok text_ =>
          if negb (truthy text_)
          then (Ok (error_body "No text provided", 400), app)
          else
            match classifier app with
            | None =>
                (Ok (error_body
                       "'NoneType' object has no attribute 'classify'", 500),
                 app)
            | Some c =>
                match classify json_loads str_format remote_create c text_
                        (sys app) with
                | (Ok r, st) =>
                    (Ok (PyDict (item (of_result r)), 200),
                     {| classifier := classifier app; sys := st |})
                | (Raise e, st) =>
                    (Ok (error_body (exn_str e), 500),
                     {| classifier := classifier app; sys := st |})
                end
            end
      end
  end.

(** The body both batch handlers answer with. *)
Definition batch_body (results : list AnyResult) : pyval :=
  let response := map (fun r => PyDict (item r)) results in
  PyDict [("results", PyList response); ("count", py_len response)].

(** [POST /api/classify-batch] *)
Definition classify_batch (data : pyval) (app : State World)
  : result Response * State World :=
  match need_classifier app with
  | inl response => (Ok response, app)
  | inr app =>
      match py_get_or data "texts" (PyList []) with
      | Raise e => (Raise e, app)
      | Ok texts =>
          match texts with
          | PyList (v :: vs) =>
              if (100 <? List.length (v :: vs))%nat
              then (Ok (error_body "Maximum 100 texts per batch", 400), app)
              else
                match classifier app with
                | None =>
                    (Ok (error_body
                           "'NoneType' object has no attribute 'classify_batch'",
                         500), app)
                | Some c =>
                    match classify_values json_loads str_format number_truthy
                            remote_create c (v :: vs) (sys app) with
                    | (Ok results, st) =>
                        (Ok (batch_body results, 200),
                         {| classifier := classifier app; sys := st |})
                    | (Raise e, st) =>
                        (Ok (error_body (exn_str e), 500),
                         {| classifier := classifier app; sys := st |})
                    end
                end
          | _ =>
              (Ok (error_body "No texts provided or invalid format", 400), app)
          end
      end
  end.

(** [POST /api/classify-file].  [upload] is the part named [file] of the
    request, when there is one: its file name, and its content decoded
    as UTF-8 or the error of the decoding. *)
Definition classify_file (upload : option (string * result string))
  (app : State World) : result Response * State World :=
  match need_classifier app with
  | inl response => (Ok response, app)
  | inr app =>
      match upload with
      | None => (Ok (error_body "No file provided", 400), app)
      | Some (filename, decoded) =>
          if (filename =? "")%string
          then (Ok (error_body "No file selected", 400), app)
          else
            match (content <- decoded ;;
                   texts_of_content json_loads str_other content)%py with
            | Raise e => (Ok (error_body (exn_str e), 500), app)
            | Ok [] =>
                (Ok (error_body "No valid texts found in file", 400), app)
            | Ok texts =>
                if (100 <? List.length texts)%nat
                then (Ok (error_body "Maximum 100 texts per file", 400), app)
                else
                  match classifier app with
                  | None =>
                      (Ok (error_body
                             "'NoneType' object has no attribute 'classify_batch'",
                           500), app)
                  | Some c =>
                      match engine_classify_batch json_loads str_format World
                              remote_create c texts (sys app) with
                      | (Ok results, st) =>
                          (Ok (batch_body (map of_result results), 200),
                           {| classifier := classifier app; sys := st |})
                      | (Raise e, st) =>
                          (Ok (error_body (exn_str e), 500),
                           {| classifier := classifier app; sys := st |})
                      end
                  end
            end
      end
  end.

(** [GET /api/status] *)
Definition get_status (app : State World) : result Response * State World :=
  match need_status app with
  | inl response => (Ok response, app)
  | inr app =>
      match classifier app with
      | None =>
          (Raise (Exn AttributeError
                    "'NoneType' object has no attribute 'labels'"), app)
      | Some c =>
          (Ok (PyDict [("status", PyStr "ready");
                       ("labels", PyList (map PyStr (labels c)));
                       ("model", PyStr (model c))], 200), app)
      end
  end.

End Handlers.

Arguments init_classifier {World} env app.
Arguments need_classifier {World} env app.
Arguments need_status {World} env app.
Arguments classify_text json_loads str_format {World} remote_create env
  data app.
Arguments classify_batch json_loads str_format number_truthy {World}
  remote_create env data app.
Arguments classify_file json_loads str_format str_other {World} remote_create
  env upload app.
Arguments get_status {World} env app.

End App.

(** ** The key setup: [setup_api_key.py] *)

Module Setup.

Definition key_name : string := "OPENAI_API_KEY=".

(** What the loop over the lines of [.env] makes of one line. *)
Definition replace_line (api_key line : string) : string :=
  if startswith key_name line then key_name ++ api_key else line.

(** The new content of an [.env] file that exists. *)
Definition update_content (content api_key : string) : string :=
  if contains key_name content then
    let lines := split_lines content in
    let new_lines := map (replace_line api_key) lines in
    join nl new_lines
  else content ++ nl ++ key_name ++ api_key ++ nl.

(** The content of a new [.env] file. *)
Definition new_content (api_key : string) : string :=
  "# OpenAI API Configuration" ++ nl ++ key_name ++ api_key ++ nl.

(** What a run that saves the key leaves in [.env]: the updated text of
    the file as it is read, or the text of a new file.  The text is
    stored as it is written: the line separator of the system is the
    line feed. *)
Definition written (env_file : option string) (api_key : string) : string :=
  match env_file with
  | Some stored => update_content (universal_newlines stored) api_key
  | None => new_content api_key
  end.

(** [os.environ['OPENAI_API_KEY'] = api_key]: the environment takes no
    value that holds the character NUL. *)
Definition set_environ (api_key : string) : result unit :=
  if has_char "000"%char api_key
  then Raise (Exn ValueError "embedded null byte")
  else Ok tt.

(** [setup_api_key].  [inputs] are the lines typed at the prompts,
    [env_file] the characters stored in [.env] when the file exists (a
    file that can be read and written), [files] the file system the
    engine looks into.  The value is what the function returns or
    raises, and the characters stored in [.env] afterwards.  [input] at
    the end of the input raises.  The key is put into the environment
    after the file is written and outside the [try] block that builds
    the engine. *)
Definition setup_api_key (files : string -> ConfigFile)
  (inputs : list string) (env_file : option string)
  : result bool * option string :=
  match inputs with
  | [] =>
      (Raise (Exn (LibraryError "EOFError") "EOF when reading a line"),
       env_file)
  | line :: inputs' =>
      let api_key := strip line in
      if negb (truthy api_key) then (Ok false, env_file)
      else
        let save :=
          let env_file' := Some (written env_file api_key) in
          match set_environ api_key with
          | Raise e => (Raise e, env_file')
          | Ok _ =>
              match __init__ {| OPENAI_API_KEY := Some api_key;
                                config_files := files |}
                      None "gpt-3.5-turbo" None None with
              | Ok _ => (Ok true, env_file')
              | Raise _ => (Ok false, env_file')
              end
          end in
        if negb (startswith "sk-" api_key) then
          match inputs' with
          | [] =>
              (Raise (Exn (LibraryError "EOFError") "EOF when reading a line"),
               env_file)
          | answer :: _ =>
              let confirm := lower (strip answer) in
              if negb (confirm =? "y")%string then (Ok false, env_file)
              else save
          end
        else save
  end.

End Setup.

(** ** Instances for the callers *)

(** An instance of [str_other], for inputs whose values are turned to
    text only when they are strings. *)
Definition no_str (v : pyval) : string := "".

(** The application before its first request, and with the engine of
    the default labels in place, over a scripted remote service. *)
Definition idle_app (script : Scripted.World) : App.State Scripted.World :=
  {| App.classifier := None; App.sys := fresh script |}.

Definition ready_app (script : Scripted.World) : App.State Scripted.World :=
  {| App.classifier := Some default_engine; App.sys := fresh script |}.

(** The handlers over the instances. *)
Definition run_text (env : Env) (data : pyval)
  (app : App.State Scripted.World) :=
  App.classify_text Json.loads Format.format Scripted.create env data app.

(** An instance of [number_truthy], right for the integers. *)
Definition written_nonzero (lexeme : string) : bool :=
  negb (zero_lexeme lexeme).

Definition run_batch (env : Env) (data : pyval)
  (app : App.State Scripted.World) :=
  App.classify_batch Json.loads Format.format written_nonzero Scripted.create
    env data app.

Definition run_file (env : Env) (upload : option (string * result string))
  (app : App.State Scripted.World) :=
  App.classify_file Json.loads Format.format no_str Scripted.create env
    upload app.

(** A reply that fails with an exception without a message. *)
Definition mute_failure : result ChatCompletion :=
  Raise (Exn (LibraryError "TimeoutError") "").

(** * The engine as an object

    In the definitions above an engine is a value: a method that is
    given one has no way to change it.  In the program it is an object,
    and its [labels] is a reference to a list, the list of the caller
    when one is passed: a method could assign to the attribute, or
    change the list.  This part embeds the constructor and the methods
    once more, over a store of objects, with the assignments of the
    source in it: the attributes in [__init__],
    [result["label"] = matching_label] in [_parse_response] and
    [results.append(result)] in [classify_batch]. *)

Module Obj.

(** A reference to an object: its place in the store. *)
Definition ref : Type := nat.

(** The objects that are assigned to, or that the engine keeps: an
    instance of [TextClassifier] with its attributes (a string is kept
    as it is, the list of labels by reference), a list of labels, a dict
    that [json.loads] made, and the list [classify_batch] builds. *)
Inductive object : Type :=
| Instance (api_key model : string) (labels : ref) (prompt_template : string)
| ListOfStr (items : list string)
| DictOf (entries : list (string * pyval))
| ListOfResults (items : list ClassificationResult).

Definition Store : Type := list object.

(** [type(o).__name__] *)
Definition class_name (o : object) : string :=
  match o with
  | Instance _ _ _ _ => "TextClassifier"
  | ListOfStr _ => "list"
  | DictOf _ => "dict"
  | ListOfResults _ => "list"
  end.

(** The store with the object at [r] replaced. *)
Fixpoint update (r : ref) (o : object) (s : Store) : Store :=
  match s, r with
  | [], _ => []
  | _ :: s', 0 => o :: s'
  | x :: s', S r' => x :: update r' o s'
  end.

(** The store, and the remote service with its log. *)
Record Mem (World : Type) : Type := {
  store : Store;
  sys : Sys World
}.

Arguments store {World} _.
Arguments sys {World} _.

(** What [json.loads] returned: a dict is an object of the store, any
    other value is kept as it is. *)
Inductive reply : Type :=
| Held (r : ref)
| Plain (v : pyval).

(** A call of a method. *)
Inductive call : Type :=
| Build (text_ : string)
| Parse (response_text : option string)
| Classify (text_ : string)
| Batch (texts : list string).

Section Methods.

Variable json_loads : string -> result pyval.
Variable str_format : string -> string -> string -> result string.
Variable World : Type.
Variable remote_create : ChatRequest -> World -> result ChatCompletion * World.

(** Computations over the store that may raise. *)
Definition Ob (A : Type) : Type := Mem World -> result A * Mem World.

Definition ob_ret {A : Type} (a : A) : Ob A := fun m => (Ok a, m).

Definition ob_raise {A : Type} (e : exn) : Ob A := fun m => (Raise e, m).

Definition ob_lift {A : Type} (r : result A) : Ob A := fun m => (r, m).

Definition ob_bind {A B : Type} (c : Ob A) (k : A -> Ob B) : Ob B :=
  fun m =>
    match c m with
    | (Ok a, m') => k a m'
    | (Raise e, m') => (Raise e, m')
    end.

(** [try: body except Exception as e: handler(e)]: what the body did to
    the store and to the remote service stays done. *)
Definition ob_try {A : Type} (body : Ob A) (handler : exn -> Ob A) : Ob A :=
  fun m =>
    match body m with
    | (Ok a, m') => (Ok a, m')
    | (Raise e, m') => handler e m'
    end.

Local Notation "x <~ c ;; k" := (ob_bind c (fun x => k))
  (at level 61, c at next level, right associativity).

(** A new object, behind every other. *)
Definition new (o : object) : Ob ref :=
  fun m =>
    (Ok (List.length (store m)),
     {| store := (store m ++ [o])%list; sys := sys m |}).

(** The object at a reference.  A reference of the program always has
    its object. *)
Definition load (r : ref) : Ob object :=
  fun m =>
    match nth_error (store m) r with
    | Some o => (Ok o, m)
    | None => (Raise (Exn (LibraryError "SystemError") "no object"), m)
    end.

(** An assignment to the object at [r]. *)
Definition put (r : ref) (o : object) : Ob unit :=
  fun m => (Ok tt, {| store := update r o (store m); sys := sys m |}).

(** A call of the remote service. *)
Definition remote {A : Type} (c : Sys World -> result A * Sys World) : Ob A :=
  fun m => let '(a, st) := c (sys m) in (a, {| store := store m; sys := st |}).

Definition no_attribute {A : Type} (o : object) (name : string) : Ob A :=
  ob_raise (Exn AttributeError
    ("'" ++ class_name o ++ "' object has no attribute '" ++ name ++ "'")).

(** The list of strings at [r].  Another object in the place of a list
    of labels is outside the model, as it is outside the type of
    [labels] above. *)
Definition list_at (r : ref) : Ob (list string) :=
  o <~ load r ;;
  match o with
  | ListOfStr items => ob_ret items
  | _ => ob_raise (Exn TypeError "no list of labels")
  end.

(** [self.labels], [self.model] and [self.prompt_template] *)
Definition self_labels (self : ref) : Ob (list string) :=
  o <~ load self ;;
  match o with
  | Instance _ _ l _ => list_at l
  | _ => no_attribute o "labels"
  end.

Definition self_model (self : ref) : Ob string :=
  o <~ load self ;;
  match o with
  | Instance _ mdl _ _ => ob_ret mdl
  | _ => no_attribute o "model"
  end.

Definition self_prompt_template (self : ref) : Ob string :=
  o <~ load self ;;
  match o with
  | Instance _ _ _ t => ob_ret t
  | _ => no_attribute o "prompt_template"
  end.

(** ** The constructor *)

(** [labels or self._default_labels()]: the list that is passed, when it
    is not empty, and else a new list. *)
Definition labels_or_default (labels : option ref) : Ob ref :=
  match labels with
  | Some r =>
      items <~ list_at r ;;
      match items with
      | [] => new (ListOfStr _default_labels)
      | _ => ob_ret r
      end
  | None => new (ListOfStr _default_labels)
  end.

(** [TextClassifier(api_key, model, labels, config_file)].  The value is
    the reference to the new instance.  The instance is put into the
    store when [__init__] has assigned its attributes: an instance that
    [__init__] leaves by an exception is referred to by nothing. *)
Definition __init__ (env : Env) (api_key : option string) (model : string)
  (labels : option ref) (config_file : option string) : Ob ref :=
  let self_api_key := or_str api_key (OPENAI_API_KEY env) in
  match self_api_key with
  | None | Some EmptyString =>
      ob_raise (Exn ValueError
        "OpenAI API key not found. Set OPENAI_API_KEY environment variable or pass api_key parameter.")
  | Some key =>
      found <~ ob_lift (existing_config env config_file) ;;
      attributes <~
        match found with
        | Some config =>
            in_file <~
              match cfg_labels config with
              | Some items => r <~ new (ListOfStr items) ;; ob_ret (Some r)
              | None => ob_ret None
              end ;;
            default <~ labels_or_default labels ;;
            ob_ret (match in_file with Some r => r | None => default end,
                    match cfg_prompt_template config with
                    | Some t => t
                    | None => _default_prompt_template
                    end)
        | None =>
            l <~ labels_or_default labels ;;
            ob_ret (l, _default_prompt_template)
        end ;;
      let '(self_labels_, self_prompt_template_) := attributes in
      items <~ list_at self_labels_ ;;
      if match items with [] => true | _ => false end
         || (List.length items <? 2)%nat
      then ob_raise (Exn ValueError
             "At least 2 labels are required for classification")
      else new (Instance key model self_labels_ self_prompt_template_)
  end.

(** ** The methods *)

Definition _build_prompt (self : ref) (text_ : string) : Ob string :=
  labels <~ self_labels self ;;
  let labels_str := join ", " labels in
  template <~ self_prompt_template self ;;
  ob_lift (str_format template labels_str text_).

(** [json.loads(response_text)] *)
Definition loads (response_text : string) : Ob reply :=
  v <~ ob_lift (json_loads response_text) ;;
  match v with
  | PyDict d => r <~ new (DictOf d) ;; ob_ret (Held r)
  | _ => ob_ret (Plain v)
  end.

(** The value of a reply as it is now. *)
Definition value_of (result : reply) : Ob pyval :=
  match result with
  | Held r =>
      o <~ load r ;;
      match o with
      | DictOf d => ob_ret (PyDict d)
      | _ => ob_raise (Exn TypeError "no dict")
      end
  | Plain v => ob_ret v
  end.

(** [k in result], [result[k]] and [result.get(k)] *)
Definition contains_key (k : string) (result : reply) : Ob bool :=
  v <~ value_of result ;; ob_lift (py_contains k v).

Definition getitem (result : reply) (k : string) : Ob pyval :=
  v <~ value_of result ;; ob_lift (py_getitem v k).

Definition get (result : reply) (k : string) : Ob pyval :=
  v <~ value_of result ;; ob_lift (py_get v k).

(** [result[k] = x]: the dict that [result] refers to is changed.  A
    value that is no dict takes no item (a dict is never [Plain]). *)
Definition setitem (result : reply) (k : string) (x : pyval) : Ob unit :=
  match result with
  | Held r =>
      o <~ load r ;;
      match o with
      | DictOf d => put r (DictOf (dict_set d k x))
      | _ => ob_raise (Exn TypeError "no dict")
      end
  | Plain v => _ <~ ob_lift (py_setitem v k x) ;; ob_ret tt
  end.

(** The [raise] of a label that matches nothing. *)
Definition raise_invalid {A : Type} (self : ref) (label : string) : Ob A :=
  labels <~ self_labels self ;;
  ob_raise (Exn ValueError (invalid_label label labels)).

Definition _parse_response (self : ref) (response_text : option string)
  : Ob Parsed :=
  ob_try
    (match response_text with
     | None =>
         ob_raise
           (Exn AttributeError "'NoneType' object has no attribute 'strip'")
     | Some response_text =>
         let response_text := strip response_text in
         let response_text :=
           if startswith "```json" response_text
           then slice_from 7 response_text else response_text in
         let response_text :=
           if startswith "```" response_text
           then slice_from 3 response_text else response_text in
         let response_text :=
           if endswith "```" response_text
           then slice_to_minus 3 response_text else response_text in
         let response_text := strip response_text in
         result <~ loads response_text ;;
         has_label <~ contains_key "label" result ;;
         if negb has_label
         then ob_raise (Exn ValueError "Response missing 'label' field")
         else
           label <~ getitem result "label" ;;
           labels <~ self_labels self ;;
           _ <~
             (if negb (py_in label labels) then
                match label with
                | PyStr label_s =>
                    let label_lower := lower label_s in
                    labels <~ self_labels self ;;
                    let matching_label :=
                      find (fun l => (lower l =? label_lower)%string) labels in
                    match matching_label with
                    | Some m =>
                        if truthy m
                        then setitem result "label" (PyStr m)
                        else raise_invalid self label_s
                    | None => raise_invalid self label_s
                    end
                | _ =>
                    ob_raise (Exn AttributeError
                      ("'" ++ type_name label
                       ++ "' object has no attribute 'lower'"))
                end
              else ob_ret tt) ;;
           predicted_label <~ getitem result "label" ;;
           confidence <~ get result "confidence" ;;
           rationale <~ get result "rationale" ;;
           ob_ret {| parsed_predicted_label := predicted_label;
                     parsed_confidence := confidence;
                     parsed_rationale := rationale |}
     end)
    (fun e =>
       if is_JSONDecodeError e
       then ob_raise
              (Exn ValueError ("Failed to parse JSON response: " ++ exn_str e))
       else ob_raise
              (Exn ValueError ("Error parsing response: " ++ exn_str e))).

Definition classify (self : ref) (text_ : string) : Ob ClassificationResult :=
  if negb (truthy text_) || negb (truthy (strip text_)) then
    ob_ret {| text := text_;
              predicted_label := PyStr "Other";
              confidence := PyNone;
              rationale := PyNone;
              error := Some "Empty text provided" |}
  else
    ob_try
      (prompt <~ _build_prompt self text_ ;;
       model <~ self_model self ;;
       response <~ remote (chat_completions_create remote_create
         {| req_model := model;
            req_messages :=
              [ {| role := "system"; content := system_content |};
                {| role := "user"; content := prompt |} ];
            req_temperature := "0.0";
            req_max_tokens := 200;
            req_response_format := "json_object" |}) ;;
       response_text <~ ob_lift
         (match choices response with
          | [] => Raise (Exn IndexError "list index out of range")
          | choice :: _ => Ok choice
          end) ;;
       parsed <~ _parse_response self response_text ;;
       ob_ret {| text := text_;
                 predicted_label := parsed_predicted_label parsed;
                 confidence := parsed_confidence parsed;
                 rationale := parsed_rationale parsed;
                 error := None |})
      (fun e =>
         ob_ret {| text := text_;
                   predicted_label := PyStr "Other";
                   confidence := PyNone;
                   rationale := PyNone;
                   error := Some (exn_str e) |}).

(** [results.append(result)] *)
Definition append (results : ref) (result : ClassificationResult) : Ob unit :=
  o <~ load results ;;
  match o with
  | ListOfResults items => put results (ListOfResults (items ++ [result]))
  | _ => no_attribute o "append"
  end.

(** The loop of [classify_batch] *)
Fixpoint classify_batch_loop (self : ref) (texts : list string)
  (results : ref) : Ob unit :=
  match texts with
  | [] => ob_ret tt
  | text_ :: texts' =>
      result <~ classify self text_ ;;
      _ <~ append results result ;;
      classify_batch_loop self texts' results
  end.

(** The value is the reference to the list of results. *)
Definition classify_batch (self : ref) (texts : list string) : Ob ref :=
  results <~ new (ListOfResults []) ;;
  _ <~ classify_batch_loop self texts results ;;
  ob_ret results.

(** ** The life of an engine *)

(** One call, whose value or exception is left to the caller. *)
Definition perform (self : ref) (c : call) (m : Mem World) : Mem World :=
  match c with
  | Build text_ => snd (_build_prompt self text_ m)
  | Parse response_text => snd (_parse_response self response_text m)
  | Classify text_ => snd (classify self text_ m)
  | Batch texts => snd (classify_batch self texts m)
  end.

(** Calls one after the other. *)
Fixpoint life (self : ref) (calls : list call) (m : Mem World) : Mem World :=
  match calls with
  | [] => m
  | c :: calls' => life self calls' (perform self c m)
  end.

End Methods.

Arguments ob_ret {World A} a _.
Arguments ob_raise {World A} e _.
Arguments ob_lift {World A} r _.
Arguments ob_bind {World A B} c k _.
Arguments ob_try {World A} body handler _.
Arguments new {World} o _.
Arguments load {World} r _.
Arguments put {World} r o _.
Arguments remote {World A} c _.
Arguments no_attribute {World A} o name _.
Arguments list_at {World} r _.
Arguments self_labels {World} self _.
Arguments self_model {World} self _.
Arguments self_prompt_template {World} self _.
Arguments labels_or_default {World} labels _.
Arguments __init__ {World} env api_key model labels config_file _.
Arguments _build_prompt str_format {World} self text_ _.
Arguments loads json_loads {World} response_text _.
Arguments value_of {World} result _.
Arguments contains_key {World} k result _.
Arguments getitem {World} result k _.
Arguments get {World} result k _.
Arguments setitem {World} result k x _.
Arguments raise_invalid {World A} self label _.
Arguments _parse_response json_loads {World} self response_text _.
Arguments classify json_loads str_format {World} remote_create self text_ _.
Arguments append {World} results result _.
Arguments classify_batch_loop json_loads str_format {World} remote_create
  self texts results _.
Arguments classify_batch json_loads str_format {World} remote_create
  self texts _.
Arguments perform json_loads str_format {World} remote_create self c m.
Arguments life json_loads str_format {World} remote_create self calls m.

(** The engine an instance stands for: its attributes, with the list
    that [labels] refers to. *)
Definition engine_at (s : Store) (self : ref) : option TextClassifier :=
  match nth_error s self with
  | Some (Instance key mdl l t) =>
      match nth_error s l with
      | Some (ListOfStr items) =>
          Some {| api_key := key; model := mdl; labels := items;
                  prompt_template := t |}
      | _ => None
      end
  | _ => None
  end.

(** The list a [labels] argument refers to. *)
Definition argument (s : Store) (labels : option ref)
  : option (list string) :=
  match labels with
  | Some r =>
      match nth_error s r with
      | Some (ListOfStr items) => Some items
      | _ => None
      end
  | None => None
  end.

(** The argument is [None] or refers to a list of strings. *)
Definition typed_argument (s : Store) (labels : option ref) : Prop :=
  match labels with
  | Some r => exists items, nth_error s r = Some (ListOfStr items)
  | None => True
  end.

End Obj.

(** A store with the list of a caller, over a scripted remote service. *)
Definition caller_mem (items : list string) (script : Scripted.World)
  : Obj.Mem Scripted.World :=
  {| Obj.store := [Obj.ListOfStr items]; Obj.sys := fresh script |}.

(** * Properties *)

(** ** Strings *)

Lemma append_assoc (a b c : string) : (a ++ b) ++ c = a ++ (b ++ c).
Proof. induction a as [|x a IH]; simpl; [reflexivity | now rewrite IH]. Qed.

Lemma append_empty_r (a : string) : a ++ "" = a.
Proof. induction a as [|x a IH]; simpl; [reflexivity | now rewrite IH]. Qed.

Lemma append_length (a b : string) :
  String.length (a ++ b) = String.length a + String.length b.
Proof. induction a as [|x a IH]; simpl; [reflexivity | now rewrite IH]. Qed.

Lemma lstrip_all_space (s : string) : all_space s = true -> lstrip s = "".
Proof.
  induction s as [|c s IH]; simpl; [reflexivity |].
  intros H. apply andb_true_iff in H as [Hc Hs]. rewrite Hc. now apply IH.
Qed.

Lemma rstrip_all_space (s : string) : all_space s = true -> rstrip s = "".
Proof.
  induction s as [|c s IH]; simpl; [reflexivity |].
  intros H. apply andb_true_iff in H as [Hc Hs]. now rewrite IH, Hc.
Qed.

Lemma rstrip_empty_inv (s : string) : rstrip s = "" -> all_space s = true.
Proof.
  induction s as [|c s IH]; simpl; [reflexivity |].
  destruct (rstrip s) eqn:E; [| discriminate].
  destruct (isspace c); [intros _; now rewrite IH | discriminate].
Qed.

Lemma strip_all_space (s : string) : all_space s = true -> strip s = "".
Proof. intros H. unfold strip. now rewrite rstrip_all_space. Qed.

Lemma rstrip_cons_keep (c : ascii) (s : string) :
  isspace c = false -> rstrip (String c s) = String c (rstrip s).
Proof. intros H. simpl. destruct (rstrip s); [now rewrite H | reflexivity]. Qed.

Lemma lstrip_app_space (l x : string) :
  all_space l = true -> lstrip (l ++ x) = lstrip x.
Proof.
  induction l as [|c l IH]; simpl; [reflexivity |].
  intros H. apply andb_true_iff in H as [Hc Hl]. rewrite Hc. now apply IH.
Qed.

Lemma rstrip_app_space (x r : string) :
  all_space r = true -> rstrip (x ++ r) = rstrip x.
Proof.
  intros H. induction x as [|c x IH]; simpl.
  - now apply rstrip_all_space.
  - now rewrite IH.
Qed.

Lemma rstrip_app_keep (a b : string) :
  rstrip b <> "" -> rstrip (a ++ b) = a ++ rstrip b.
Proof.
  intros H. induction a as [|c a IH]; simpl; [reflexivity |].
  rewrite IH. destruct (a ++ rstrip b) eqn:E; [| reflexivity].
  destruct a; simpl in E; [contradiction | discriminate].
Qed.

Lemma lstrip_idem (s : string) : lstrip (lstrip s) = lstrip s.
Proof.
  induction s as [|c s IH]; simpl; [reflexivity |].
  destruct (isspace c) eqn:Ec; [exact IH | simpl; now rewrite Ec].
Qed.

Lemma rstrip_idem (s : string) : rstrip (rstrip s) = rstrip s.
Proof.
  induction s as [|c s IH]; simpl; [reflexivity |].
  destruct (rstrip s) as [|c' r] eqn:E.
  - destruct (isspace c) eqn:Ec; simpl; [reflexivity | now rewrite Ec].
  - change (rstrip (String c (String c' r)))
      with (match rstrip (String c' r) with
            | "" => if isspace c then "" else String c ""
            | String a b => String c (String a b)
            end).
    now rewrite IH.
Qed.

Lemma lstrip_rstrip_comm (s : string) : rstrip (lstrip s) = lstrip (rstrip s).
Proof.
  induction s as [|c s IH]; simpl; [reflexivity |].
  destruct (isspace c) eqn:Ec.
  - rewrite IH. destruct (rstrip s); simpl; [reflexivity | now rewrite Ec].
  - rewrite (rstrip_cons_keep c s Ec).
    destruct (rstrip s); simpl; now rewrite Ec.
Qed.

Lemma all_space_lstrip (s : string) :
  all_space (lstrip s) = true -> all_space s = true.
Proof.
  induction s as [|c s IH]; simpl; [reflexivity |].
  destruct (isspace c) eqn:Ec; [exact IH |].
  simpl. now rewrite Ec.
Qed.

Lemma strip_empty_inv (s : string) : strip s = "" -> all_space s = true.
Proof.
  unfold strip. rewrite <- lstrip_rstrip_comm. intros H.
  apply all_space_lstrip. now apply rstrip_empty_inv.
Qed.

Lemma strip_idem (s : string) : strip (strip s) = strip s.
Proof.
  unfold strip.
  now rewrite <- (lstrip_rstrip_comm (lstrip (rstrip s))), lstrip_idem,
    lstrip_rstrip_comm, rstrip_idem.
Qed.

Lemma strip_padded (l s r : string) :
  all_space l = true -> all_space r = true -> strip (l ++ s ++ r) = strip s.
Proof.
  intros Hl Hr. unfold strip.
  rewrite <- append_assoc, (rstrip_app_space _ _ Hr).
  now rewrite <- !lstrip_rstrip_comm, (lstrip_app_space _ _ Hl).
Qed.

Lemma prefix_nil (x : string) : String.prefix "" x = true.
Proof. destruct x; reflexivity. Qed.

Lemma prefix_iff (p x : string) :
  String.prefix p x = true <-> exists y, x = p ++ y.
Proof.
  revert x. induction p as [|a p IH]; intros x.
  - split; [intros _; now exists x | intros _; apply prefix_nil].
  - destruct x as [|b x]; simpl.
    + split; [discriminate | intros [y Hy]; discriminate].
    + destruct (ascii_dec a b) as [->|Hab].
      * rewrite IH. split; intros [y Hy]; exists y; [now rewrite Hy |].
        now injection Hy.
      * split; [discriminate |]. intros [y Hy]. injection Hy as Hb _.
        now subst.
Qed.

Lemma prefix_app (p q x : string) :
  String.prefix (p ++ q) x = true -> String.prefix p x = true.
Proof.
  rewrite !prefix_iff. intros [y Hy]. exists (q ++ y).
  now rewrite <- append_assoc.
Qed.

Lemma slice_from_app (a b : string) : slice_from (String.length a) (a ++ b) = b.
Proof. induction a as [|c a IH]; simpl; [now destruct b | exact IH]. Qed.

Lemma slice_to_app (a b : string) : slice_to (String.length a) (a ++ b) = a.
Proof. induction a as [|c a IH]; simpl; [reflexivity | now rewrite IH]. Qed.

Lemma endswith_app (a p : string) : endswith p (a ++ p) = true.
Proof.
  unfold endswith. rewrite append_length.
  replace (String.length a + String.length p - String.length p)
    with (String.length a) by lia.
  rewrite slice_from_app, String.eqb_refl, andb_true_r.
  apply Nat.leb_le. lia.
Qed.

Lemma slice_to_minus_app (a p : string) :
  slice_to_minus (String.length p) (a ++ p) = a.
Proof.
  unfold slice_to_minus. rewrite append_length.
  replace (String.length a + String.length p - String.length p)
    with (String.length a) by lia.
  apply slice_to_app.
Qed.

(** A text between two fence markers has nothing to strip. *)
Lemma strip_between_fences (x : string) :
  strip ("```" ++ x ++ "```") = "```" ++ x ++ "```".
Proof.
  unfold strip. rewrite <- append_assoc.
  rewrite rstrip_app_keep by (simpl; discriminate).
  reflexivity.
Qed.

Lemma strip_keeps_fence (u : string) :
  String.prefix "```" u = true -> String.prefix "```" (strip u) = true.
Proof.
  rewrite !prefix_iff. intros [y ->]. exists (rstrip y).
  unfold strip. simpl append.
  rewrite !rstrip_cons_keep by reflexivity. reflexivity.
Qed.

(** When [u ++ "```"] begins with a fence marker, either [u] does or [u]
    is at most two backticks. *)
Lemma fence_after (u : string) :
  String.prefix "```" (u ++ "```") = true ->
  String.prefix "```" u = true \/ u = "" \/ u = "`" \/ u = "``".
Proof.
  rewrite prefix_iff. intros [y Hy].
  destruct u as [|c1 [|c2 [|c3 u]]]; simpl in Hy.
  - now right; left.
  - injection Hy as -> _. now right; right; left.
  - injection Hy as -> -> _. now right; right; right.
  - injection Hy as -> -> -> _. left. apply prefix_iff. now exists u.
Qed.

(** The tag is not read out of the closing marker. *)
Lemma json_before_fence (u : string) :
  String.prefix "json" (u ++ "```") = true -> String.prefix "json" u = true.
Proof.
  rewrite !prefix_iff. intros [y Hy].
  destruct u as [|c1 [|c2 [|c3 [|c4 u]]]]; simpl in Hy;
    try discriminate.
  injection Hy as -> -> -> -> _. now exists u.
Qed.

Lemma json_after_space (l s r : string) :
  all_space l = true -> all_space r = true ->
  String.prefix "json" (l ++ s ++ r) = true ->
  l = "" /\ String.prefix "json" s = true.
Proof.
  intros Hl Hr. rewrite !prefix_iff. intros [y Hy].
  destruct l as [|c l].
  - split; [reflexivity |]. simpl in Hy.
    destruct s as [|c1 [|c2 [|c3 [|c4 s]]]]; simpl in Hy.
    + destruct r as [|c r]; [discriminate |].
      injection Hy as -> _. simpl in Hr. discriminate.
    + destruct r as [|c r]; [discriminate |].
      injection Hy as _ -> _. simpl in Hr. discriminate.
    + destruct r as [|c r]; [discriminate |].
      injection Hy as _ _ -> _. simpl in Hr. discriminate.
    + destruct r as [|c r]; [discriminate |].
      injection Hy as _ _ _ -> _. simpl in Hr. discriminate.
    + injection Hy as -> -> -> -> _. now exists s.
  - simpl in Hy. injection Hy as -> _. simpl in Hl. discriminate.
Qed.

Lemma normalize_plain (s : string) :
  startswith "```" (strip s) = false ->
  endswith "```" (strip s) = false ->
  normalize s = strip s.
Proof.
  unfold normalize, startswith. intros Hs He.
  assert (Hj : String.prefix "```json" (strip s) = false).
  { destruct (String.prefix "```json" (strip s)) eqn:E; [| reflexivity].
    apply (prefix_app "```" "json") in E. congruence. }
  rewrite Hj. unfold startswith in Hs. rewrite Hs, He. apply strip_idem.
Qed.

Lemma fence_tagged (l r s : string) :
  fence true l r s = "```" ++ ("json" ++ l ++ s ++ r) ++ "```".
Proof. unfold fence. now rewrite !append_assoc. Qed.

Lemma fence_untagged (l r s : string) :
  fence false l r s = "```" ++ (l ++ s ++ r) ++ "```".
Proof. unfold fence. now rewrite !append_assoc. Qed.

Lemma normalize_fence (tagged : bool) (l r s : string) :
  all_space l = true -> all_space r = true ->
  startswith "```" (strip s) = false ->
  (tagged = false -> l = "" -> startswith "json" s = false) ->
  normalize (fence tagged l r s) = strip s.
Proof.
  intros Hl Hr Hs Hj. unfold normalize.
  destruct tagged.
  - rewrite fence_tagged, strip_between_fences.
    change (startswith "```json" ("```" ++ ("json" ++ l ++ s ++ r) ++ "```"))
      with (String.prefix "" ((l ++ s ++ r) ++ "```")).
    rewrite prefix_nil.
    change (slice_from 7 ("```" ++ ("json" ++ l ++ s ++ r) ++ "```"))
      with ((l ++ s ++ r) ++ "```").
    unfold startswith.
    destruct (String.prefix "```" ((l ++ s ++ r) ++ "```")) eqn:E.
    + apply fence_after in E as [E | E].
      * apply strip_keeps_fence in E.
        rewrite (strip_padded _ _ _ Hl Hr) in E.
        unfold startswith in Hs. congruence.
      * rewrite <- (strip_padded l s r Hl Hr).
        destruct E as [-> | [-> | ->]]; reflexivity.
    + rewrite endswith_app.
      change 3 with (String.length "```").
      rewrite slice_to_minus_app. now apply strip_padded.
  - rewrite fence_untagged, strip_between_fences.
    change (startswith "```json" ("```" ++ (l ++ s ++ r) ++ "```"))
      with (String.prefix "json" ((l ++ s ++ r) ++ "```")).
    destruct (String.prefix "json" ((l ++ s ++ r) ++ "```")) eqn:E.
    + apply json_before_fence in E.
      apply (json_after_space _ _ _ Hl Hr) in E as [El Es].
      unfold startswith in Hj. rewrite (Hj eq_refl El) in Es. discriminate.
    + change (startswith "```" ("```" ++ (l ++ s ++ r) ++ "```"))
        with (String.prefix "" ((l ++ s ++ r) ++ "```")).
      rewrite prefix_nil.
      change (slice_from 3 ("```" ++ (l ++ s ++ r) ++ "```"))
        with ((l ++ s ++ r) ++ "```").
      rewrite endswith_app.
      change 3 with (String.length "```").
      rewrite slice_to_minus_app. now apply strip_padded.
Qed.

(** ** Dicts and label lists *)

Lemma dict_lookup_set_same (d : list (string * pyval)) (k : string) (v : pyval) :
  dict_lookup (dict_set d k v) k = Some v.
Proof.
  induction d as [|[k' v'] d IH]; simpl.
  - now rewrite String.eqb_refl.
  - destruct (k' =? k)%string eqn:E; simpl; now rewrite E.
Qed.

Lemma dict_lookup_set_other (d : list (string * pyval)) (k k' : string)
  (v : pyval) :
  k <> k' -> dict_lookup (dict_set d k v) k' = dict_lookup d k'.
Proof.
  intros Hk. induction d as [|[k0 v0] d IH]; simpl.
  - now apply String.eqb_neq in Hk as ->.
  - destruct (k0 =? k)%string eqn:E; simpl; [| now rewrite IH].
    apply String.eqb_eq in E. subst k0.
    now apply String.eqb_neq in Hk as ->.
Qed.

Lemma dict_get_set_other (d : list (string * pyval)) (k k' : string)
  (v : pyval) :
  k <> k' -> dict_get (dict_set d k v) k' = dict_get d k'.
Proof. intros Hk. unfold dict_get. now rewrite dict_lookup_set_other. Qed.

Lemma mem_In (x : string) (l : list string) : mem x l = true <-> In x l.
Proof.
  unfold mem. rewrite existsb_exists. split.
  - intros [y [Hy E]]. apply String.eqb_eq in E. now subst.
  - intros H. exists x. split; [exact H | apply String.eqb_refl].
Qed.

Lemma py_in_str (s : string) (l : list string) : py_in (PyStr s) l = mem s l.
Proof. reflexivity. Qed.

Lemma py_in_other (v : pyval) (l : list string) :
  (forall s, v <> PyStr s) -> py_in v l = false.
Proof.
  intros H. induction l as [|x l IH]; simpl; [reflexivity |].
  rewrite IH. destruct v; try reflexivity. now destruct (H s).
Qed.

Lemma lower_empty (s : string) : lower s = "" -> s = "".
Proof. destruct s; [reflexivity | discriminate]. Qed.

(** A label found by the search without regard to case, for a label that
    is not in the list, is not the empty string: the test
    [if matching_label:] of the source never fails on a label found. *)
Lemma matching_label_truthy (label m : string) (l : list string) :
  mem label l = false ->
  find (fun x => (lower x =? lower label)%string) l = Some m ->
  truthy m = true.
Proof.
  intros Hmem Hfind. apply find_some in Hfind as [Hin Heq].
  destruct m; [| reflexivity].
  apply String.eqb_eq in Heq. symmetry in Heq. apply lower_empty in Heq.
  subst. apply mem_In in Hin. congruence.
Qed.

(** ** The parser *)

Section ParserProperties.

Variable json_loads : string -> result pyval.

Lemma parse_response_normalize (self : TextClassifier) (a b : string) :
  normalize a = normalize b ->
  _parse_response json_loads self (Some a)
  = _parse_response json_loads self (Some b).
Proof.
  unfold normalize, _parse_response. cbv zeta. intros H. now rewrite H.
Qed.

Lemma parse_response_label (self : TextClassifier) (raw : string)
  (d : list (string * pyval)) (label : string) :
  json_loads (normalize raw) = Ok (PyDict d) ->
  dict_lookup d "label" = Some (PyStr label) ->
  _parse_response json_loads self (Some raw) = parse_outcome self d label.
Proof.
  unfold normalize, _parse_response, parse_outcome. cbv zeta.
  intros Hd Hl. rewrite Hd. simpl. rewrite Hl. simpl.
  rewrite py_in_str.
  destruct (mem label (labels self)) eqn:Hmem; simpl.
  - rewrite Hl. reflexivity.
  - destruct (find _ (labels self)) as [m|] eqn:Hfind; [| reflexivity].
    rewrite (matching_label_truthy _ _ _ Hmem Hfind). simpl.
    rewrite dict_lookup_set_same.
    rewrite !dict_get_set_other by discriminate. reflexivity.
Qed.

Lemma parse_response_ok_inv (self : TextClassifier)
  (response_text : option string) (p : Parsed) :
  _parse_response json_loads self response_text = Ok p ->
  exists raw d label,
    response_text = Some raw
    /\ json_loads (normalize raw) = Ok (PyDict d)
    /\ dict_lookup d "label" = Some (PyStr label)
    /\ parse_outcome self d label = Ok p.
Proof.
  intros H. destruct response_text as [raw|].
  2: { unfold _parse_response in H. simpl in H. discriminate. }
  destruct (json_loads (normalize raw)) as [v|e] eqn:Hd.
  2: { unfold normalize in Hd. unfold _parse_response in H. cbv zeta in H.
       rewrite Hd in H. simpl in H.
       destruct (is_JSONDecodeError e); discriminate. }
  destruct v as [| b | n | s | items | d].
  6: { destruct (dict_lookup d "label") as [v|] eqn:Hl.
       - destruct v as [| b | n | s | items | d'].
         4: { exists raw, d, s. repeat split; try assumption.
              now rewrite <- (parse_response_label self raw d s Hd Hl). }
         all: unfold normalize in Hd; unfold _parse_response in H;
           cbv zeta in H; rewrite Hd in H; simpl in H; rewrite Hl in H;
           simpl in H;
           rewrite py_in_other in H by (intros s'; discriminate);
           simpl in H; discriminate.
       - unfold normalize in Hd. unfold _parse_response in H. cbv zeta in H.
         rewrite Hd in H. simpl in H. rewrite Hl in H. simpl in H.
         discriminate. }
  all: unfold normalize in Hd; unfold _parse_response in H; cbv zeta in H;
    rewrite Hd in H; simpl in H; try discriminate.
  - destruct (contains "label" s); simpl in H; discriminate.
  - destruct (existsb (fun x => eq_str x "label") items); simpl in H;
      discriminate.
Qed.

(** A decoded object without the key ["label"]. *)
Lemma parse_response_missing_label (self : TextClassifier) (raw : string)
  (d : list (string * pyval)) :
  json_loads (normalize raw) = Ok (PyDict d) ->
  dict_lookup d "label" = None ->
  _parse_response json_loads self (Some raw)
  = Raise (Exn ValueError
      "Error parsing response: Response missing 'label' field").
Proof.
  unfold normalize, _parse_response. cbv zeta.
  intros Hd Hl. rewrite Hd. simpl. now rewrite Hl.
Qed.

(** A label that is no string has no [lower]: the parser fails on it
    before it looks for a match. *)
Lemma parse_response_label_not_str (self : TextClassifier) (raw : string)
  (d : list (string * pyval)) (v : pyval) :
  json_loads (normalize raw) = Ok (PyDict d) ->
  dict_lookup d "label" = Some v ->
  (forall s, v <> PyStr s) ->
  _parse_response json_loads self (Some raw)
  = Raise (Exn ValueError
      ("Error parsing response: '" ++ type_name v
       ++ "' object has no attribute 'lower'")).
Proof.
  unfold normalize, _parse_response. cbv zeta.
  intros Hd Hl Hv. rewrite Hd. simpl. rewrite Hl. simpl.
  rewrite (py_in_other v (labels self) Hv). simpl.
  destruct v; try reflexivity. now destruct (Hv s).
Qed.

(** Whatever the decoder raises comes back as a [ValueError]. *)
Lemma parse_response_raises_ValueError (self : TextClassifier)
  (response_text : option string) (e : exn) :
  _parse_response json_loads self response_text = Raise e ->
  exn_cls e = ValueError
  /\ exists message,
       exn_str e = "Failed to parse JSON response: " ++ message
       \/ exn_str e = "Error parsing response: " ++ message.
Proof.
  unfold _parse_response, try_except.
  match goal with
  | |- match ?b with _ => _ end = _ -> _ => destruct b as [p|e0]
  end; [discriminate |].
  destruct (is_JSONDecodeError e0); intros H; injection H as <-;
    (split; [reflexivity |]); exists (exn_str e0); [now left | now right].
Qed.

End ParserProperties.

Lemma parse_outcome_ok (self : TextClassifier) (d : list (string * pyval))
  (label : string) (p : Parsed) :
  parse_outcome self d label = Ok p ->
  exists m, In m (labels self)
    /\ lower m = lower label
    /\ p = {| parsed_predicted_label := PyStr m;
              parsed_confidence := dict_get d "confidence";
              parsed_rationale := dict_get d "rationale" |}.
Proof.
  unfold parse_outcome. destruct (mem label (labels self)) eqn:Hmem.
  - intros H. injection H as <-. exists label.
    apply mem_In in Hmem. now repeat split.
  - destruct (find _ (labels self)) as [m|] eqn:Hfind; [| discriminate].
    intros H. injection H as <-. exists m.
    apply find_some in Hfind as [Hin Heq]. apply String.eqb_eq in Heq.
    now repeat split.
Qed.

(** ** One call *)

Section EngineProperties.

Variable json_loads : string -> result pyval.
Variable str_format : string -> string -> string -> result string.
Variable World : Type.
Variable remote_create : ChatRequest -> World -> result ChatCompletion * World.

Local Abbreviation classify_ := (classify json_loads str_format remote_create).
Local Abbreviation classify_batch_ :=
  (classify_batch json_loads str_format remote_create).
Local Abbreviation classify_batch_loop_ :=
  (classify_batch_loop json_loads str_format remote_create).
Local Abbreviation build_prompt_ := (_build_prompt str_format).
Local Abbreviation parse_response_ := (_parse_response json_loads).

(** The test that opens [classify] is true of the white space strings. *)
Lemma blank_test (s : string) :
  negb (truthy s) || negb (truthy (strip s)) = all_space s.
Proof.
  destruct (all_space s) eqn:E.
  - rewrite (strip_all_space s E). apply orb_true_r.
  - assert (Hs : strip s <> "").
    { intros H. apply strip_empty_inv in H. congruence. }
    destruct s; [discriminate |]. destruct (strip (String a s));
      [contradiction | reflexivity].
Qed.

Lemma classify_blank (self : TextClassifier) (text_ : string) (st : Sys World) :
  all_space text_ = true ->
  classify_ self text_ st = (Ok (failed text_ "Empty text provided"), st).
Proof. intros H. unfold classify. now rewrite blank_test, H. Qed.

(** What a call on a text that is not blank does, step by step. *)
Lemma classify_not_blank (self : TextClassifier) (text_ : string)
  (st : Sys World) :
  all_space text_ = false ->
  classify_ self text_ st =
    match build_prompt_ self text_ with
    | Raise e => (Ok (failed text_ (exn_str e)), st)
    | Ok prompt =>
        let req := request_for self prompt in
        let st' := {| remote := snd (remote_create req (remote st));
                      sent := sent st ++ [req] |} in
        match (response <- fst (remote_create req (remote st)) ;;
               response_text <- first_content response ;;
               parse_response_ self response_text)%py with
        | Ok parsed => (Ok (classified text_ parsed), st')
        | Raise e => (Ok (failed text_ (exn_str e)), st')
        end
    end.
Proof.
  intros H. unfold classify. rewrite blank_test, H.
  unfold try_except_py, bind_py, lift, ret, chat_completions_create.
  destruct (build_prompt_ self text_) as [prompt|e]; [| reflexivity].
  fold (request_for self prompt). cbv zeta.
  destruct (remote_create (request_for self prompt) (remote st))
    as [[response|e] w]; simpl; [| reflexivity].
  fold (first_content response).
  destruct (first_content response) as [c|e]; simpl; [| reflexivity].
  destruct (parse_response_ self c) as [p|e]; reflexivity.
Qed.

(** Every call returns, with a failed result or with a parsed one. *)
Lemma classify_cases (self : TextClassifier) (text_ : string) (st : Sys World) :
  exists r st',
    classify_ self text_ st = (Ok r, st')
    /\ ((exists message, r = failed text_ message)
        \/ (exists c p, parse_response_ self c = Ok p
                        /\ r = classified text_ p)).
Proof.
  destruct (all_space text_) eqn:E.
  - rewrite (classify_blank self text_ st E). eauto 6.
  - rewrite (classify_not_blank self text_ st E).
    destruct (build_prompt_ self text_) as [prompt|e]; [| eauto 6].
    cbv zeta.
    destruct (fst (remote_create (request_for self prompt) (remote st)))
      as [response|e]; simpl; [| eauto 6].
    destruct (first_content response) as [c|e]; simpl; [| eauto 6].
    destruct (parse_response_ self c) as [p|e] eqn:Hp; eauto 8.
Qed.

(** The label of a parsed result is one of the engine's labels. *)
Lemma parsed_label_member (self : TextClassifier) (c : option string)
  (p : Parsed) :
  parse_response_ self c = Ok p ->
  exists l, parsed_predicted_label p = PyStr l /\ In l (labels self).
Proof.
  intros H. apply parse_response_ok_inv in H as (raw & d & label & _ & _ & _ & H).
  apply parse_outcome_ok in H as (m & Hin & _ & ->). now exists m.
Qed.

(** C1: for every string [text_], [classify] returns a result and does
    not raise.  The result carries the input text; it is either free of
    an error or the fallback result with a message.  Each way to fail
    gives the fallback result: white space only input, a prompt that
    cannot be rendered, a remote call that raises, a completion without
    choices, and a response that does not parse. *)
Theorem classify_never_raises (self : TextClassifier) (text_ : string)
  (st : Sys World) :
  (exists r st',
      classify_ self text_ st = (Ok r, st')
      /\ text r = text_
      /\ (error r = None
          \/ exists message,
               error r = Some message /\ predicted_label r = PyStr "Other"))
  /\ (all_space text_ = true ->
      fst (classify_ self text_ st) = Ok (failed text_ "Empty text provided"))
  /\ (forall e,
      all_space text_ = false ->
      build_prompt_ self text_ = Raise e ->
      fst (classify_ self text_ st) = Ok (failed text_ (exn_str e)))
  /\ (forall prompt e,
      all_space text_ = false ->
      build_prompt_ self text_ = Ok prompt ->
      fst (remote_create (request_for self prompt) (remote st)) = Raise e ->
      fst (classify_ self text_ st) = Ok (failed text_ (exn_str e)))
  /\ (forall prompt response e,
      all_space text_ = false ->
      build_prompt_ self text_ = Ok prompt ->
      fst (remote_create (request_for self prompt) (remote st)) = Ok response ->
      first_content response = Raise e ->
      fst (classify_ self text_ st) = Ok (failed text_ (exn_str e)))
  /\ (forall prompt response c e,
      all_space text_ = false ->
      build_prompt_ self text_ = Ok prompt ->
      fst (remote_create (request_for self prompt) (remote st)) = Ok response ->
      first_content response = Ok c ->
      parse_response_ self c = Raise e ->
      fst (classify_ self text_ st) = Ok (failed text_ (exn_str e))).
Proof.
  split; [| split; [| split; [| split; [| split]]]].
  - destruct (classify_cases self text_ st) as (r & st' & H & [[m ->] | (c & p & _ & ->)]);
      eexists; exists st'; (split; [exact H |]); split; try reflexivity.
    + right. now exists m.
    + now left.
  - intros H. now rewrite (classify_blank self text_ st H).
  - intros e H Hp. rewrite (classify_not_blank self text_ st H), Hp.
    reflexivity.
  - intros prompt e H Hp Hr.
    rewrite (classify_not_blank self text_ st H), Hp. cbv zeta.
    now rewrite Hr.
  - intros prompt response e H Hp Hr Hc.
    rewrite (classify_not_blank self text_ st H), Hp. cbv zeta.
    rewrite Hr. simpl. now rewrite Hc.
  - intros prompt response c e H Hp Hr Hc He.
    rewrite (classify_not_blank self text_ st H), Hp. cbv zeta.
    rewrite Hr. simpl. rewrite Hc. simpl. now rewrite He.
Qed.

(** C2: [classify] returns a result, and the result is of exactly one of
    two kinds: its [error] is set and its label is the fallback label, or
    its [error] is absent and its label is one of the engine's labels. *)
Theorem result_error_xor_member (self : TextClassifier) (text_ : string)
  (st : Sys World) :
  exists r st',
    classify_ self text_ st = (Ok r, st')
    /\ ((error_with_fallback r /\ ~ labelled_by self r)
        \/ (labelled_by self r /\ ~ error_with_fallback r)).
Proof.
  unfold error_with_fallback, labelled_by.
  destruct (classify_cases self text_ st)
    as (r & st' & H & [[m ->] | (c & p & Hp & ->)]);
    eexists; exists st'; (split; [exact H |]).
  - left. split.
    + split; [now exists m | reflexivity].
    + intros [He _]. discriminate.
  - right. split.
    + split; [reflexivity |]. now apply parsed_label_member with (c := c).
    + intros [[m Hm] _]. discriminate.
Qed.

(** C4: on a text that is empty or white space only, [classify] returns
    the fallback label with the error ["Empty text provided"], and the
    state is the one it started in: no request was sent.  For contrast,
    a text that is not blank and whose prompt renders sends exactly one
    request. *)
Theorem blank_text_short_circuit (self : TextClassifier) (text_ : string)
  (st : Sys World) :
  (all_space text_ = true ->
   classify_ self text_ st = (Ok (failed text_ "Empty text provided"), st)
   /\ sent (snd (classify_ self text_ st)) = sent st
   /\ remote (snd (classify_ self text_ st)) = remote st)
  /\ (forall prompt,
      all_space text_ = false ->
      build_prompt_ self text_ = Ok prompt ->
      sent (snd (classify_ self text_ st))
      = (sent st ++ [request_for self prompt])%list).
Proof.
  split.
  - intros H. now rewrite (classify_blank self text_ st H).
  - intros prompt H Hp.
    rewrite (classify_not_blank self text_ st H), Hp. cbv zeta.
    destruct (_ <- fst (remote_create _ _) ;; _)%py; reflexivity.
Qed.

(** C10: [classify] returns a result; when the result has an error its
    label is the literal ["Other"], whatever the engine's labels are, and
    when ["Other"] is not one of them that label is not one of them. *)
Theorem fallback_label_is_literal (self : TextClassifier) (text_ : string)
  (st : Sys World) :
  exists r st',
    classify_ self text_ st = (Ok r, st')
    /\ forall message,
         error r = Some message ->
         predicted_label r = PyStr "Other"
         /\ (~ In "Other" (labels self) ->
             forall l, predicted_label r = PyStr l -> ~ In l (labels self)).
Proof.
  destruct (classify_cases self text_ st)
    as (r & st' & H & [[m ->] | (c & p & Hp & ->)]);
    eexists; exists st'; (split; [exact H |]); intros message He;
    [| discriminate].
  split; [reflexivity |].
  intros Hn l Hl. injection Hl as <-. exact Hn.
Qed.

(** ** A batch *)

Local Abbreviation state_after_ :=
  (state_after json_loads str_format remote_create).

Lemma classify_batch_loop_spec (self : TextClassifier) (texts : list string) :
  forall (acc : list ClassificationResult) (st : Sys World),
  exists rs,
    classify_batch_loop_ self texts acc st
    = (Ok (acc ++ rs)%list, state_after_ self texts st)
    /\ List.length rs = List.length texts
    /\ forall i t, nth_error texts i = Some t ->
         exists r, nth_error rs i = Some r
           /\ fst (classify_ self t (state_after_ self (firstn i texts) st))
              = Ok r.
Proof.
  induction texts as [|t ts IH]; intros acc st.
  - exists []. simpl. rewrite app_nil_r. repeat split.
    intros [|i] t H; discriminate.
  - destruct (classify_cases self t st) as (r & st1 & Hc & _).
    destruct (IH (acc ++ [r])%list st1) as (rs & Hl & Hlen & Hnth).
    exists (r :: rs). simpl. unfold bind_py. rewrite Hc. simpl.
    rewrite Hl, <- app_assoc. simpl. repeat split.
    + now rewrite Hlen.
    + intros [|i] t' H; simpl in H |- *.
      * injection H as <-. exists r. now rewrite Hc.
      * rewrite Hc. simpl. now apply Hnth.
Qed.

(** The result of a call depends on the state it is made in through the
    reply to its one request, and through nothing else. *)
Lemma classify_result_by_reply (self : TextClassifier) (text_ : string)
  (st st' : Sys World) :
  (forall prompt,
      build_prompt_ self text_ = Ok prompt ->
      fst (remote_create (request_for self prompt) (remote st))
      = fst (remote_create (request_for self prompt) (remote st'))) ->
  fst (classify_ self text_ st) = fst (classify_ self text_ st').
Proof.
  intros Hs. destruct (all_space text_) eqn:E.
  - now rewrite !(classify_blank self text_ _ E).
  - rewrite !(classify_not_blank self text_ _ E).
    destruct (build_prompt_ self text_) as [prompt|e]; [| reflexivity].
    cbv zeta. rewrite (Hs prompt eq_refl).
    destruct (_ <- fst (remote_create _ _) ;; _)%py; reflexivity.
Qed.

(** C3: [classify_batch] returns a list as long as its input, whose
    element at each index is what [classify] returns for the text at
    that index, called when the batch reaches it.  Nothing but the remote
    service links two elements.  When its replies depend on the request
    alone, the element at an index is what [classify] returns for that
    text in any state.  In general, two batches that hold the same text
    at an index, and in which the remote service gives the request for
    that text the same reply, have the same result at that index,
    whatever their other texts are and whatever became of them. *)
Theorem classify_batch_pointwise (self : TextClassifier)
  (texts : list string) (st : Sys World) :
  exists rs,
    classify_batch_ self texts st = (Ok rs, state_after_ self texts st)
    /\ List.length rs = List.length texts
    /\ (forall i t, nth_error texts i = Some t ->
          exists r, nth_error rs i = Some r
            /\ fst (classify_ self t (state_after_ self (firstn i texts) st))
               = Ok r)
    /\ ((forall req w w',
            fst (remote_create req w) = fst (remote_create req w')) ->
        forall i t st0, nth_error texts i = Some t ->
          exists r, nth_error rs i = Some r
            /\ fst (classify_ self t st0) = Ok r)
    /\ (forall texts' st' rs' st'' i t,
          classify_batch_ self texts' st' = (Ok rs', st'') ->
          nth_error texts i = Some t ->
          nth_error texts' i = Some t ->
          (forall prompt,
              build_prompt_ self t = Ok prompt ->
              fst (remote_create (request_for self prompt)
                     (remote (state_after_ self (firstn i texts) st)))
              = fst (remote_create (request_for self prompt)
                       (remote (state_after_ self (firstn i texts') st')))) ->
          nth_error rs i = nth_error rs' i).
Proof.
  destruct (classify_batch_loop_spec self texts [] st) as (rs & H & Hlen & Hnth).
  exists rs. split; [exact H |]. split; [exact Hlen |].
  split; [exact Hnth |]. split.
  - intros Hs i t st0 Hi. destruct (Hnth i t Hi) as (r & Hr & Hc).
    exists r. split; [exact Hr |].
    rewrite <- Hc. apply classify_result_by_reply. intros prompt _. apply Hs.
  - intros texts' st' rs' st'' i t H' Hi Hi' Hreply.
    destruct (classify_batch_loop_spec self texts' [] st')
      as (rs0 & H0 & _ & Hnth').
    unfold classify_batch in H'. rewrite H0 in H'. injection H' as <- _.
    destruct (Hnth i t Hi) as (r & Hr & Hc).
    destruct (Hnth' i t Hi') as (r' & Hr' & Hc').
    rewrite (classify_result_by_reply self t _ _ Hreply) in Hc.
    rewrite Hc in Hc'. injection Hc' as <-. now rewrite Hr, Hr'.
Qed.

(** C9: [classify] returns a result; when the result has no error, its
    confidence and its rationale are the values decoded from the
    response under the keys ["confidence"] and ["rationale"], whatever
    they are, and [PyNone] for a key that is absent. *)
Theorem confidence_rationale_pass_through (self : TextClassifier)
  (text_ : string) (st : Sys World) :
  exists r st',
    classify_ self text_ st = (Ok r, st')
    /\ (error r = None ->
        exists prompt response raw d,
          build_prompt_ self text_ = Ok prompt
          /\ fst (remote_create (request_for self prompt) (remote st))
             = Ok response
          /\ first_content response = Ok (Some raw)
          /\ json_loads (normalize raw) = Ok (PyDict d)
          /\ (forall c, dict_lookup d "confidence" = Some c -> confidence r = c)
          /\ (dict_lookup d "confidence" = None -> confidence r = PyNone)
          /\ (forall c, dict_lookup d "rationale" = Some c -> rationale r = c)
          /\ (dict_lookup d "rationale" = None -> rationale r = PyNone)).
Proof.
  destruct (classify_cases self text_ st) as (r & st' & H & _).
  exists r, st'. split; [exact H |]. intros He.
  destruct (all_space text_) eqn:E.
  { rewrite (classify_blank self text_ st E) in H. injection H as <- _.
    discriminate. }
  rewrite (classify_not_blank self text_ st E) in H.
  destruct (build_prompt_ self text_) as [prompt|e].
  2: { injection H as <- _. discriminate. }
  cbv zeta in H.
  destruct (fst (remote_create (request_for self prompt) (remote st)))
    as [response|e] eqn:Hr; simpl in H.
  2: { injection H as <- _. discriminate. }
  destruct (first_content response) as [c|e] eqn:Hc; simpl in H.
  2: { injection H as <- _. discriminate. }
  destruct (parse_response_ self c) as [p|e] eqn:Hp.
  2: { injection H as <- _. discriminate. }
  injection H as <- _.
  apply parse_response_ok_inv in Hp as (raw & d & label & -> & Hd & _ & Hp).
  apply parse_outcome_ok in Hp as (m & _ & _ & ->).
  exists prompt, response, raw, d. repeat split; try assumption;
    simpl; unfold dict_get; intros; match goal with
    | E : dict_lookup _ _ = _ |- _ => now rewrite E
    end.
Qed.

End EngineProperties.

(** ** Labels and fences *)

(** C5: for a decoded object whose label is a string: a label that is
    in the label list is returned as it is; a label that is not, but
    that equals a member after both are put in lower case, is replaced
    by the first such member; a label that matches no member makes the
    parser raise the invalid label error.  With the labels [Complaint]
    and [Inquiry], the output [{"label":"complaint","confidence":0.9}]
    parses to the label [Complaint]. *)
Theorem label_matching :
  (forall (json_loads : string -> result pyval) (self : TextClassifier)
          (raw : string) (d : list (string * pyval)) (label : string),
     json_loads (normalize raw) = Ok (PyDict d) ->
     dict_lookup d "label" = Some (PyStr label) ->
     let payload m :=
       Ok {| parsed_predicted_label := PyStr m;
             parsed_confidence := dict_get d "confidence";
             parsed_rationale := dict_get d "rationale" |} in
     (In label (labels self) ->
      _parse_response json_loads self (Some raw) = payload label)
     /\ (~ In label (labels self) ->
         (exists l, In l (labels self) /\ lower l = lower label) ->
         exists m,
           find (fun l => (lower l =? lower label)%string) (labels self)
           = Some m
           /\ In m (labels self)
           /\ lower m = lower label
           /\ _parse_response json_loads self (Some raw) = payload m)
     /\ (~ In label (labels self) ->
         (forall l, In l (labels self) -> lower l <> lower label) ->
         _parse_response json_loads self (Some raw)
         = Raise (Exn ValueError
             ("Error parsing response: "
              ++ invalid_label label (labels self)))))
  /\ parse two_label_engine lowercase_complaint
     = Ok {| parsed_predicted_label := PyStr "Complaint";
             parsed_confidence := PyNum "0.9";
             parsed_rationale := PyNone |}.
Proof.
  split; [| reflexivity].
  intros json_loads self raw d label Hd Hl payload.
  rewrite (parse_response_label json_loads self raw d label Hd Hl).
  unfold parse_outcome, payload. repeat split.
  - intros Hin. apply mem_In in Hin. now rewrite Hin.
  - intros Hn [l [Hin Hlow]].
    destruct (mem label (labels self)) eqn:Hmem;
      [apply mem_In in Hmem; contradiction |].
    destruct (find (fun l => (lower l =? lower label)%string) (labels self))
      as [m|] eqn:Hfind.
    + exists m. pose proof (find_some _ _ Hfind) as [Hm Heq].
      apply String.eqb_eq in Heq. now repeat split.
    + pose proof (find_none _ _ Hfind l Hin) as Hf. simpl in Hf.
      apply String.eqb_neq in Hf. contradiction.
  - intros Hn Hno.
    destruct (mem label (labels self)) eqn:Hmem;
      [apply mem_In in Hmem; contradiction |].
    destruct (find (fun l => (lower l =? lower label)%string) (labels self))
      as [m|] eqn:Hfind; [| reflexivity].
    apply find_some in Hfind as [Hm Heq]. apply String.eqb_eq in Heq.
    now destruct (Hno m Hm).
Qed.

(** C6, as the code has it: a body whose stripped form does not itself
    begin or end with three backticks parses the same with and without
    fence markers around it, tagged [json] or not, with any white space
    between the markers and the body.  An opening marker without a tag
    that touches a body beginning with [json] is read as a tagged one,
    so that case is set apart. *)
Theorem fence_invariance (json_loads : string -> result pyval)
  (self : TextClassifier) (tagged : bool) (l r s : string) :
  all_space l = true ->
  all_space r = true ->
  startswith "```" (strip s) = false ->
  endswith "```" (strip s) = false ->
  (tagged = false -> l = "" -> startswith "json" s = false) ->
  _parse_response json_loads self (Some (fence tagged l r s))
  = _parse_response json_loads self (Some s).
Proof.
  intros Hl Hr Hs He Hj. apply parse_response_normalize.
  rewrite (normalize_fence tagged l r s Hl Hr Hs Hj).
  symmetry. now apply normalize_plain.
Qed.

(** C6 as stated fails on a body that is fenced already: one pair of
    markers is removed, not two. *)
Lemma fence_changes_fenced_body :
  parse two_label_engine fenced_complaint
  = Ok {| parsed_predicted_label := PyStr "Complaint";
          parsed_confidence := PyNum "0.9";
          parsed_rationale := PyNone |}
  /\ (exists message,
        parse two_label_engine (fence true nl nl fenced_complaint)
        = Raise (Exn ValueError ("Failed to parse JSON response: " ++ message)))
  /\ parse two_label_engine (fence true nl nl fenced_complaint)
     <> parse two_label_engine fenced_complaint.
Proof.
  split; [reflexivity |]. split; [eexists; reflexivity |].
  vm_compute. discriminate.
Qed.

Lemma fence_invariance_witness :
  parse two_label_engine (fence true nl nl lowercase_complaint)
  = parse two_label_engine lowercase_complaint
  /\ parse two_label_engine (fence false "" "" lowercase_complaint)
     = parse two_label_engine lowercase_complaint.
Proof.
  split.
  - apply (fence_invariance Json.loads two_label_engine true nl nl
             lowercase_complaint); reflexivity.
  - apply (fence_invariance Json.loads two_label_engine false "" ""
             lowercase_complaint); reflexivity.
Defined.

Lemma label_matching_witness :
  exists m,
    In m (labels two_label_engine)
    /\ lower m = lower "complaint"
    /\ parse two_label_engine lowercase_complaint
       = Ok {| parsed_predicted_label := PyStr m;
               parsed_confidence := PyNum "0.9";
               parsed_rationale := PyNone |}.
Proof.
  destruct (proj1 label_matching Json.loads two_label_engine
              lowercase_complaint
              [("label", PyStr "complaint"); ("confidence", PyNum "0.9")]
              "complaint" eq_refl eq_refl) as (_ & H & _).
  destruct H as (m & _ & Hin & Hlow & Hp).
  - simpl. intros [H | [H | []]]; discriminate.
  - exists "Complaint". split; [now left | reflexivity].
  - exists m. now repeat split.
Defined.

(** ** The constructor *)

Lemma init_without_credential (env : Env) (api_key : option string)
  (model_ : string) (labels_ : option (list string))
  (config_file : option string) :
  credential env api_key = None ->
  __init__ env api_key model_ labels_ config_file
  = Raise (Exn ValueError
      "OpenAI API key not found. Set OPENAI_API_KEY environment variable or pass api_key parameter.").
Proof.
  unfold credential, __init__.
  destruct (or_str api_key (OPENAI_API_KEY env)) as [[|c k]|];
    [reflexivity | discriminate | reflexivity].
Qed.

(** With a credential, an exception of the look at the configuration
    file leaves the constructor; else the constructor succeeds on the
    label list in effect when it has two elements or more, and raises
    when it has not. *)
Lemma init_with_credential (env : Env) (api_key : option string)
  (model_ : string) (labels_ : option (list string))
  (config_file : option string) (key : string) :
  credential env api_key = Some key ->
  __init__ env api_key model_ labels_ config_file
  = match existing_config env config_file with
    | Raise e => Raise e
    | Ok found =>
        if (List.length (resolved_labels found labels_) <? 2)%nat
        then Raise (Exn ValueError
               "At least 2 labels are required for classification")
        else Ok {| api_key := key; model := model_;
                   labels := resolved_labels found labels_;
                   prompt_template := resolved_template found |}
    end.
Proof.
  unfold credential, __init__, resolved_labels, resolved_template,
    found_labels, found_template.
  destruct (or_str api_key (OPENAI_API_KEY env)) as [[|c k]|];
    [discriminate | | discriminate].
  intros H. injection H as <-.
  destruct (existing_config env config_file) as [[config|]|e];
    [| | reflexivity]; cbn [bind].
  - destruct (cfg_labels config) as [[|l1 [|l2 ls]]|];
      try reflexivity;
      destruct (or_labels labels_ _default_labels) as [|l1 [|l2 ls]];
      reflexivity.
  - destruct (or_labels labels_ _default_labels) as [|l1 [|l2 ls]];
      reflexivity.
Qed.

(** C7, as the code has it.  Without a credential the constructor
    raises.  With a credential, an exception of the look at the
    configuration file leaves the constructor as it is.  Else, when the
    file has labels, these decide, whatever the argument is: fewer than
    two, none included, and the constructor raises; two or more, and the
    engine is built with them.  When no file is in effect, or one
    without labels, the argument decides: the constructor raises on a
    list of one label, builds the engine on a list of two labels or
    more, distinct or not, and takes the four default labels when the
    list is absent or empty. *)
Theorem init_outcome (env : Env) (api_key : option string) (model_ : string)
  (labels_ : option (list string)) (config_file : option string) :
  let built := __init__ env api_key model_ labels_ config_file in
  let too_few : result TextClassifier :=
    Raise (Exn ValueError
      "At least 2 labels are required for classification") in
  (credential env api_key = None ->
   built
   = Raise (Exn ValueError
       "OpenAI API key not found. Set OPENAI_API_KEY environment variable or pass api_key parameter."))
  /\ (forall key,
      credential env api_key = Some key ->
      (forall e, existing_config env config_file = Raise e ->
         built = Raise e)
      /\ (forall found, existing_config env config_file = Ok found ->
          let engine := fun ls =>
            Ok {| api_key := key; model := model_; labels := ls;
                  prompt_template := resolved_template found |} in
          (forall ls, found_labels found = Some ls ->
             built = if (List.length ls <? 2)%nat then too_few else engine ls)
          /\ (found_labels found = None ->
              (forall l, labels_ = Some [l] -> built = too_few)
              /\ (forall l1 l2 ls, labels_ = Some (l1 :: l2 :: ls) ->
                    built = engine (l1 :: l2 :: ls))
              /\ (labels_ = None \/ labels_ = Some [] ->
                    built = engine _default_labels)))).
Proof.
  cbv zeta. split; [apply init_without_credential |].
  intros key Hk.
  rewrite (init_with_credential env api_key model_ labels_ config_file key Hk).
  split.
  - intros e ->. reflexivity.
  - intros found ->. unfold resolved_labels. split.
    + intros ls ->. reflexivity.
    + intros ->. repeat split.
      * intros l ->. reflexivity.
      * intros l1 l2 ls ->. reflexivity.
      * intros [-> | ->]; reflexivity.
Qed.

(** C7 as stated fails on an empty list: fewer than two labels are
    given, and the engine is built, with the default labels. *)
Lemma empty_label_list_accepted :
  List.length (@nil string) < 2
  /\ __init__ bare_env (Some "sk-test") "gpt-3.5-turbo" (Some []) None
     = Ok default_engine.
Proof. split; [simpl; lia | reflexivity]. Qed.

Lemma init_outcome_witness :
  credential env_with_files None = Some "sk-env"
  /\ __init__ env_with_files None "gpt-4" (Some ["Solo"]) None
     = Raise (Exn ValueError
         "At least 2 labels are required for classification")
  /\ __init__ env_with_files None "gpt-4" (Some ["Spam"; "Ham"])
       (Some "template.json")
     = Ok {| api_key := "sk-env"; model := "gpt-4";
             labels := ["Spam"; "Ham"];
             prompt_template := "{labels}: {text}" |}
  /\ __init__ env_with_files None "gpt-4" (Some ["Spam"; "Ham"])
       (Some "one.json")
     = Raise (Exn ValueError
         "At least 2 labels are required for classification")
  /\ __init__ env_with_files None "gpt-4" (Some ["Spam"; "Ham"])
       (Some long_name)
     = Raise (Exn (LibraryError "OSError")
                ("[Errno 36] File name too long: " ++ repr long_name))
  /\ __init__ bare_env None "gpt-4" (Some ["Spam"; "Ham"]) None
     = Raise (Exn ValueError
         "OpenAI API key not found. Set OPENAI_API_KEY environment variable or pass api_key parameter.").
Proof.
  split; [reflexivity |].
  split; [| split; [| split; [| split]]].
  - exact (proj1 (proj2 (proj2 (proj2 (init_outcome env_with_files None
                                         "gpt-4" (Some ["Solo"]) None)
                                 "sk-env" eq_refl) None eq_refl) eq_refl)
             "Solo" eq_refl).
  - exact (proj1 (proj2 (proj2 (proj2 (proj2 (init_outcome env_with_files None
                                   "gpt-4" (Some ["Spam"; "Ham"])
                                   (Some "template.json"))
                                 "sk-env" eq_refl)
                          (Some {| cfg_labels := None;
                                   cfg_prompt_template :=
                                     Some "{labels}: {text}" |})
                          eq_refl) eq_refl))
             "Spam" "Ham" [] eq_refl).
  - exact (proj1 (proj2 (proj2 (init_outcome env_with_files None "gpt-4"
                                  (Some ["Spam"; "Ham"]) (Some "one.json"))
                          "sk-env" eq_refl)
                   (Some {| cfg_labels := Some ["Solo"];
                            cfg_prompt_template := None |})
                   eq_refl)
             ["Solo"] eq_refl).
  - exact (proj1 (proj2 (init_outcome env_with_files None "gpt-4"
                           (Some ["Spam"; "Ham"]) (Some long_name))
                   "sk-env" eq_refl)
             (Exn (LibraryError "OSError")
                ("[Errno 36] File name too long: " ++ repr long_name))
             eq_refl).
  - exact (proj1 (init_outcome bare_env None "gpt-4"
                    (Some ["Spam"; "Ham"]) None) eq_refl).
Defined.

(** C8 as stated fails on a list that repeats a label. *)
Lemma duplicate_labels_accepted :
  exists self,
    __init__ bare_env (Some "sk-test") "gpt-3.5-turbo"
      (Some ["Spam"; "Spam"]) None = Ok self
    /\ ~ NoDup (labels self).
Proof.
  eexists. split; [reflexivity |]. simpl.
  intros H. inversion H as [|x l Hn _]. apply Hn. now left.
Qed.

(** ** The engine as an object *)

Lemma update_new (s : Obj.Store) (o o' : Obj.object) (tail : Obj.Store) :
  Obj.update (List.length s) o' (s ++ o :: tail)%list = (s ++ o' :: tail)%list.
Proof. induction s as [|x s IH]; simpl; [reflexivity | now rewrite IH]. Qed.

Lemma nth_error_grown (s new : Obj.Store) (r : Obj.ref) (o : Obj.object) :
  nth_error s r = Some o -> nth_error (s ++ new)%list r = Some o.
Proof.
  intros H. rewrite nth_error_app1; [exact H |].
  apply nth_error_Some. congruence.
Qed.

Lemma nth_error_new (s : Obj.Store) (o : Obj.object) (tail : Obj.Store) :
  nth_error (s ++ o :: tail)%list (List.length s) = Some o.
Proof. rewrite nth_error_app2 by lia. now rewrite Nat.sub_diag. Qed.

(** An engine stays what it is when objects are added. *)
Lemma engine_at_grown (s new : Obj.Store) (self : Obj.ref)
  (e : TextClassifier) :
  Obj.engine_at s self = Some e -> Obj.engine_at (s ++ new)%list self = Some e.
Proof.
  unfold Obj.engine_at. intros H.
  destruct (nth_error s self) as [[key mdl l t | | |]|] eqn:E1;
    try discriminate.
  destruct (nth_error s l) as [[| items | |]|] eqn:E2; try discriminate.
  now rewrite (nth_error_grown s new self _ E1), (nth_error_grown s new l _ E2).
Qed.

Section ObjProperties.

Variable json_loads : string -> result pyval.
Variable str_format : string -> string -> string -> result string.
Variable World : Type.
Variable remote_create : ChatRequest -> World -> result ChatCompletion * World.

Local Abbreviation mem_ := (Obj.Mem World).

(** The reads of the attributes. *)
Lemma self_labels_at (m : mem_) (self : Obj.ref) (e : TextClassifier) :
  Obj.engine_at (Obj.store m) self = Some e ->
  Obj.self_labels self m = (Ok (labels e), m).
Proof.
  unfold Obj.engine_at, Obj.self_labels, Obj.list_at, Obj.ob_bind, Obj.load.
  intros H.
  destruct (nth_error (Obj.store m) self) as [[key mdl l t | | |]|];
    try discriminate.
  destruct (nth_error (Obj.store m) l) as [[| items | |]|];
    try discriminate.
  now injection H as <-.
Qed.

Lemma self_model_at (m : mem_) (self : Obj.ref) (e : TextClassifier) :
  Obj.engine_at (Obj.store m) self = Some e ->
  Obj.self_model self m = (Ok (model e), m).
Proof.
  unfold Obj.engine_at, Obj.self_model, Obj.ob_bind, Obj.load.
  intros H.
  destruct (nth_error (Obj.store m) self) as [[key mdl l t | | |]|];
    try discriminate.
  destruct (nth_error (Obj.store m) l) as [[| items | |]|];
    try discriminate.
  now injection H as <-.
Qed.

Lemma self_prompt_template_at (m : mem_) (self : Obj.ref)
  (e : TextClassifier) :
  Obj.engine_at (Obj.store m) self = Some e ->
  Obj.self_prompt_template self m = (Ok (prompt_template e), m).
Proof.
  unfold Obj.engine_at, Obj.self_prompt_template, Obj.ob_bind, Obj.load.
  intros H.
  destruct (nth_error (Obj.store m) self) as [[key mdl l t | | |]|];
    try discriminate.
  destruct (nth_error (Obj.store m) l) as [[| items | |]|];
    try discriminate.
  now injection H as <-.
Qed.

(** [_build_prompt] reads, and gives what it gives on the value. *)
Lemma build_prompt_spec (m : mem_) (self : Obj.ref) (e : TextClassifier)
  (text_ : string) :
  Obj.engine_at (Obj.store m) self = Some e ->
  Obj._build_prompt str_format self text_ m
  = (_build_prompt str_format e text_, m).
Proof.
  intros H. unfold Obj._build_prompt, Obj.ob_bind.
  rewrite (self_labels_at m self e H), (self_prompt_template_at m self e H).
  reflexivity.
Qed.

(** The dict that [json.loads] made, as the last object of the store. *)
Lemma value_of_new (s : Obj.Store) (st : Sys World)
  (d : list (string * pyval)) :
  Obj.value_of (Obj.Held (List.length s))
    {| Obj.store := (s ++ [Obj.DictOf d])%list; Obj.sys := st |}
  = (Ok (PyDict d),
     {| Obj.store := (s ++ [Obj.DictOf d])%list; Obj.sys := st |}).
Proof.
  unfold Obj.value_of, Obj.ob_bind, Obj.load. cbn [Obj.store].
  now rewrite nth_error_new.
Qed.

Lemma setitem_new (s : Obj.Store) (st : Sys World)
  (d : list (string * pyval)) (k : string) (x : pyval) :
  Obj.setitem (Obj.Held (List.length s)) k x
    {| Obj.store := (s ++ [Obj.DictOf d])%list; Obj.sys := st |}
  = (Ok tt,
     {| Obj.store := (s ++ [Obj.DictOf (dict_set d k x)])%list;
        Obj.sys := st |}).
Proof.
  unfold Obj.setitem, Obj.ob_bind, Obj.load, Obj.put. cbn [Obj.store Obj.sys].
  rewrite nth_error_new. cbn [Obj.store Obj.sys]. now rewrite update_new.
Qed.

Lemma self_labels_grown (s new : Obj.Store) (st : Sys World)
  (self : Obj.ref) (e : TextClassifier) :
  Obj.engine_at s self = Some e ->
  Obj.self_labels self {| Obj.store := (s ++ new)%list; Obj.sys := st |}
  = (Ok (labels e), {| Obj.store := (s ++ new)%list; Obj.sys := st |}).
Proof.
  intros H. apply self_labels_at. cbn [Obj.store]. now apply engine_at_grown.
Qed.

(** [_parse_response] gives what it gives on the value; what it assigns
    to is the dict it has made. *)
Lemma parse_response_spec (s : Obj.Store) (st : Sys World) (self : Obj.ref)
  (e : TextClassifier) (response_text : option string) :
  Obj.engine_at s self = Some e ->
  exists new,
    Obj._parse_response json_loads self response_text
      {| Obj.store := s; Obj.sys := st |}
    = (_parse_response json_loads e response_text,
       {| Obj.store := (s ++ new)%list; Obj.sys := st |}).
Proof.
  intros He. destruct response_text as [raw|].
  2: { exists []. rewrite app_nil_r. reflexivity. }
  unfold Obj._parse_response, _parse_response, Obj.ob_try, try_except.
  cbv zeta. fold (normalize raw).
  unfold Obj.loads, Obj.ob_bind at 1 2. unfold Obj.ob_lift at 1.
  destruct (json_loads (normalize raw)) as [v|ex].
  2: { exists []. rewrite app_nil_r. cbn [bind].
       destruct (is_JSONDecodeError ex); reflexivity. }
  destruct v as [| b | n | str | items | d].
  1-5: exists []; rewrite app_nil_r; cbn;
    try destruct (contains "label" str);
    try destruct (existsb (fun x => eq_str x "label") items);
    reflexivity.
  unfold Obj.new, Obj.ob_bind, Obj.ob_ret, Obj.contains_key, Obj.getitem,
    Obj.get, Obj.ob_lift, Obj.ob_raise, Obj.raise_invalid, Obj.ob_bind.
  cbn [Obj.store Obj.sys bind].
  pose proof (self_labels_grown s [Obj.DictOf d] st self e He) as Hlabels.
  rewrite ?value_of_new. cbn [py_contains py_getitem bind].
  destruct (dict_lookup d "label") as [label|] eqn:Hl; cbn [negb bind].
  2: { exists [Obj.DictOf d]. reflexivity. }
  rewrite ?value_of_new, ?Hlabels. cbn [py_getitem bind]. rewrite Hl.
  rewrite ?value_of_new, ?Hlabels.
  destruct (py_in label (labels e)) eqn:Hin; cbn [negb bind].
  { exists [Obj.DictOf d]. rewrite ?value_of_new. cbn [py_getitem py_get].
    rewrite Hl. reflexivity. }
  destruct label as [| b | n | label_s | items | d'];
    try (exists [Obj.DictOf d]; reflexivity).
  rewrite ?Hlabels.
  destruct (find (fun l => (lower l =? lower label_s)%string) (labels e))
    as [m|].
  2: { exists [Obj.DictOf d]. rewrite ?Hlabels. reflexivity. }
  destruct (truthy m).
  2: { exists [Obj.DictOf d]. rewrite ?Hlabels. reflexivity. }
  rewrite setitem_new.
  exists [Obj.DictOf (dict_set d "label" (PyStr m))].
  rewrite ?value_of_new. cbn [py_setitem py_getitem py_get bind].
  rewrite dict_lookup_set_same. reflexivity.
Qed.

(** [classify] gives what it gives on the value, and leaves every object
    that was there as it was. *)
Lemma classify_spec (s : Obj.Store) (st : Sys World) (self : Obj.ref)
  (e : TextClassifier) (text_ : string) :
  Obj.engine_at s self = Some e ->
  exists new,
    Obj.classify json_loads str_format remote_create self text_
      {| Obj.store := s; Obj.sys := st |}
    = (fst (classify json_loads str_format remote_create e text_ st),
       {| Obj.store := (s ++ new)%list;
          Obj.sys := snd (classify json_loads str_format remote_create
                            e text_ st) |}).
Proof.
  intros He. unfold Obj.classify, classify.
  destruct (negb (truthy text_) || negb (truthy (strip text_))).
  { exists []. rewrite app_nil_r. reflexivity. }
  unfold Obj.ob_try, try_except_py, Obj.ob_bind, bind_py, lift.
  rewrite (build_prompt_spec {| Obj.store := s; Obj.sys := st |} self e
             text_ He).
  destruct (_build_prompt str_format e text_) as [prompt|ex].
  2: { exists []. rewrite app_nil_r. reflexivity. }
  rewrite (self_model_at {| Obj.store := s; Obj.sys := st |} self e He).
  unfold Obj.remote, chat_completions_create. cbn [Obj.store Obj.sys].
  destruct (remote_create _ (remote st)) as [[response|ex] w].
  2: { exists []. rewrite app_nil_r. reflexivity. }
  unfold Obj.ob_lift.
  destruct (choices response) as [|choice rest].
  { exists []. rewrite app_nil_r. reflexivity. }
  match goal with
  | |- context [Obj._parse_response json_loads self choice
                  {| Obj.store := s; Obj.sys := ?st1 |}] =>
      destruct (parse_response_spec s st1 self e choice He) as [new Hp]
  end.
  rewrite Hp. exists new.
  destruct (_parse_response json_loads e choice); reflexivity.
Qed.

(** The loop of [classify_batch]: the list of results is the one object
    that was there and is changed, and it is an object of the call. *)
Lemma classify_batch_loop_obj (self : Obj.ref) (e : TextClassifier)
  (texts : list string) :
  forall (base tail : Obj.Store) (acc : list ClassificationResult)
         (st : Sys World),
  Obj.engine_at base self = Some e ->
  exists rs st' tail',
    classify_batch_loop json_loads str_format remote_create e texts acc st
    = (Ok rs, st')
    /\ Obj.classify_batch_loop json_loads str_format remote_create self texts
         (List.length base)
         {| Obj.store := (base ++ Obj.ListOfResults acc :: tail)%list;
            Obj.sys := st |}
       = (Ok tt,
          {| Obj.store := (base ++ Obj.ListOfResults rs :: tail')%list;
             Obj.sys := st' |}).
Proof.
  induction texts as [|t ts IH]; intros base tail acc st He.
  - exists acc, st, tail. split; reflexivity.
  - cbn [classify_batch_loop Obj.classify_batch_loop].
    unfold bind_py, Obj.ob_bind.
    destruct (classify_spec (base ++ Obj.ListOfResults acc :: tail)%list st
                self e t (engine_at_grown base _ self e He)) as [new Hc].
    rewrite Hc.
    destruct (classify_cases json_loads str_format _ remote_create e t st)
      as (r & st1 & Hr & _).
    rewrite Hr. cbn [fst snd].
    unfold Obj.append, Obj.ob_bind, Obj.load, Obj.put.
    cbn [Obj.store Obj.sys].
    rewrite <- app_assoc. cbn [List.app].
    rewrite nth_error_new. cbn [Obj.store Obj.sys]. rewrite update_new.
    apply (IH base (tail ++ new)%list (acc ++ [r])%list st1 He).
Qed.

Lemma classify_batch_spec (s : Obj.Store) (st : Sys World) (self : Obj.ref)
  (e : TextClassifier) (texts : list string) :
  Obj.engine_at s self = Some e ->
  exists rs st' tail,
    classify_batch json_loads str_format remote_create e texts st
    = (Ok rs, st')
    /\ Obj.classify_batch json_loads str_format remote_create self texts
         {| Obj.store := s; Obj.sys := st |}
       = (Ok (List.length s),
          {| Obj.store := (s ++ Obj.ListOfResults rs :: tail)%list;
             Obj.sys := st' |}).
Proof.
  intros He.
  destruct (classify_batch_loop_obj self e texts s [] [] st He)
    as (rs & st' & tail & Hpure & Hobj).
  exists rs, st', tail. split; [exact Hpure |].
  unfold Obj.classify_batch, Obj.ob_bind, Obj.new. cbn [Obj.store Obj.sys].
  now rewrite Hobj.
Qed.

(** No call changes an object that was there before it. *)
Lemma perform_grows (m : mem_) (self : Obj.ref) (e : TextClassifier)
  (c : Obj.call) :
  Obj.engine_at (Obj.store m) self = Some e ->
  exists new,
    Obj.store (Obj.perform json_loads str_format remote_create self c m)
    = (Obj.store m ++ new)%list.
Proof.
  destruct m as [s st]. cbn [Obj.store]. intros He.
  destruct c as [t | rt | t | ts]; cbn [Obj.perform].
  - rewrite (build_prompt_spec {| Obj.store := s; Obj.sys := st |} self e t
               He).
    exists []. now rewrite app_nil_r.
  - destruct (parse_response_spec s st self e rt He) as [new ->].
    now exists new.
  - destruct (classify_spec s st self e t He) as [new ->]. now exists new.
  - destruct (classify_batch_spec s st self e ts He)
      as (rs & st' & tail & _ & ->).
    now exists (Obj.ListOfResults rs :: tail).
Qed.

Lemma life_grows (self : Obj.ref) (e : TextClassifier)
  (calls : list Obj.call) :
  forall m : mem_,
  Obj.engine_at (Obj.store m) self = Some e ->
  exists new,
    Obj.store (Obj.life json_loads str_format remote_create self calls m)
    = (Obj.store m ++ new)%list.
Proof.
  induction calls as [|c calls IH]; intros m He.
  - exists []. now rewrite app_nil_r.
  - cbn [Obj.life].
    destruct (perform_grows m self e c He) as [new1 H1].
    destruct (IH (Obj.perform json_loads str_format remote_create self c m))
      as [new2 H2].
    { rewrite H1. now apply engine_at_grown. }
    exists (new1 ++ new2)%list. now rewrite H2, H1, app_assoc.
Qed.

(** ** The constructor over the store *)

Lemma list_at_at (m : mem_) (r : Obj.ref) (items : list string) :
  nth_error (Obj.store m) r = Some (Obj.ListOfStr items) ->
  Obj.list_at r m = (Ok items, m).
Proof.
  intros H. unfold Obj.list_at, Obj.ob_bind, Obj.load. now rewrite H.
Qed.

Lemma engine_at_new (s : Obj.Store) (key mdl : string) (l : Obj.ref)
  (t : string) (items : list string) :
  nth_error s l = Some (Obj.ListOfStr items) ->
  Obj.engine_at (s ++ [Obj.Instance key mdl l t])%list (List.length s)
  = Some {| api_key := key; model := mdl; labels := items;
            prompt_template := t |}.
Proof.
  intros H. unfold Obj.engine_at.
  now rewrite nth_error_new, (nth_error_grown s _ l _ H).
Qed.

Lemma argument_grown (s new : Obj.Store) (labels_ : option Obj.ref) :
  Obj.typed_argument s labels_ ->
  Obj.typed_argument (s ++ new)%list labels_
  /\ Obj.argument (s ++ new)%list labels_ = Obj.argument s labels_.
Proof.
  destruct labels_ as [r|]; [| now split].
  intros [items H]. cbn [Obj.typed_argument Obj.argument].
  rewrite (nth_error_grown s new r _ H), H. split; [now exists items |].
  reflexivity.
Qed.

(** [labels or self._default_labels()]: the list that is passed, not a
    copy of it, when it is not empty. *)
Lemma labels_or_default_spec (s : Obj.Store) (st : Sys World)
  (labels_ : option Obj.ref) :
  Obj.typed_argument s labels_ ->
  exists r new,
    Obj.labels_or_default labels_ {| Obj.store := s; Obj.sys := st |}
    = (Ok r, {| Obj.store := (s ++ new)%list; Obj.sys := st |})
    /\ nth_error (s ++ new)%list r
       = Some (Obj.ListOfStr
                 (or_labels (Obj.argument s labels_) _default_labels))
    /\ (forall r0 l ls, labels_ = Some r0 ->
          nth_error s r0 = Some (Obj.ListOfStr (l :: ls)) -> r = r0).
Proof.
  destruct labels_ as [r0|]; cbn [Obj.typed_argument Obj.argument].
  - intros [items H]. rewrite H. unfold Obj.labels_or_default, Obj.ob_bind.
    rewrite (list_at_at {| Obj.store := s; Obj.sys := st |} r0 items H).
    destruct items as [|l ls].
    + exists (List.length s), [Obj.ListOfStr _default_labels].
      split; [reflexivity |]. split; [apply nth_error_new |].
      intros r1 l ls [= <-] H'. congruence.
    + exists r0, []. rewrite app_nil_r. split; [reflexivity |].
      split; [exact H |]. now intros r1 l' ls' [= <-] _.
  - intros _. exists (List.length s), [Obj.ListOfStr _default_labels].
    split; [reflexivity |]. split; [apply nth_error_new |].
    intros r0 l ls H. discriminate.
Qed.

(** The end of [__init__]: the test of the labels, and the instance. *)
Lemma init_finish (s : Obj.Store) (st : Sys World) (key mdl : string)
  (l : Obj.ref) (t : string) (items : list string) :
  nth_error s l = Some (Obj.ListOfStr items) ->
  Obj.ob_bind (Obj.list_at l)
    (fun items =>
       if match items with [] => true | _ => false end
          || (List.length items <? 2)%nat
       then Obj.ob_raise (Exn ValueError
              "At least 2 labels are required for classification")
       else Obj.new (Obj.Instance key mdl l t))
    {| Obj.store := s; Obj.sys := st |}
  = if (List.length items <? 2)%nat
    then (Raise (Exn ValueError
            "At least 2 labels are required for classification"),
          {| Obj.store := s; Obj.sys := st |})
    else (Ok (List.length s),
          {| Obj.store := (s ++ [Obj.Instance key mdl l t])%list;
             Obj.sys := st |}).
Proof.
  intros H. unfold Obj.ob_bind.
  rewrite (list_at_at {| Obj.store := s; Obj.sys := st |} l items H).
  destruct items as [|l1 [|l2 ls]]; reflexivity.
Qed.

(** The constructor over the store does what the constructor does on
    values: it raises what that one raises, and the instance it leaves
    stands for the engine that one builds.  It changes no object. *)
Lemma init_obj_spec (env : Env) (api_key : option string) (model_ : string)
  (labels_ : option Obj.ref) (config_file : option string)
  (s : Obj.Store) (st : Sys World) :
  Obj.typed_argument s labels_ ->
  exists new,
    match __init__ env api_key model_ (Obj.argument s labels_) config_file
    with
    | Ok e =>
        exists self,
          Obj.__init__ env api_key model_ labels_ config_file
            {| Obj.store := s; Obj.sys := st |}
          = (Ok self, {| Obj.store := (s ++ new)%list; Obj.sys := st |})
          /\ Obj.engine_at (s ++ new)%list self = Some e
    | Raise ex =>
        Obj.__init__ env api_key model_ labels_ config_file
          {| Obj.store := s; Obj.sys := st |}
        = (Raise ex, {| Obj.store := (s ++ new)%list; Obj.sys := st |})
    end.
Proof.
  intros Ht.
  destruct (credential env api_key) as [key|] eqn:Hk.
  2: { rewrite (init_without_credential env api_key model_ _ config_file Hk).
       exists []. rewrite app_nil_r. unfold Obj.__init__.
       unfold credential in Hk.
       destruct (or_str api_key (OPENAI_API_KEY env)) as [[|c k]|];
         [| discriminate |]; reflexivity. }
  rewrite (init_with_credential env api_key model_ _ config_file key Hk).
  unfold Obj.__init__. unfold credential in Hk.
  destruct (or_str api_key (OPENAI_API_KEY env)) as [[|c k]|];
    [discriminate | | discriminate].
  injection Hk as <-.
  destruct (existing_config env config_file) as [found|ex].
  2: { exists []. rewrite app_nil_r. reflexivity. }
  unfold resolved_labels, resolved_template.
  unfold Obj.ob_bind, Obj.ob_lift, Obj.ob_ret.
  destruct found as [config|]; cbn [found_labels found_template].
  - destruct (cfg_labels config) as [items|].
    + destruct (argument_grown s [Obj.ListOfStr items] labels_ Ht) as [Ht1 _].
      destruct (labels_or_default_spec (s ++ [Obj.ListOfStr items])%list st
                  labels_ Ht1) as (r & new1 & Hd & _ & _).
      pose proof (init_finish ((s ++ [Obj.ListOfStr items]) ++ new1)%list st
                    (String c k) model_ (List.length s)
                    match cfg_prompt_template config with
                    | Some t => t
                    | None => _default_prompt_template
                    end items
                    (nth_error_grown _ new1 _ _
                       (nth_error_new s (Obj.ListOfStr items) [])))
        as Hf.
      unfold Obj.ob_bind in Hf.
      destruct (List.length items <? 2)%nat; unfold Obj.new at 1;
        cbn [Obj.store Obj.sys]; rewrite Hd, Hf.
      * exists (Obj.ListOfStr items :: new1). now rewrite <- app_assoc.
      * exists (Obj.ListOfStr items :: new1
                ++ [Obj.Instance (String c k) model_ (List.length s)
                      match cfg_prompt_template config with
                      | Some t => t
                      | None => _default_prompt_template
                      end])%list.
        exists (List.length ((s ++ [Obj.ListOfStr items]) ++ new1)%list).
        change (s ++ Obj.ListOfStr items :: new1 ++ ?x)%list
          with (s ++ [Obj.ListOfStr items] ++ new1 ++ x)%list.
        rewrite !app_assoc. split; [reflexivity |].
        apply engine_at_new. apply nth_error_grown, nth_error_new.
    + destruct (labels_or_default_spec s st labels_ Ht)
        as (r & new1 & Hd & Hr & _).
      pose proof (init_finish (s ++ new1)%list st (String c k) model_ r
                    match cfg_prompt_template config with
                    | Some t => t
                    | None => _default_prompt_template
                    end _ Hr) as Hf.
      unfold Obj.ob_bind in Hf. rewrite Hd, Hf.
      destruct (List.length _ <? 2)%nat.
      * now exists new1.
      * exists (new1 ++ [Obj.Instance (String c k) model_ r
                           match cfg_prompt_template config with
                           | Some t => t
                           | None => _default_prompt_template
                           end])%list.
        exists (List.length (s ++ new1)%list).
        rewrite app_assoc. split; [reflexivity |].
        now apply engine_at_new.
  - destruct (labels_or_default_spec s st labels_ Ht)
      as (r & new1 & Hd & Hr & _).
    pose proof (init_finish (s ++ new1)%list st (String c k) model_ r
                  _default_prompt_template _ Hr) as Hf.
    unfold Obj.ob_bind in Hf. rewrite Hd, Hf.
    destruct (List.length _ <? 2)%nat.
    + now exists new1.
    + exists (new1 ++ [Obj.Instance (String c k) model_ r
                         _default_prompt_template])%list.
      exists (List.length (s ++ new1)%list).
      rewrite app_assoc. split; [reflexivity |].
      now apply engine_at_new.
Qed.

(** C8, as the code has it.  The constructor leaves an instance whose
    labels are the list in effect, as it is, two labels or more; any
    such list is taken, whether its labels are pairwise distinct or
    not.  The labels stay what they are for the life of the engine as
    far as the engine goes: after any calls of [_build_prompt],
    [_parse_response], [classify] and [classify_batch], in any order and
    whatever they return or raise, every object that was in the store is
    as it was, the instance and its list of labels among them.  What the
    methods assign to are objects they have made. *)
Theorem labels_kept_for_life (env : Env) (api_key : option string)
  (model_ : string) (labels_ : option Obj.ref) (config_file : option string)
  (m : mem_) :
  Obj.typed_argument (Obj.store m) labels_ ->
  let given := Obj.argument (Obj.store m) labels_ in
  (forall self m',
     Obj.__init__ env api_key model_ labels_ config_file m = (Ok self, m') ->
     exists e found,
       Obj.engine_at (Obj.store m') self = Some e
       /\ __init__ env api_key model_ given config_file = Ok e
       /\ existing_config env config_file = Ok found
       /\ labels e = resolved_labels found given
       /\ 2 <= List.length (labels e)
       /\ (forall r o, nth_error (Obj.store m) r = Some o ->
             nth_error (Obj.store m') r = Some o)
       /\ (forall calls m1,
             Obj.engine_at (Obj.store m1) self = Some e ->
             let m2 :=
               Obj.life json_loads str_format remote_create self calls m1 in
             Obj.engine_at (Obj.store m2) self = Some e
             /\ (forall r o, nth_error (Obj.store m1) r = Some o ->
                   nth_error (Obj.store m2) r = Some o)))
  /\ (forall key found,
        credential env api_key = Some key ->
        existing_config env config_file = Ok found ->
        2 <= List.length (resolved_labels found given) ->
        exists self m',
          Obj.__init__ env api_key model_ labels_ config_file m = (Ok self, m')
          /\ Obj.engine_at (Obj.store m') self
             = Some {| api_key := key; model := model_;
                       labels := resolved_labels found given;
                       prompt_template := resolved_template found |}).
Proof.
  destruct m as [s st]. cbn [Obj.store]. intros Ht. cbv zeta.
  destruct (init_obj_spec env api_key model_ labels_ config_file s st Ht)
    as [new Hinit].
  split.
  - intros self m' Hrun.
    destruct (__init__ env api_key model_ (Obj.argument s labels_) config_file)
      as [e|ex] eqn:Hpure.
    2: { rewrite Hinit in Hrun. discriminate. }
    destruct Hinit as (self0 & Hobj & He). rewrite Hobj in Hrun.
    injection Hrun as -> <-. cbn [Obj.store].
    destruct (credential env api_key) as [key|] eqn:Hk.
    2: { rewrite (init_without_credential env api_key model_ _ config_file Hk)
           in Hpure. discriminate. }
    rewrite (init_with_credential env api_key model_ _ config_file key Hk)
      in Hpure.
    destruct (existing_config env config_file) as [found|ex];
      [| discriminate].
    destruct (List.length (resolved_labels found (Obj.argument s labels_)) <? 2)%nat
      eqn:Hlen; [discriminate |].
    injection Hpure as <-. apply Nat.ltb_ge in Hlen.
    exists {| api_key := key; model := model_;
              labels := resolved_labels found (Obj.argument s labels_);
              prompt_template := resolved_template found |}, found.
    split; [exact He |]. split; [reflexivity |]. split; [reflexivity |].
    split; [reflexivity |]. split; [exact Hlen |]. split.
    + intros r o. apply nth_error_grown.
    + intros calls m1 H1.
      destruct (life_grows self _ calls m1 H1) as [new2 ->]. split.
      * now apply engine_at_grown.
      * intros r o. apply nth_error_grown.
  - intros key found Hk Hc Hlen.
    rewrite (init_with_credential env api_key model_ _ config_file key Hk), Hc
      in Hinit.
    apply Nat.ltb_ge in Hlen. rewrite Hlen in Hinit.
    destruct Hinit as (self & Hobj & He).
    now exists self, {| Obj.store := (s ++ new)%list; Obj.sys := st |}.
Qed.

End ObjProperties.

Lemma labels_kept_for_life_witness :
  Obj.typed_argument
    (Obj.store (caller_mem ["Spam"; "Spam"] [Scripted.says inquiry_reply]))
    (Some 0)
  /\ exists self m',
       Obj.__init__ keyed_env None "gpt-4" (Some 0) None
         (caller_mem ["Spam"; "Spam"] [Scripted.says inquiry_reply])
       = (Ok self, m')
       /\ Obj.engine_at
            (Obj.store
               (Obj.life Json.loads Format.format Scripted.create self
                  [Obj.Classify "Hello"; Obj.Batch ["Bye"; " "];
                   Obj.Parse (Some lowercase_complaint); Obj.Build "Hello"]
                  m'))
            self
          = Some {| api_key := "sk-env"; model := "gpt-4";
                    labels := ["Spam"; "Spam"];
                    prompt_template := _default_prompt_template |}.
Proof.
  assert (Ht : Obj.typed_argument
                 (Obj.store (caller_mem ["Spam"; "Spam"]
                               [Scripted.says inquiry_reply]))
                 (Some 0)) by (now exists ["Spam"; "Spam"]).
  split; [exact Ht |].
  destruct (labels_kept_for_life Json.loads Format.format _ Scripted.create
              keyed_env None "gpt-4" (Some 0) None
              (caller_mem ["Spam"; "Spam"] [Scripted.says inquiry_reply]) Ht)
    as [Hbuilt Htaken].
  destruct (Htaken "sk-env" None eq_refl eq_refl ltac:(simpl; lia))
    as (self & m' & Hrun & He).
  exists self, m'. split; [exact Hrun |].
  destruct (Hbuilt self m' Hrun) as (e & found & He' & _ & _ & _ & _ & _ & Hlife).
  rewrite He in He'. injection He' as <-.
  exact (proj1 (Hlife _ m' He)).
Defined.

(** The list that is passed is the list that is kept: what its owner
    does to it later is done to the labels of the engine. *)
Example caller_list_is_shared :
  exists m',
    Obj.__init__ keyed_env None "gpt-4" (Some 0) None
      (caller_mem ["Spam"; "Ham"] [])
    = (Ok 1, m')
    /\ Obj.engine_at (Obj.store m') 1
       = Some {| api_key := "sk-env"; model := "gpt-4";
                 labels := ["Spam"; "Ham"];
                 prompt_template := _default_prompt_template |}
    /\ Obj.engine_at
         (Obj.store (snd (Obj.put 0 (Obj.ListOfStr ["Spam"]) m'))) 1
       = Some {| api_key := "sk-env"; model := "gpt-4";
                 labels := ["Spam"];
                 prompt_template := _default_prompt_template |}.
Proof. eexists. repeat split. Qed.

(** ** The statements at concrete inputs *)

Lemma classify_never_raises_witness :
  all_space "Refund me" = false
  /\ fst (run_classify default_engine "Refund me"
            [Raise (Exn (LibraryError "RateLimitError") "Rate limit reached")])
     = Ok (failed "Refund me" "Rate limit reached")
  /\ exists message,
       fst (run_classify default_engine "Refund me" [Scripted.says "not json"])
       = Ok (failed "Refund me"
               ("Failed to parse JSON response: " ++ message)).
Proof.
  split; [reflexivity |]. unfold run_classify.
  pose proof (classify_never_raises Json.loads Format.format _ Scripted.create
                default_engine "Refund me"
                (fresh [Raise (Exn (LibraryError "RateLimitError")
                                   "Rate limit reached")]))
    as (_ & _ & _ & H & _).
  pose proof (classify_never_raises Json.loads Format.format _ Scripted.create
                default_engine "Refund me" (fresh [Scripted.says "not json"]))
    as (_ & _ & _ & _ & _ & H').
  split.
  - eapply (H _ (Exn (LibraryError "RateLimitError") "Rate limit reached"));
      reflexivity.
  - exists "Expecting value".
    eapply (H' _ _ _
              (Exn ValueError "Failed to parse JSON response: Expecting value"));
      reflexivity.
Defined.

Lemma result_error_xor_member_witness :
  exists r,
    fst (run_classify two_label_engine "Where is my parcel?"
           [Scripted.says lowercase_complaint]) = Ok r
    /\ predicted_label r = PyStr "Complaint"
    /\ labelled_by two_label_engine r
    /\ ~ error_with_fallback r.
Proof.
  destruct (result_error_xor_member Json.loads Format.format _ Scripted.create
              two_label_engine "Where is my parcel?"
              (fresh [Scripted.says lowercase_complaint]))
    as (r & st' & H & Hkind).
  exists r. split; [exact (f_equal fst H) |].
  vm_compute in H. injection H as <- _. split; [reflexivity |].
  destruct Hkind as [[[[m Hm] _] _] | [Hl Hn]]; [discriminate | now split].
Defined.

Lemma blank_text_short_circuit_witness :
  all_space (" " ++ nl) = true
  /\ run_classify default_engine (" " ++ nl) [Scripted.says inquiry_reply]
     = (Ok (failed (" " ++ nl) "Empty text provided"),
        fresh [Scripted.says inquiry_reply]).
Proof.
  split; [reflexivity |].
  exact (proj1 (proj1 (blank_text_short_circuit Json.loads Format.format _
                         Scripted.create default_engine (" " ++ nl)
                         (fresh [Scripted.says inquiry_reply])) eq_refl)).
Defined.

Lemma fallback_label_is_literal_witness :
  ~ In "Other" (labels two_label_engine)
  /\ exists r,
       fst (run_classify two_label_engine "Hello" []) = Ok r
       /\ error r = Some "Connection error."
       /\ predicted_label r = PyStr "Other"
       /\ forall l, predicted_label r = PyStr l
                    -> ~ In l (labels two_label_engine).
Proof.
  assert (Hn : ~ In "Other" (labels two_label_engine)).
  { simpl. intros [H | [H | []]]; discriminate. }
  split; [exact Hn |].
  destruct (fallback_label_is_literal Json.loads Format.format _
              Scripted.create two_label_engine "Hello" (fresh []))
    as (r & st' & H & Hlit).
  exists r. split; [exact (f_equal fst H) |].
  assert (He : error r = Some "Connection error.").
  { vm_compute in H. now injection H as <- _. }
  destruct (Hlit _ He) as [Ho Hm].
  split; [exact He |]. split; [exact Ho | exact (Hm Hn)].
Defined.

Lemma confidence_rationale_pass_through_witness :
  exists r,
    fst (run_classify default_engine "Anything"
           [Scripted.says overconfident_reply]) = Ok r
    /\ error r = None
    /\ confidence r = PyNum "1.7"
    /\ rationale r = PyNone.
Proof.
  destruct (confidence_rationale_pass_through Json.loads Format.format _
              Scripted.create default_engine "Anything"
              (fresh [Scripted.says overconfident_reply]))
    as (r & st' & H & Hpass).
  exists r. split; [exact (f_equal fst H) |].
  assert (He : error r = None).
  { vm_compute in H. now injection H as <- _. }
  split; [exact He |].
  destruct (Hpass He)
    as (prompt & response & raw & d & Hb & Hr & Hc & Hd & Hc1 & _ & _ & Hr2).
  injection Hb as <-. injection Hr as <-. injection Hc as <-.
  vm_compute in Hd. injection Hd as <-.
  split; [now apply Hc1 | now apply Hr2].
Defined.

Lemma classify_batch_pointwise_witness :
  (forall req w w',
      fst (Canned.create inquiry_reply req w)
      = fst (Canned.create inquiry_reply req w'))
  /\ exists rs,
       fst (classify_batch Json.loads Format.format
              (Canned.create inquiry_reply) default_engine
              ["What are your hours?"; "Is this an outage?"; " "; "Thanks"]
              (fresh tt))
       = Ok rs
       /\ List.length rs = 4
       /\ map predicted_label rs
          = [PyStr "Inquiry"; PyStr "Other"; PyStr "Other"; PyStr "Inquiry"]
       /\ map error rs
          = [None; Some "Connection error."; Some "Empty text provided"; None].
Proof.
  assert (Hs : forall req w w',
             fst (Canned.create inquiry_reply req w)
             = fst (Canned.create inquiry_reply req w')) by reflexivity.
  split; [exact Hs |].
  destruct (classify_batch_pointwise Json.loads Format.format _
              (Canned.create inquiry_reply) default_engine
              ["What are your hours?"; "Is this an outage?"; " "; "Thanks"]
              (fresh tt)) as (rs & H & Hlen & _ & Hiso & _).
  exists rs. rewrite H. split; [reflexivity |]. split; [exact Hlen |].
  destruct (Hiso Hs 0 _ (fresh tt) eq_refl) as (r0 & E0 & C0).
  destruct (Hiso Hs 1 _ (fresh tt) eq_refl) as (r1 & E1 & C1).
  destruct (Hiso Hs 2 _ (fresh tt) eq_refl) as (r2 & E2 & C2).
  destruct (Hiso Hs 3 _ (fresh tt) eq_refl) as (r3 & E3 & C3).
  destruct rs as [|x0 [|x1 [|x2 [|x3 [|x4 rs]]]]]; try discriminate.
  injection E0 as ->. injection E1 as ->. injection E2 as ->.
  injection E3 as ->.
  vm_compute in C0. vm_compute in C1. vm_compute in C2. vm_compute in C3.
  injection C0 as <-. injection C1 as <-. injection C2 as <-.
  injection C3 as <-. split; reflexivity.
Defined.

(** ** Further evaluations *)

Example strip_example : strip (" " ++ nl ++ "a b" ++ nl) = "a b".
Proof. reflexivity. Qed.

Example lower_example : lower "Complaint" = "complaint".
Proof. reflexivity. Qed.

Example repr_list_example :
  repr_list ["Complaint"; "it's"]
  = "['Complaint', " ++ dq ++ "it's" ++ dq ++ "]".
Proof. reflexivity. Qed.

(** The scenario of the specification, from the text to the result. *)
Example business_hours :
  fst (run_classify default_engine "What are your business hours?"
         [Scripted.says inquiry_reply])
  = Ok {| text := "What are your business hours?";
          predicted_label := PyStr "Inquiry";
          confidence := PyNum "0.95";
          rationale := PyStr "...";
          error := None |}.
Proof. reflexivity. Qed.

Example unknown_label :
  parse two_label_engine
    ("{" ++ dq ++ "label" ++ dq ++ ":" ++ dq ++ "Spam" ++ dq ++ "}")
  = Raise (Exn ValueError
      "Error parsing response: Invalid label 'Spam'. Must be one of: ['Complaint', 'Inquiry']").
Proof. reflexivity. Qed.

Example missing_label :
  parse two_label_engine ("{" ++ dq ++ "confidence" ++ dq ++ ":0.9}")
  = Raise (Exn ValueError
      "Error parsing response: Response missing 'label' field").
Proof. reflexivity. Qed.

Example numeric_label :
  parse two_label_engine ("{" ++ dq ++ "label" ++ dq ++ ":5}")
  = Raise (Exn ValueError
      "Error parsing response: 'int' object has no attribute 'lower'").
Proof. reflexivity. Qed.

Example no_content :
  _parse_response Json.loads two_label_engine None
  = Raise (Exn ValueError
      "Error parsing response: 'NoneType' object has no attribute 'strip'").
Proof. reflexivity. Qed.

Example no_choices :
  fst (run_classify default_engine "Hello" [Ok {| choices := [] |}])
  = Ok (failed "Hello" "list index out of range").
Proof. reflexivity. Qed.

(** A template with a field the engine does not fill in: the call
    fails before any request is sent. *)
Example unknown_field :
  run_classify
    {| api_key := "sk-test"; model := "gpt-3.5-turbo";
       labels := ["Spam"; "Ham"]; prompt_template := "{labels}: {body}" |}
    "Hello" [Scripted.says inquiry_reply]
  = (Ok (failed "Hello" "'body'"), fresh [Scripted.says inquiry_reply]).
Proof. reflexivity. Qed.

(** The tight fence without a tag, around a body that begins with
    [json], is read as a tagged fence around the rest. *)
Example tight_fence_reads_tag :
  normalize (fence false "" "" "json5") = "5"
  /\ normalize "json5" = "json5".
Proof. split; reflexivity. Qed.

(** * The callers *)

(** ** Lines *)

Lemma split_on_not_nil (sep : ascii) (s : string) : split_on sep s <> [].
Proof.
  destruct s as [|c s]; simpl; [discriminate |].
  destruct (Ascii.eqb c sep); [discriminate |].
  destruct (split_on sep s); discriminate.
Qed.

Lemma join_cons (sep x : string) (l : list string) :
  l <> [] -> join sep (x :: l) = x ++ sep ++ join sep l.
Proof. destruct l; [contradiction | reflexivity]. Qed.

(** Joining the lines of a text gives the text back. *)
Lemma join_split_lines (s : string) : join nl (split_lines s) = s.
Proof.
  unfold split_lines. induction s as [|c s IH]; [reflexivity |].
  simpl split_on. destruct (Ascii.eqb c "010") eqn:E.
  - apply Ascii.eqb_eq in E. subst c.
    rewrite join_cons by apply split_on_not_nil. now rewrite IH.
  - pose proof (split_on_not_nil "010" s) as Hn.
    destruct (split_on "010" s) as [|p ps]; [contradiction |].
    destruct ps as [|q qs].
    + simpl in *. now rewrite IH.
    + rewrite join_cons by discriminate.
      rewrite join_cons in IH by discriminate.
      now rewrite <- IH.
Qed.

Lemma split_on_fresh (sep : ascii) (s : string) :
  has_char sep s = false -> split_on sep s = [s].
Proof.
  induction s as [|c s IH]; [reflexivity |]. simpl.
  rewrite Ascii.eqb_sym. destruct (Ascii.eqb c sep); [discriminate |].
  simpl. intros H. now rewrite IH.
Qed.

Lemma split_on_app (sep : ascii) (a b : string) :
  has_char sep a = false ->
  split_on sep (a ++ String sep b) = a :: split_on sep b.
Proof.
  induction a as [|c a IH]; simpl.
  - now rewrite Ascii.eqb_refl.
  - rewrite (Ascii.eqb_sym sep c). destruct (Ascii.eqb c sep); [discriminate |].
    simpl. intros H. now rewrite IH.
Qed.

(** Splitting what was joined gives the lines back, when no line holds
    a line feed. *)
Lemma split_lines_join (lines : list string) :
  lines <> [] ->
  Forall (fun line => has_char "010" line = false) lines ->
  split_lines (join nl lines) = lines.
Proof.
  unfold split_lines. induction lines as [|x l IH]; [contradiction |].
  intros _ H. inversion H as [|? ? Hx Hl]; subst.
  destruct l as [|y l].
  - simpl. now apply split_on_fresh.
  - rewrite join_cons by discriminate.
    change (nl ++ join nl (y :: l)) with (String "010" (join nl (y :: l))).
    rewrite split_on_app by assumption.
    now rewrite IH by (discriminate || assumption).
Qed.

Lemma split_lines_fresh (s : string) :
  Forall (fun line => has_char "010" line = false) (split_lines s).
Proof.
  unfold split_lines. induction s as [|c s IH]; simpl.
  - now repeat constructor.
  - destruct (Ascii.eqb c "010") eqn:E.
    + constructor; [reflexivity | exact IH].
    + pose proof (split_on_not_nil "010" s) as Hn.
      destruct (split_on "010" s) as [|p ps]; [contradiction |].
      inversion IH as [|? ? Hp Hps]; subst.
      constructor; [| exact Hps].
      change (has_char "010" (String c p))
        with (Ascii.eqb "010" c || has_char "010" p).
      rewrite Ascii.eqb_sym, E. exact Hp.
Qed.

Lemma has_char_app (c : ascii) (a b : string) :
  has_char c (a ++ b) = has_char c a || has_char c b.
Proof.
  induction a as [|x a IH]; simpl; [reflexivity |].
  now rewrite IH, orb_assoc.
Qed.

Lemma contains_cons (p : string) (c : ascii) (s : string) :
  contains p (String c s) = String.prefix p (String c s) || contains p s.
Proof. reflexivity. Qed.

Lemma contains_prefix (p s : string) :
  String.prefix p s = true -> contains p s = true.
Proof.
  intros H. destruct s as [|c s].
  - change (contains p "") with (String.prefix p "" || false). now rewrite H.
  - now rewrite contains_cons, H.
Qed.

Lemma contains_app_r (p a b : string) :
  contains p b = true -> contains p (a ++ b) = true.
Proof.
  intros H. induction a as [|c a IH]; [exact H |].
  change (String c a ++ b) with (String c (a ++ b)).
  rewrite contains_cons, IH. apply orb_true_r.
Qed.

Lemma contains_app_l (p a b : string) :
  contains p a = true -> contains p (a ++ b) = true.
Proof.
  induction a as [|c a IH].
  - change (contains p "") with (String.prefix p "" || false).
    rewrite orb_false_r. intros H. apply contains_prefix.
    apply prefix_iff in H as [y Hy]. destruct p; [apply prefix_nil | discriminate].
  - change (String c a ++ b) with (String c (a ++ b)).
    rewrite !contains_cons. intros H. apply orb_true_iff in H as [H | H].
    + apply prefix_iff in H as [y Hy]. apply orb_true_iff. left.
      apply prefix_iff. exists (y ++ b).
      change (String c (a ++ b)) with (String c a ++ b).
      now rewrite Hy, append_assoc.
    + rewrite (IH H). apply orb_true_r.
Qed.

(** The first line of a text is a prefix of it. *)
Lemma first_line_prefix (s q : string) (qs : list string) :
  split_lines s = q :: qs -> exists rest, s = q ++ rest.
Proof.
  intros H. pose proof (join_split_lines s) as J. rewrite H in J.
  destruct qs as [|r rs].
  - exists "". simpl in J. now rewrite append_empty_r.
  - rewrite join_cons in J by discriminate. now exists (nl ++ join nl (r :: rs)).
Qed.

(** What a line holds, the text holds. *)
Lemma contains_line (p s line : string) :
  In line (split_lines s) -> contains p line = true -> contains p s = true.
Proof.
  intros Hin Hc. rewrite <- (join_split_lines s).
  induction (split_lines s) as [|x l IH]; [contradiction |].
  destruct l as [|y l].
  - destruct Hin as [-> | []]. exact Hc.
  - rewrite join_cons by discriminate. destruct Hin as [-> | Hin].
    + now apply contains_app_l.
    + apply contains_app_r, contains_app_r. now apply IH.
Qed.

Lemma split_lines_cons (c : ascii) (s : string) :
  split_lines (String c s)
  = if Ascii.eqb c "010" then "" :: split_lines s
    else match split_lines s with
         | piece :: pieces => String c piece :: pieces
         | [] => [String c ""]
         end.
Proof. reflexivity. Qed.

(** A text without a line feed, put before another, goes to its first
    line. *)
Lemma split_lines_fresh_app (p y : string) :
  has_char "010" p = false ->
  split_lines (p ++ y)
  = match split_lines y with
    | q :: qs => (p ++ q) :: qs
    | [] => [p]
    end.
Proof.
  pose proof (split_on_not_nil "010" y) as Hn. fold (split_lines y) in Hn.
  induction p as [|b p IH]; intros Hp.
  - simpl. destruct (split_lines y); [contradiction | reflexivity].
  - change (has_char "010" (String b p))
      with (Ascii.eqb "010" b || has_char "010" p) in Hp.
    apply orb_false_iff in Hp as [Hb Hp]. rewrite Ascii.eqb_sym in Hb.
    change (String b p ++ y) with (String b (p ++ y)).
    rewrite split_lines_cons, Hb, (IH Hp).
    destruct (split_lines y); [contradiction | reflexivity].
Qed.

(** What a text holds and that has no line feed is held by a line. *)
Lemma contains_some_line (p s : string) :
  has_char "010" p = false ->
  contains p s = true ->
  exists line, In line (split_lines s) /\ contains p line = true.
Proof.
  intros Hp. induction s as [|c s IH].
  - intros H. exists "". split; [now left | exact H].
  - rewrite contains_cons. intros H.
    apply orb_true_iff in H as [H | H].
    + apply prefix_iff in H as [y Hy]. rewrite Hy.
      rewrite (split_lines_fresh_app p y Hp).
      pose proof (split_on_not_nil "010" y) as Hn. fold (split_lines y) in Hn.
      destruct (split_lines y) as [|q qs]; [contradiction |].
      exists (p ++ q). split; [now left |].
      apply contains_prefix, prefix_iff. now exists q.
    + destruct (IH H) as (line & Hin & Hc).
      pose proof (split_on_not_nil "010" s) as Hn. fold (split_lines s) in Hn.
      rewrite split_lines_cons.
      destruct (Ascii.eqb c "010"); [exists line; split; [now right | exact Hc] |].
      destruct (split_lines s) as [|q qs]; [contradiction |].
      destruct Hin as [<- | Hin].
      * exists (String c q). split; [now left |].
        rewrite contains_cons, Hc. apply orb_true_r.
      * exists line. split; [now right | exact Hc].
Qed.

Lemma split_lines_app (a b : string) :
  split_lines (a ++ nl ++ b)
  = (removelast (split_lines a)
     ++ [last (split_lines a) ""] ++ split_lines b)%list.
Proof.
  change (nl ++ b) with (String "010" b).
  induction a as [|c a IH]; [reflexivity |].
  change (String c a ++ String "010" b) with (String c (a ++ String "010" b)).
  rewrite !split_lines_cons, IH.
  pose proof (split_on_not_nil "010" a) as Hn. fold (split_lines a) in Hn.
  destruct (Ascii.eqb c "010").
  - destruct (split_lines a) as [|q qs]; [contradiction | reflexivity].
  - destruct (split_lines a) as [|q [|r rs]]; [contradiction | |];
      reflexivity.
Qed.

(** ** The [.env] file *)

Lemma key_line_fresh (k : string) :
  has_char "010" k = false -> has_char "010" (Setup.key_name ++ k) = false.
Proof. intros H. rewrite has_char_app, H. reflexivity. Qed.

Lemma key_line_starts (k : string) :
  startswith Setup.key_name (Setup.key_name ++ k) = true.
Proof. apply prefix_iff. now exists k. Qed.

Lemma replace_line_twice (k line : string) :
  Setup.replace_line k (Setup.replace_line k line) = Setup.replace_line k line.
Proof.
  unfold Setup.replace_line.
  destruct (startswith Setup.key_name line) eqn:E.
  - now rewrite key_line_starts.
  - now rewrite E.
Qed.

Lemma replace_line_fresh (k line : string) :
  has_char "010" k = false -> has_char "010" line = false ->
  has_char "010" (Setup.replace_line k line) = false.
Proof.
  intros Hk Hl. unfold Setup.replace_line.
  destruct (startswith Setup.key_name line); [now apply key_line_fresh | exact Hl].
Qed.

(** No line of a text that does not hold the key name begins with it. *)
Lemma no_key_line (content line : string) :
  contains Setup.key_name content = false ->
  In line (split_lines content) ->
  startswith Setup.key_name line = false.
Proof.
  intros Hc Hin. destruct (startswith Setup.key_name line) eqn:E; [| reflexivity].
  apply contains_prefix in E. rewrite (contains_line _ _ _ Hin E) in Hc.
  discriminate.
Qed.

Lemma update_lines_replace (content k : string) :
  contains Setup.key_name content = true ->
  has_char "010" k = false ->
  split_lines (Setup.update_content content k)
  = map (Setup.replace_line k) (split_lines content).
Proof.
  intros Hc Hk. unfold Setup.update_content. rewrite Hc. cbv zeta.
  apply split_lines_join.
  - pose proof (split_on_not_nil "010" content) as Hn.
    fold (split_lines content) in Hn.
    destruct (split_lines content); [contradiction | discriminate].
  - apply Forall_map. eapply Forall_impl; [| apply split_lines_fresh].
    intros line Hl. now apply replace_line_fresh.
Qed.

Lemma removelast_last (l : list string) :
  l <> [] -> (removelast l ++ [last l ""])%list = l.
Proof. intros H. symmetry. now apply app_removelast_last. Qed.

Lemma update_lines_append (content k : string) :
  contains Setup.key_name content = false ->
  has_char "010" k = false ->
  split_lines (Setup.update_content content k)
  = (split_lines content ++ [(Setup.key_name ++ k)%string; ""])%list.
Proof.
  intros Hc Hk. unfold Setup.update_content. rewrite Hc.
  replace (Setup.key_name ++ k ++ nl)
    with ((Setup.key_name ++ k) ++ nl ++ "") by now rewrite append_assoc.
  rewrite !split_lines_app.
  unfold split_lines at 3 4.
  rewrite (split_on_fresh _ _ (key_line_fresh k Hk)). simpl removelast.
  simpl last. rewrite app_assoc, removelast_last; [reflexivity |].
  apply split_on_not_nil.
Qed.

(** The new content holds the key name. *)
Lemma update_contains_key (content k : string) :
  has_char "010" k = false ->
  contains Setup.key_name (Setup.update_content content k) = true.
Proof.
  intros Hk. destruct (contains Setup.key_name content) eqn:Hc.
  - destruct (contains_some_line Setup.key_name content eq_refl Hc)
      as (line & Hin & Hl).
    apply contains_line with (line := Setup.replace_line k line).
    + rewrite (update_lines_replace content k Hc Hk). now apply in_map.
    + unfold Setup.replace_line.
      destruct (startswith Setup.key_name line); [| exact Hl].
      apply contains_prefix, key_line_starts.
  - unfold Setup.update_content. rewrite Hc.
    apply contains_app_r, contains_app_r, contains_app_l.
    apply contains_prefix, prefix_nil || (apply contains_prefix, prefix_iff;
                                          now exists "").
Qed.

(** Updating twice with the same key is updating once. *)
Lemma update_content_twice (content k : string) :
  has_char "010" k = false ->
  Setup.update_content (Setup.update_content content k) k
  = Setup.update_content content k.
Proof.
  intros Hk.
  set (u := Setup.update_content content k).
  assert (Hu : contains Setup.key_name u = true) by now apply update_contains_key.
  unfold Setup.update_content at 1. rewrite Hu. cbv zeta.
  rewrite <- (join_split_lines u) at 2. f_equal.
  unfold u. destruct (contains Setup.key_name content) eqn:Hc.
  - rewrite (update_lines_replace content k Hc Hk), map_map.
    apply map_ext. intros line. apply replace_line_twice.
  - rewrite (update_lines_append content k Hc Hk), map_app. f_equal.
    + rewrite <- (map_id (split_lines content)) at 2.
      apply map_ext_in. intros line Hin. unfold Setup.replace_line.
      now rewrite (no_key_line content line Hc Hin).
    + cbn [map]. unfold Setup.replace_line. now rewrite key_line_starts.
Qed.

(** ** What is read back *)

Lemma universal_newlines_clean (s : string) :
  has_char "013" (universal_newlines s) = false.
Proof.
  induction s as [|c s IH]; [reflexivity |].
  cbn [universal_newlines]. destruct (Ascii.eqb c "013") eqn:E.
  - destruct s as [|c' s']; [reflexivity |].
    destruct (Ascii.eqb c' "010"); [exact IH |].
    change (has_char "013" (String "010" (universal_newlines (String c' s'))))
      with (false || has_char "013" (universal_newlines (String c' s'))).
    exact IH.
  - change (has_char "013" (String c (universal_newlines s)))
      with (Ascii.eqb "013" c || has_char "013" (universal_newlines s)).
    now rewrite Ascii.eqb_sym, E, IH.
Qed.

(** A text without a carriage return is read as it is stored. *)
Lemma universal_newlines_id (s : string) :
  has_char "013" s = false -> universal_newlines s = s.
Proof.
  induction s as [|c s IH]; [reflexivity |].
  change (has_char "013" (String c s))
    with (Ascii.eqb "013" c || has_char "013" s).
  intros H. apply orb_false_iff in H as [Hc Hs].
  cbn [universal_newlines]. rewrite Ascii.eqb_sym, Hc. now rewrite IH.
Qed.

Lemma has_char_split (c sep : ascii) (s : string) :
  has_char c s = false ->
  Forall (fun piece => has_char c piece = false) (split_on sep s).
Proof.
  induction s as [|x s IH]; [now repeat constructor |].
  change (has_char c (String x s)) with (Ascii.eqb c x || has_char c s).
  intros H. apply orb_false_iff in H as [Hx Hs]. specialize (IH Hs).
  cbn [split_on]. destruct (Ascii.eqb x sep); [now constructor |].
  destruct (split_on sep s) as [|p ps].
  - constructor; [| constructor]. simpl. now rewrite Hx.
  - inversion IH as [|? ? Hp Hps]; subst. constructor; [| exact Hps].
    change (has_char c (String x p)) with (Ascii.eqb c x || has_char c p).
    now rewrite Hx, Hp.
Qed.

Lemma has_char_join (c : ascii) (sep : string) (pieces : list string) :
  has_char c sep = false ->
  Forall (fun piece => has_char c piece = false) pieces ->
  has_char c (join sep pieces) = false.
Proof.
  intros Hsep H. induction H as [|p ps Hp _ IH]; [reflexivity |].
  destruct ps as [|q qs]; [exact Hp |].
  rewrite join_cons by discriminate.
  now rewrite !has_char_app, Hp, Hsep, IH.
Qed.

(** The update brings no carriage return into a text that has none. *)
Lemma update_content_clean (content k : string) :
  has_char "013" content = false -> has_char "013" k = false ->
  has_char "013" (Setup.update_content content k) = false.
Proof.
  intros Hc Hk. unfold Setup.update_content.
  destruct (contains Setup.key_name content).
  - cbv zeta. apply has_char_join; [reflexivity |].
    apply Forall_map.
    apply (Forall_impl _ (P := fun line => has_char "013" line = false));
      [| now apply has_char_split].
    intros line Hl. unfold Setup.replace_line.
    destruct (startswith Setup.key_name line); [| exact Hl].
    now rewrite has_char_app, Hk.
  - now rewrite !has_char_app, Hc, Hk.
Qed.

(** X1: a second run with the same key leaves [.env] as the first run
    left it, when the key holds no line feed and no carriage return.
    The second run reads what the first has written. *)
Theorem update_content_idempotent (stored k : string) :
  has_char "010" k = false ->
  has_char "013" k = false ->
  Setup.written (Some (Setup.written (Some stored) k)) k
  = Setup.written (Some stored) k.
Proof.
  intros Hlf Hcr. unfold Setup.written.
  rewrite (universal_newlines_id
             (Setup.update_content (universal_newlines stored) k)).
  - now apply update_content_twice.
  - apply update_content_clean; [apply universal_newlines_clean | exact Hcr].
Qed.

Lemma update_content_idempotent_witness :
  has_char "013" "sk-new" = false
  /\ Setup.written
       (Some (Setup.written
                (Some ("DEBUG=1" ++ String "013" nl ++ "OPENAI_API_KEY=sk-old"))
                "sk-new"))
       "sk-new"
     = "DEBUG=1" ++ nl ++ "OPENAI_API_KEY=sk-new".
Proof.
  split; [reflexivity |].
  rewrite (update_content_idempotent _ "sk-new" eq_refl eq_refl).
  reflexivity.
Defined.

(** A key with a carriage return inside is read back as two lines: the
    second run is not the first. *)
Example carriage_return_in_key :
  let k := "sk-a" ++ String "013" "b" in
  let once := Setup.written (Some "DEBUG=1") k in
  once = "DEBUG=1" ++ nl ++ "OPENAI_API_KEY=" ++ k ++ nl
  /\ Setup.written (Some once) k
     = "DEBUG=1" ++ nl ++ "OPENAI_API_KEY=" ++ k ++ nl ++ "b" ++ nl.
Proof. split; reflexivity. Qed.

(** X2: after the update of a file that did not hold the key name, or
    that had a line beginning with it, the file has the line of the new
    key, every line that begins with the key name is that line, and
    every other line of the old file is where it was. *)
Theorem update_content_defines_key (content k : string) :
  has_char "010" k = false ->
  (contains Setup.key_name content = false
   \/ exists line, In line (split_lines content)
                   /\ startswith Setup.key_name line = true) ->
  let lines := split_lines (Setup.update_content content k) in
  In (Setup.key_name ++ k) lines
  /\ (forall line, In line lines ->
        startswith Setup.key_name line = true -> line = Setup.key_name ++ k)
  /\ (forall i line, nth_error (split_lines content) i = Some line ->
        startswith Setup.key_name line = false ->
        nth_error lines i = Some line).
Proof.
  intros Hk H. cbv zeta.
  destruct (contains Setup.key_name content) eqn:Hc.
  - destruct H as [H | (l & Hin & Hl)]; [discriminate |].
    rewrite (update_lines_replace content k Hc Hk). repeat split.
    + apply in_map_iff. exists l. split; [| exact Hin].
      unfold Setup.replace_line. now rewrite Hl.
    + intros line Hline Hs. apply in_map_iff in Hline as (x & <- & _).
      unfold Setup.replace_line in *.
      destruct (startswith Setup.key_name x) eqn:E; [reflexivity | congruence].
    + intros i line Hi Hs. rewrite nth_error_map, Hi. simpl.
      unfold Setup.replace_line. now rewrite Hs.
  - rewrite (update_lines_append content k Hc Hk). repeat split.
    + apply in_or_app. right. now left.
    + intros line Hline Hs. apply in_app_or in Hline as [Hin | [<- | [<- | []]]].
      * rewrite (no_key_line content line Hc Hin) in Hs. discriminate.
      * reflexivity.
      * discriminate.
    + intros i line Hi _. rewrite nth_error_app1; [exact Hi |].
      apply nth_error_Some. congruence.
Qed.

Lemma update_content_defines_key_witness :
  let content := "DEBUG=1" ++ nl ++ "OPENAI_API_KEY=sk-old" ++ nl ++ "PORT=5000" in
  split_lines (Setup.update_content content "sk-new")
  = ["DEBUG=1"; "OPENAI_API_KEY=sk-new"; "PORT=5000"]
  /\ In "OPENAI_API_KEY=sk-new"
        (split_lines (Setup.update_content content "sk-new")).
Proof.
  cbv zeta. split; [reflexivity |].
  refine (proj1 (update_content_defines_key _ "sk-new" eq_refl _)).
  right. exists "OPENAI_API_KEY=sk-old". split; [| reflexivity].
  right. now left.
Defined.

(** X3: a file that holds the key name, but never at the beginning of a
    line (in a comment, or behind [export]), is left as it is: the new
    key is not stored. *)
Theorem update_content_key_inside_line (content k : string) :
  contains Setup.key_name content = true ->
  (forall line, In line (split_lines content) ->
     startswith Setup.key_name line = false) ->
  Setup.update_content content k = content.
Proof.
  intros Hc Hno. unfold Setup.update_content. rewrite Hc. cbv zeta.
  rewrite <- (join_split_lines content) at 2. f_equal.
  rewrite <- (map_id (split_lines content)) at 2.
  apply map_ext_in. intros line Hin. unfold Setup.replace_line.
  now rewrite (Hno line Hin).
Qed.

Lemma update_content_key_inside_line_witness :
  contains Setup.key_name "export OPENAI_API_KEY=sk-old" = true
  /\ Setup.update_content "export OPENAI_API_KEY=sk-old" "sk-new"
     = "export OPENAI_API_KEY=sk-old".
Proof.
  split; [reflexivity |].
  apply (update_content_key_inside_line "export OPENAI_API_KEY=sk-old"
           "sk-new" eq_refl).
  intros line [<- | []]. reflexivity.
Defined.

(** ** The constructor and its callers *)

(** X4: when the configuration file exists and has labels, the labels
    given to the constructor play no part: the file wins. *)
Theorem config_labels_override_argument (env : Env) (api_key : option string)
  (model_ : string) (config_file : option string) (config : Config)
  (file_labels : list string) :
  existing_config env config_file = Ok (Some config) ->
  cfg_labels config = Some file_labels ->
  (forall labels1 labels2,
     __init__ env api_key model_ labels1 config_file
     = __init__ env api_key model_ labels2 config_file)
  /\ (forall labels_ self,
        __init__ env api_key model_ labels_ config_file = Ok self ->
        labels self = file_labels).
Proof.
  intros Hc Hl.
  assert (Hr : forall l, resolved_labels (Some config) l = file_labels).
  { intros l. unfold resolved_labels. simpl. now rewrite Hl. }
  split.
  - intros l1 l2. destruct (credential env api_key) as [key|] eqn:Hk.
    + now rewrite !(init_with_credential env api_key model_ _ config_file key Hk),
        Hc, !Hr.
    + now rewrite !(init_without_credential env api_key model_ _ config_file Hk).
  - intros l self H. destruct (credential env api_key) as [key|] eqn:Hk.
    + rewrite (init_with_credential env api_key model_ l config_file key Hk),
        Hc, Hr in H.
      destruct (List.length file_labels <? 2)%nat; [discriminate |].
      now injection H as <-.
    + rewrite (init_without_credential env api_key model_ l config_file Hk) in H.
      discriminate.
Qed.

Lemma config_labels_override_argument_witness :
  exists self,
    __init__ env_with_config None "gpt-4" (Some ["Urgent"; "Later"])
      (Some "labels.json")
    = Ok self
    /\ labels self = ["Spam"; "Ham"].
Proof.
  eexists. split; [reflexivity |].
  exact (proj2 (config_labels_override_argument env_with_config None "gpt-4"
                  (Some "labels.json")
                  {| cfg_labels := Some ["Spam"; "Ham"];
                     cfg_prompt_template := None |}
                  ["Spam"; "Ham"] eq_refl eq_refl)
           (Some ["Urgent"; "Later"]) _ eq_refl).
Defined.

(** X5: a path at which [Path.exists] finds nothing is passed over in
    silence: the constructor does what it does without a path.  A path
    that cannot be examined is not passed over: with a credential, the
    exception of the test leaves the constructor. *)
Theorem missing_config_file_ignored (env : Env) (api_key : option string)
  (model_ : string) (labels_ : option (list string)) (path : string) :
  (config_files env path = Absent ->
   __init__ env api_key model_ labels_ (Some path)
   = __init__ env api_key model_ labels_ None)
  /\ (forall e key,
        config_files env path = StatError e ->
        path <> "" ->
        credential env api_key = Some key ->
        __init__ env api_key model_ labels_ (Some path) = Raise e).
Proof.
  split.
  - intros H.
    assert (Hc : existing_config env (Some path) = Ok None).
    { simpl. rewrite H. now destruct (truthy path). }
    destruct (credential env api_key) as [key|] eqn:Hk.
    + rewrite !(init_with_credential env api_key model_ labels_ _ key Hk).
      now rewrite Hc.
    + now rewrite !(init_without_credential env api_key model_ labels_ _ Hk).
  - intros e key H Hp Hk.
    rewrite (init_with_credential env api_key model_ labels_ _ key Hk).
    simpl. rewrite H. destruct path; [contradiction | reflexivity].
Qed.

Lemma missing_config_file_ignored_witness :
  config_files env_with_files "no-such-file.json" = Absent
  /\ __init__ env_with_files None "gpt-4" None (Some "no-such-file.json")
     = Ok {| api_key := "sk-env"; model := "gpt-4"; labels := _default_labels;
             prompt_template := _default_prompt_template |}
  /\ __init__ env_with_files None "gpt-4" None (Some long_name)
     = Raise (Exn (LibraryError "OSError")
                ("[Errno 36] File name too long: " ++ repr long_name)).
Proof.
  split; [reflexivity |]. split.
  - now rewrite (proj1 (missing_config_file_ignored env_with_files None
                          "gpt-4" None "no-such-file.json") eq_refl).
  - exact (proj2 (missing_config_file_ignored env_with_files None "gpt-4"
                    None long_name)
             (Exn (LibraryError "OSError")
                ("[Errno 36] File name too long: " ++ repr long_name))
             "sk-env" eq_refl ltac:(discriminate) eq_refl).
Defined.

(** The constructor with every argument at its default. *)
Lemma init_defaults (env : Env) :
  __init__ env None "gpt-3.5-turbo" None None
  = match OPENAI_API_KEY env with
    | Some (String c k) => Ok (App.default_classifier (String c k))
    | _ => Raise (Exn ValueError App.no_key_message)
    end.
Proof.
  unfold __init__. simpl.
  destruct (OPENAI_API_KEY env) as [[|c k]|]; reflexivity.
Qed.

(** X6: [setup_api_key] answers the first line it reads.  An empty key
    ends it with [False] and the file as it was.  A key that begins with
    [sk-] is saved; another key is saved when the second line is [y] in
    any case and with any white space around, and else the function
    returns [False] and the file is as it was; at the end of the input
    it raises, and the file is as it was.  A key that is saved is
    written to the file first.  Then a key that holds the character NUL
    makes the function raise, with the file written; for any other key
    it returns [True]: the test at the end builds an engine from the
    key, sends nothing and cannot fail. *)
Theorem setup_api_key_outcome (files : string -> ConfigFile)
  (line : string) (inputs : list string) (env_file : option string) :
  let k := strip line in
  let setup := Setup.setup_api_key files (line :: inputs) env_file in
  let env_file' := Some (Setup.written env_file k) in
  let saved : result bool * option string :=
    if has_char "000" k
    then (Raise (Exn ValueError "embedded null byte"), env_file')
    else (Ok true, env_file') in
  (k = "" -> setup = (Ok false, env_file))
  /\ (k <> "" -> startswith "sk-" k = true -> setup = saved)
  /\ (k <> "" -> startswith "sk-" k = false ->
      (forall answer rest, inputs = answer :: rest ->
         setup = if (lower (strip answer) =? "y")%string
                 then saved else (Ok false, env_file))
      /\ (inputs = [] ->
          setup = (Raise (Exn (LibraryError "EOFError")
                            "EOF when reading a line"), env_file))).
Proof.
  cbv zeta. unfold Setup.setup_api_key, Setup.set_environ.
  assert (Hinit : forall c k0,
            __init__ {| OPENAI_API_KEY := Some (String c k0);
                        config_files := files |}
              None "gpt-3.5-turbo" None None
            = Ok (App.default_classifier (String c k0))).
  { intros c k0. now rewrite init_defaults. }
  destruct (strip line) as [|c k0] eqn:Ek.
  - split; [reflexivity |]. split; intros H; now destruct H.
  - split; [discriminate |]. split.
    + intros _ Hs. cbn [truthy negb]. rewrite Hs, Hinit. cbn [negb].
      now destruct (has_char "000" (String c k0)).
    + intros _ Hs. cbn [truthy negb]. rewrite Hs, Hinit. cbn [negb]. split.
      * intros answer rest ->.
        destruct (lower (strip answer) =? "y")%string; cbn [negb];
          [| reflexivity].
        now destruct (has_char "000" (String c k0)).
      * intros ->. reflexivity.
Qed.

Lemma setup_api_key_outcome_witness :
  strip " key-without-prefix " <> ""
  /\ startswith "sk-" (strip " key-without-prefix ") = false
  /\ Setup.setup_api_key (fun _ => Absent) [" key-without-prefix "; " Y "] None
     = (Ok true, Some ("# OpenAI API Configuration" ++ nl
                       ++ "OPENAI_API_KEY=key-without-prefix" ++ nl))
  /\ Setup.setup_api_key (fun _ => Absent) [" key-without-prefix "; "yes"]
       (Some "DEBUG=1")
     = (Ok false, Some "DEBUG=1")
  /\ Setup.setup_api_key (fun _ => Absent) ["sk-" ++ String "000" "x"]
       (Some "DEBUG=1")
     = (Raise (Exn ValueError "embedded null byte"),
        Some ("DEBUG=1" ++ nl ++ "OPENAI_API_KEY=sk-" ++ String "000" "x"
              ++ nl)).
Proof.
  split; [discriminate |]. split; [reflexivity |].
  split; [| split].
  - exact (proj1 (proj2 (proj2 (setup_api_key_outcome (fun _ => Absent)
                                  " key-without-prefix " [" Y "] None))
                   ltac:(discriminate) eq_refl) " Y " [] eq_refl).
  - exact (proj1 (proj2 (proj2 (setup_api_key_outcome (fun _ => Absent)
                                  " key-without-prefix " ["yes"]
                                  (Some "DEBUG=1")))
                   ltac:(discriminate) eq_refl) "yes" [] eq_refl).
  - exact (proj1 (proj2 (setup_api_key_outcome (fun _ => Absent)
                           ("sk-" ++ String "000" "x") [] (Some "DEBUG=1")))
             ltac:(discriminate) eq_refl).
Defined.

(** ** The web application *)

Lemma all_space_strip (s : string) : all_space (strip s) = all_space s.
Proof.
  destruct (all_space s) eqn:E.
  - now rewrite (strip_all_space s E).
  - destruct (all_space (strip s)) eqn:E'; [| reflexivity].
    apply strip_all_space in E'. rewrite strip_idem in E'.
    apply strip_empty_inv in E'. congruence.
Qed.

Lemma truthy_strip (s : string) : truthy (strip s) = negb (all_space s).
Proof.
  destruct (all_space s) eqn:E.
  - now rewrite (strip_all_space s E).
  - destruct (strip s) eqn:Es; [| reflexivity].
    apply strip_empty_inv in Es. congruence.
Qed.

Section AppProperties.

Variable json_loads : string -> result pyval.
Variable str_format : string -> string -> string -> result string.
Variable str_other : pyval -> string.
Variable number_truthy : string -> bool.
Variable World : Type.
Variable remote_create : ChatRequest -> World -> result ChatCompletion * World.
Variable env : Env.

Local Abbreviation classify_ := (classify json_loads str_format remote_create).
Local Abbreviation engine_batch_ :=
  (classify_batch json_loads str_format remote_create).
Local Abbreviation state_after_ :=
  (state_after json_loads str_format remote_create).
Local Abbreviation classify_values_loop_ :=
  (classify_values_loop json_loads str_format number_truthy remote_create).
Local Abbreviation handle_text :=
  (App.classify_text json_loads str_format remote_create env).
Local Abbreviation handle_batch :=
  (App.classify_batch json_loads str_format number_truthy remote_create env).
Local Abbreviation handle_file :=
  (App.classify_file json_loads str_format str_other remote_create env).

(** Without a key the constructor fails, and the state is as it was. *)
Lemma init_classifier_no_key (app : App.State World) :
  (OPENAI_API_KEY env = None \/ OPENAI_API_KEY env = Some "") ->
  App.init_classifier env app = ((false, App.no_key_message), app).
Proof.
  unfold App.init_classifier. rewrite init_defaults.
  intros [-> | ->]; reflexivity.
Qed.

(** X7: [init_classifier] succeeds exactly when the environment has a
    key that is not empty, and the engine it builds has the four default
    labels, the default model and the default template: the web
    application has no other labels. *)
Theorem init_classifier_outcome (app : App.State World) :
  (forall key, OPENAI_API_KEY env = Some key -> key <> "" ->
     App.init_classifier env app
     = ((true, "Classifier initialized successfully"),
        {| App.classifier := Some (App.default_classifier key);
           App.sys := App.sys app |}))
  /\ (OPENAI_API_KEY env = None \/ OPENAI_API_KEY env = Some "" ->
      App.init_classifier env app = ((false, App.no_key_message), app)).
Proof.
  unfold App.init_classifier. rewrite init_defaults. split.
  - intros key -> Hk. destruct key; [contradiction | reflexivity].
  - intros [-> | ->]; reflexivity.
Qed.

Lemma need_classifier_ready (app : App.State World) (c : TextClassifier) :
  App.classifier app = Some c -> App.need_classifier env app = inr app.
Proof. intros H. unfold App.need_classifier. now rewrite H. Qed.

Lemma need_classifier_no_key (app : App.State World) :
  App.classifier app = None ->
  (OPENAI_API_KEY env = None \/ OPENAI_API_KEY env = Some "") ->
  App.need_classifier env app
  = inl (App.error_body
           ("Failed to initialize classifier: " ++ App.no_key_message), 500).
Proof.
  intros Hc Hk. unfold App.need_classifier. rewrite Hc.
  now rewrite (init_classifier_no_key app Hk).
Qed.

(** X8: without a classifier and without a key, the three handlers that
    classify answer 500 with the message of the constructor, whatever the
    request is, and the status handler answers 200 with the status
    [error] and no labels; the state is as it was. *)
Theorem handlers_without_key (app : App.State World) :
  App.classifier app = None ->
  (OPENAI_API_KEY env = None \/ OPENAI_API_KEY env = Some "") ->
  let failure :=
    (App.error_body ("Failed to initialize classifier: " ++ App.no_key_message),
     500) in
  (forall data, handle_text data app = (Ok failure, app))
  /\ (forall data, handle_batch data app = (Ok failure, app))
  /\ (forall upload, handle_file upload app = (Ok failure, app))
  /\ App.get_status env app
     = (Ok (PyDict [("status", PyStr "error");
                    ("message", PyStr App.no_key_message);
                    ("labels", PyList [])], 200), app).
Proof.
  intros Hc Hk. cbv zeta. repeat split; intros;
    unfold App.classify_text, App.classify_batch, App.classify_file,
      App.get_status, App.need_status;
    rewrite ?(need_classifier_no_key app Hc Hk); try reflexivity.
  rewrite Hc. now rewrite (init_classifier_no_key app Hk).
Qed.

(** X9: with a classifier, a body without a text, or with a text of
    white space only, is answered 400 and nothing is sent. *)
Theorem classify_text_blank (app : App.State World) (c : TextClassifier)
  (d : list (string * pyval)) :
  App.classifier app = Some c ->
  (dict_lookup d "text" = None
   \/ exists s, dict_lookup d "text" = Some (PyStr s) /\ all_space s = true) ->
  handle_text (PyDict d) app
  = (Ok (App.error_body "No text provided", 400), app).
Proof.
  intros Hc H. unfold App.classify_text.
  rewrite (need_classifier_ready app c Hc). simpl.
  destruct H as [-> | (s & -> & Hs)]; simpl; [reflexivity |].
  now rewrite (strip_all_space s Hs).
Qed.

(** X10: with a classifier, a text that is not blank is stripped and
    then classified, and the answer is 200 whether the classification
    failed or not; the text of the answer is the stripped one. *)
Theorem classify_text_answers (app : App.State World) (c : TextClassifier)
  (d : list (string * pyval)) (s : string) :
  App.classifier app = Some c ->
  dict_lookup d "text" = Some (PyStr s) ->
  all_space s = false ->
  exists r st,
    classify_ c (strip s) (App.sys app) = (Ok r, st)
    /\ text r = strip s
    /\ all_space (strip s) = false
    /\ handle_text (PyDict d) app
       = (Ok (PyDict (App.item (of_result r)), 200),
          {| App.classifier := Some c; App.sys := st |})
    /\ dict_lookup (App.item (of_result r)) "text" = Some (PyStr (strip s)).
Proof.
  intros Hc Hd Hs.
  destruct (classify_cases json_loads str_format _ remote_create c (strip s)
              (App.sys app)) as (r & st & Hr & Hkind).
  assert (Ht : text r = strip s).
  { destruct Hkind as [[m ->] | (x & p & _ & ->)]; reflexivity. }
  exists r, st. split; [exact Hr |]. split; [exact Ht |].
  split; [now rewrite all_space_strip |]. split.
  - unfold App.classify_text. rewrite (need_classifier_ready app c Hc).
    simpl. rewrite Hd. simpl. rewrite truthy_strip, Hs. simpl.
    now rewrite Hc, Hr.
  - unfold App.item. destruct (error_shown (any_error (of_result r)));
      simpl; now rewrite Ht.
Qed.

(** X11: a body that is no object, or whose text is no string, makes
    the handler raise before its [try] block: there is no JSON answer,
    and nothing is sent. *)
Theorem classify_text_raises (app : App.State World) (c : TextClassifier) :
  App.classifier app = Some c ->
  (forall data, (forall d, data <> PyDict d) ->
     handle_text data app
     = (Raise (Exn AttributeError
                 ("'" ++ type_name data ++ "' object has no attribute 'get'")),
        app))
  /\ (forall d v, dict_lookup d "text" = Some v -> (forall s, v <> PyStr s) ->
        handle_text (PyDict d) app
        = (Raise (Exn AttributeError
                    ("'" ++ type_name v ++ "' object has no attribute 'strip'")),
           app)).
Proof.
  intros Hc. split.
  - intros data Hd. unfold App.classify_text.
    rewrite (need_classifier_ready app c Hc).
    destruct data; try reflexivity. now destruct (Hd entries).
  - intros d v Hd Hv. unfold App.classify_text.
    rewrite (need_classifier_ready app c Hc). simpl. rewrite Hd.
    destruct v; try reflexivity. now destruct (Hv s).
Qed.

(** On a list of strings the loop over values is the loop of the
    engine. *)
Lemma classify_values_strings (c : TextClassifier) (ts : list string) :
  forall (acc : list ClassificationResult) (st : Sys World),
  classify_values_loop_ c (map PyStr ts) (map of_result acc) st
  = match classify_batch_loop json_loads str_format remote_create c ts acc st
    with
    | (Ok rs, st') => (Ok (map of_result rs), st')
    | (Raise e, st') => (Raise e, st')
    end.
Proof.
  induction ts as [|t ts IH]; intros acc st; [reflexivity |].
  simpl. unfold bind_py. simpl.
  destruct (classify_ c t st) as [[r|e] st1]; [| reflexivity].
  rewrite <- IH. now rewrite map_app.
Qed.

(** The loop over values stops at the first value that is true and no
    string, with what the texts before it did to the state. *)
Lemma classify_values_stops (c : TextClassifier) (v : pyval)
  (rest : list pyval) (pre : list string) :
  (forall s, v <> PyStr s) -> py_truthy number_truthy v = true ->
  forall (acc : list AnyResult) (st : Sys World),
  classify_values_loop_ c (map PyStr pre ++ v :: rest)%list acc st
  = (Raise (Exn AttributeError
              ("'" ++ type_name v ++ "' object has no attribute 'strip'")),
     state_after_ c pre st).
Proof.
  intros Hv Ht. induction pre as [|t pre IH]; intros acc st.
  - simpl. unfold bind_py.
    destruct v; simpl in *; try rewrite Ht; try reflexivity;
      try discriminate. now destruct (Hv s).
  - simpl. unfold bind_py. simpl.
    destruct (classify_cases json_loads str_format _ remote_create c t st)
      as (r & st1 & Hr & _).
    rewrite Hr. simpl. apply IH.
Qed.

(** X12: with a classifier, a body whose [texts] is missing, is no
    list, or is the empty list is answered 400, and so is a list of more
    than 100 elements; nothing is sent. *)
Theorem classify_batch_rejects (app : App.State World) (c : TextClassifier)
  (d : list (string * pyval)) :
  App.classifier app = Some c ->
  (dict_lookup d "texts" = None ->
   handle_batch (PyDict d) app
   = (Ok (App.error_body "No texts provided or invalid format", 400), app))
  /\ (forall texts, dict_lookup d "texts" = Some texts ->
        (forall v vs, texts <> PyList (v :: vs)) ->
        handle_batch (PyDict d) app
        = (Ok (App.error_body "No texts provided or invalid format", 400), app))
  /\ (forall items, dict_lookup d "texts" = Some (PyList items) ->
        100 < List.length items ->
        handle_batch (PyDict d) app
        = (Ok (App.error_body "Maximum 100 texts per batch", 400), app)).
Proof.
  intros Hc. unfold App.classify_batch.
  rewrite (need_classifier_ready app c Hc). unfold py_get_or. repeat split.
  - intros ->. reflexivity.
  - intros texts -> Hn. destruct texts as [| | | | [|v vs] |]; try reflexivity.
    now destruct (Hn v vs).
  - intros items -> Hlen. destruct items as [|v vs]; [simpl in Hlen; lia |].
    apply Nat.ltb_lt in Hlen. now rewrite Hlen.
Qed.

(** The handler on a list that passes its tests. *)
Lemma classify_batch_on_list (app : App.State World) (c : TextClassifier)
  (d : list (string * pyval)) (v : pyval) (vs : list pyval) :
  App.classifier app = Some c ->
  dict_lookup d "texts" = Some (PyList (v :: vs)) ->
  List.length (v :: vs) <= 100 ->
  handle_batch (PyDict d) app
  = match classify_values json_loads str_format number_truthy remote_create
            c (v :: vs) (App.sys app) with
    | (Ok results, st) =>
        (Ok (App.batch_body results, 200),
         {| App.classifier := Some c; App.sys := st |})
    | (Raise e, st) =>
        (Ok (App.error_body (exn_str e), 500),
         {| App.classifier := Some c; App.sys := st |})
    end.
Proof.
  intros Hc Hd Hlen. apply Nat.ltb_ge in Hlen.
  unfold App.classify_batch. rewrite (need_classifier_ready app c Hc).
  unfold py_get_or. now rewrite Hd, Hlen, Hc.
Qed.

(** X13: with a classifier, a list of one to 100 strings is answered
    200 with one entry for each text, in the order of the texts: the
    results of the engine's [classify_batch]; [count] is the number of
    texts. *)
Theorem classify_batch_answers (app : App.State World) (c : TextClassifier)
  (d : list (string * pyval)) (ts : list string) :
  App.classifier app = Some c ->
  dict_lookup d "texts" = Some (PyList (map PyStr ts)) ->
  ts <> [] ->
  List.length ts <= 100 ->
  exists rs,
    engine_batch_ c ts (App.sys app)
    = (Ok rs, state_after_ c ts (App.sys app))
    /\ List.length rs = List.length ts
    /\ handle_batch (PyDict d) app
       = (Ok (PyDict
                [("results",
                  PyList (map (fun r => PyDict (App.item (of_result r))) rs));
                 ("count", py_len ts)], 200),
          {| App.classifier := Some c;
             App.sys := state_after_ c ts (App.sys app) |}).
Proof.
  intros Hc Hd Hne Hlen.
  destruct (classify_batch_loop_spec json_loads str_format _ remote_create
              c ts [] (App.sys app)) as (rs & Hr & Hl & _).
  exists rs. split; [exact Hr |]. split; [exact Hl |].
  destruct ts as [|t ts]; [contradiction |].
  rewrite (classify_batch_on_list app c d (PyStr t) (map PyStr ts) Hc Hd)
    by (change (PyStr t :: map PyStr ts) with (map PyStr (t :: ts));
        now rewrite length_map).
  change (PyStr t :: map PyStr ts) with (map PyStr (t :: ts)).
  unfold classify_values.
  pose proof (classify_values_strings c (t :: ts) [] (App.sys app)) as Hv.
  change (map of_result []) with (@nil AnyResult) in Hv.
  unfold classify_batch in Hr. rewrite Hv, Hr.
  unfold App.batch_body, py_len. cbv zeta. cbn [List.app].
  now rewrite map_map, !length_map, Hl.
Qed.

(** X14: with a classifier, a list of at most 100 elements in which a
    value that is true and no string (a number, [true], a list, an
    object) comes after strings only is answered 500 with the
    [AttributeError] of that value; the strings before it have been
    classified, their requests sent, and their results are lost. *)
Theorem classify_batch_stops_at_non_string (app : App.State World)
  (c : TextClassifier) (d : list (string * pyval)) (pre : list string)
  (v : pyval) (rest : list pyval) :
  App.classifier app = Some c ->
  dict_lookup d "texts" = Some (PyList (map PyStr pre ++ v :: rest)) ->
  (forall s, v <> PyStr s) ->
  py_truthy number_truthy v = true ->
  List.length (map PyStr pre ++ v :: rest) <= 100 ->
  handle_batch (PyDict d) app
  = (Ok (App.error_body
           ("'" ++ type_name v ++ "' object has no attribute 'strip'"), 500),
     {| App.classifier := Some c;
        App.sys := state_after_ c pre (App.sys app) |}).
Proof.
  intros Hc Hd Hv Ht Hlen.
  destruct (map PyStr pre ++ v :: rest)%list as [|x xs] eqn:E.
  { destruct pre; discriminate. }
  rewrite (classify_batch_on_list app c d x xs Hc Hd Hlen).
  unfold classify_values. rewrite <- E.
  now rewrite (classify_values_stops c v rest pre Hv Ht [] (App.sys app)).
Qed.

(** ** Texts of a file *)

Lemma has_char_lstrip (c : ascii) (s : string) :
  has_char c s = false -> has_char c (lstrip s) = false.
Proof.
  induction s as [|x s IH]; [reflexivity |]. simpl.
  intros H. apply orb_false_iff in H as [Hx Hs].
  destruct (isspace x); [now apply IH |]. simpl. now rewrite Hx, Hs.
Qed.

Lemma has_char_rstrip (c : ascii) (s : string) :
  has_char c s = false -> has_char c (rstrip s) = false.
Proof.
  induction s as [|x s IH]; [reflexivity |]. simpl.
  intros H. apply orb_false_iff in H as [Hx Hs]. specialize (IH Hs).
  destruct (rstrip s) as [|y r].
  - destruct (isspace x); [reflexivity |]. simpl. now rewrite Hx.
  - change (has_char c (String x (String y r)))
      with (Ascii.eqb c x || has_char c (String y r)).
    now rewrite Hx, IH.
Qed.

Lemma has_char_strip (c : ascii) (s : string) :
  has_char c s = false -> has_char c (strip s) = false.
Proof. intros H. unfold strip. now apply has_char_lstrip, has_char_rstrip. Qed.

(** The lines kept are the stripped lines that are not empty. *)
Lemma kept_lines (lines : list string) :
  map strip (filter (fun line => truthy (strip line)) lines) = spoken lines.
Proof.
  unfold spoken. induction lines as [|l lines IH]; [reflexivity |].
  simpl. destruct (truthy (strip l)); simpl; now rewrite IH.
Qed.

Lemma all_space_lines (s : string) :
  all_space s = true ->
  Forall (fun line => all_space line = true) (split_lines s).
Proof.
  induction s as [|c s IH]; [now repeat constructor |].
  simpl all_space. intros H. apply andb_true_iff in H as [Hc Hs].
  specialize (IH Hs). rewrite split_lines_cons.
  destruct (Ascii.eqb c "010"); [now constructor |].
  pose proof (split_on_not_nil "010" s) as Hn. fold (split_lines s) in Hn.
  destruct (split_lines s) as [|q qs]; [contradiction |].
  inversion IH as [|? ? Hq Hqs]; subst. constructor; [| exact Hqs].
  simpl. now rewrite Hc, Hq.
Qed.

Lemma spoken_of_blank (lines : list string) :
  Forall (fun line => all_space line = true) lines -> spoken lines = [].
Proof.
  unfold spoken. induction 1 as [|l lines Hl _ IH]; [reflexivity |].
  simpl. now rewrite (strip_all_space l Hl).
Qed.

Lemma spoken_lines_clean (lines : list string) :
  Forall (fun line => has_char "010" line = false) lines ->
  Forall (fun t => all_space t = false /\ strip t = t
                   /\ has_char "010" t = false)
         (spoken lines).
Proof.
  unfold spoken. induction 1 as [|l lines Hl _ IH]; [constructor |].
  simpl. destruct (truthy (strip l)) eqn:E; [| exact IH].
  constructor; [| exact IH]. repeat split.
  - rewrite all_space_strip. rewrite truthy_strip in E.
    now destruct (all_space l).
  - apply strip_idem.
  - now apply has_char_strip.
Qed.

(** X15: a content that is no JSON is read as lines.  The texts are the
    lines, stripped, without the ones that are empty then: no text is
    blank, none has white space at either end, none holds a line feed;
    a content of white space only has no text at all. *)
Theorem texts_of_lines (content : string) (e : exn) :
  json_loads content = Raise e ->
  is_JSONDecodeError e = true ->
  texts_of_content json_loads str_other content
  = Ok (spoken (split_lines content))
  /\ Forall (fun t => all_space t = false /\ strip t = t
                      /\ has_char "010" t = false)
            (spoken (split_lines content))
  /\ (all_space content = true -> spoken (split_lines content) = []).
Proof.
  intros Hj He. repeat split.
  - unfold texts_of_content. now rewrite Hj, He, kept_lines.
  - apply spoken_lines_clean, split_lines_fresh.
  - intros H. now apply spoken_of_blank, all_space_lines.
Qed.

(** X16: a content that is a JSON list of strings gives these strings
    as they are, the blank ones too; a content that is another JSON
    value (a quoted string, a number, an object) is one text, the
    content itself. *)
Theorem texts_of_json (content : string) :
  (forall ts, json_loads content = Ok (PyList (map PyStr ts)) ->
     texts_of_content json_loads str_other content = Ok ts)
  /\ (forall v, json_loads content = Ok v ->
        (forall items, v <> PyList items) ->
        texts_of_content json_loads str_other content = Ok [content]).
Proof.
  split.
  - intros ts H. unfold texts_of_content. rewrite H, map_map.
    now rewrite map_id.
  - intros v H Hv. unfold texts_of_content. rewrite H.
    destruct v; try reflexivity. now destruct (Hv items).
Qed.

(** X17: with a classifier and a file whose content is read into
    texts, the handler never answers 500: no text is answered 400, more
    than 100 texts are answered 400, both without a request sent, and
    one to 100 texts are answered 200 with the results of the engine's
    [classify_batch], one for each text, in order. *)
Theorem classify_file_answers (app : App.State World) (c : TextClassifier)
  (filename content : string) (texts : list string) :
  App.classifier app = Some c ->
  filename <> "" ->
  texts_of_content json_loads str_other content = Ok texts ->
  (texts = [] ->
   handle_file (Some (filename, Ok content)) app
   = (Ok (App.error_body "No valid texts found in file", 400), app))
  /\ (100 < List.length texts ->
      handle_file (Some (filename, Ok content)) app
      = (Ok (App.error_body "Maximum 100 texts per file", 400), app))
  /\ (texts <> [] -> List.length texts <= 100 ->
      exists rs,
        engine_batch_ c texts (App.sys app)
        = (Ok rs, state_after_ c texts (App.sys app))
        /\ List.length rs = List.length texts
        /\ handle_file (Some (filename, Ok content)) app
           = (Ok (PyDict
                    [("results",
                      PyList (map (fun r => PyDict (App.item (of_result r)))
                                  rs));
                     ("count", py_len texts)], 200),
              {| App.classifier := Some c;
                 App.sys := state_after_ c texts (App.sys app) |})).
Proof.
  intros Hc Hf Ht. apply String.eqb_neq in Hf.
  unfold App.classify_file. rewrite (need_classifier_ready app c Hc), Hf.
  cbn [bind]. rewrite Ht. repeat split.
  - intros ->. reflexivity.
  - intros Hlen. destruct texts as [|t ts]; [simpl in Hlen; lia |].
    apply Nat.ltb_lt in Hlen. now rewrite Hlen.
  - intros Hne Hlen. destruct texts as [|t ts]; [contradiction |].
    destruct (classify_batch_loop_spec json_loads str_format _ remote_create
                c (t :: ts) [] (App.sys app)) as (rs & Hr & Hl & _).
    exists rs. split; [exact Hr |]. split; [exact Hl |].
    apply Nat.ltb_ge in Hlen. rewrite Hlen, Hc.
    fold (classify_batch json_loads str_format remote_create c (t :: ts)
            (App.sys app)) in Hr.
    rewrite Hr. unfold App.batch_body, py_len. cbv zeta. cbn [List.app].
    now rewrite map_map, !length_map, Hl.
Qed.

End AppProperties.

(** ** The command line *)

Section CliProperties.

Variable json_loads : string -> result pyval.
Variable str_format : string -> string -> string -> result string.
Variable number_truthy : string -> bool.
Variable World : Type.
Variable remote_create : ChatRequest -> World -> result ChatCompletion * World.

Local Abbreviation classify_ := (classify json_loads str_format remote_create).
Local Abbreviation engine_batch_ :=
  (classify_batch json_loads str_format remote_create).
Local Abbreviation batch_loop_ :=
  (classify_batch_loop json_loads str_format remote_create).
Local Abbreviation state_after_ :=
  (state_after json_loads str_format remote_create).
Local Abbreviation interactive_ :=
  (interactive json_loads str_format remote_create).

(** X18: a failure whose exception has no text is not shown as one.
    When the remote call raises an exception with an empty message, the
    entry [main] writes for the result has the keys [text] and
    [predicted_label] only, with the label [Other], and the entry of the
    web application has no [error] key either. *)
Theorem silent_failure (self : TextClassifier) (text_ prompt : string)
  (st : Sys World) (e : exn) :
  all_space text_ = false ->
  _build_prompt str_format self text_ = Ok prompt ->
  fst (remote_create (request_for self prompt) (remote st)) = Raise e ->
  exn_str e = "" ->
  exists r,
    fst (classify_ self text_ st) = Ok r
    /\ error r = Some ""
    /\ cli_item number_truthy r
       = [("text", PyStr text_); ("predicted_label", PyStr "Other")]
    /\ App.item (of_result r)
       = [("text", PyStr text_); ("predicted_label", PyStr "Other");
          ("confidence", PyNone); ("rationale", PyNone)].
Proof.
  intros Hs Hp Hr He. exists (failed text_ ""). split.
  - rewrite (classify_not_blank json_loads str_format _ remote_create
               self text_ st Hs), Hp.
    cbv zeta. rewrite Hr. cbn [bind fst]. now rewrite He.
  - repeat split.
Qed.

(** The loop of the engine with results already there. *)
Lemma classify_batch_loop_acc (self : TextClassifier) (texts : list string) :
  forall (acc : list ClassificationResult) (st : Sys World),
  batch_loop_ self texts acc st
  = match batch_loop_ self texts [] st with
    | (Ok rs, st') => (Ok (acc ++ rs)%list, st')
    | (Raise e, st') => (Raise e, st')
    end.
Proof.
  induction texts as [|t ts IH]; intros acc st.
  - simpl. unfold ret. now rewrite app_nil_r.
  - simpl. unfold bind_py.
    destruct (classify_ self t st) as [[r|e] st1]; [| reflexivity].
    rewrite (IH (acc ++ [r])%list), (IH ([] ++ [r])%list).
    destruct (batch_loop_ self ts [] st1) as [[rs|e] st2]; [| reflexivity].
    now rewrite <- app_assoc.
Qed.

(** X19: nothing but a line that says [quit], [exit] or [q] ends the
    interactive loop.  On an input without such a line the loop is still
    running after any number of rounds: at the end of the input it goes
    round for ever. *)
Theorem interactive_needs_quit (self : TextClassifier) (fuel : nat) :
  forall (inputs : list string) (st : Sys World)
         (printed : list (list (string * pyval))),
  Forall (fun line => is_quit line = false) inputs ->
  interactive_ fuel self inputs st printed = None.
Proof.
  induction fuel as [|fuel IH]; intros inputs st printed H; [reflexivity |].
  cbn [interactive]. destruct inputs as [|line inputs]; [now apply IH |].
  inversion H as [|? ? Hq Hrest]; subst. unfold is_quit in Hq. rewrite Hq.
  destruct (negb (truthy (strip line))); [now apply IH |].
  destruct (classify_ self (strip line) st) as [[r|e] st1]; now apply IH.
Qed.

(** X20: the loop ends at the first line that says [quit], [exit] or
    [q], in any case and with any white space around, however much
    input follows.  Of the lines before it, the blank ones are passed
    over and the others are stripped and classified, one after the
    other; what is printed is one entry for each, in order. *)
Theorem interactive_until_quit (self : TextClassifier)
  (before : list string) (q : string) (rest : list string) (more : nat) :
  Forall (fun line => is_quit line = false) before ->
  is_quit q = true ->
  forall (st : Sys World) (printed : list (list (string * pyval))),
  exists rs,
    engine_batch_ self (spoken before) st
    = (Ok rs, state_after_ self (spoken before) st)
    /\ List.length rs = List.length (spoken before)
    /\ interactive_ (S (List.length before) + more) self
         (before ++ q :: rest)%list st printed
       = Some ((printed ++ map interactive_item rs)%list,
               state_after_ self (spoken before) st).
Proof.
  intros Hb Hq. induction Hb as [|line before Hl _ IH]; intros st printed.
  - exists []. repeat split. cbn [interactive List.app Nat.add List.length].
    unfold is_quit in Hq. rewrite Hq. cbn [map]. now rewrite app_nil_r.
  - unfold is_quit in Hl.
    change (S (List.length (line :: before)) + more)
      with (S (S (List.length before) + more)).
    cbn [interactive List.app]. rewrite Hl. unfold spoken. cbn [map filter].
    fold (spoken before).
    destruct (truthy (strip line)) eqn:Et; cbn [negb].
    + destruct (classify_cases json_loads str_format _ remote_create self
                  (strip line) st) as (r & st1 & Hr & _).
      destruct (IH st1 (printed ++ [interactive_item r])%list)
        as (rs & Hrs & Hlen & Hi).
      exists (r :: rs). cbn [state_after]. rewrite Hr. cbn [snd]. repeat split.
      * unfold classify_batch. cbn [classify_batch_loop]. unfold bind_py.
        rewrite Hr. rewrite classify_batch_loop_acc.
        unfold classify_batch in Hrs. now rewrite Hrs.
      * simpl. now rewrite Hlen.
      * rewrite Hi. cbn [map]. now rewrite <- app_assoc.
    + exact (IH st printed).
Qed.

End CliProperties.

(** ** The callers at concrete inputs *)

Lemma init_classifier_outcome_witness :
  App.init_classifier keyed_env (idle_app [])
  = ((true, "Classifier initialized successfully"),
     {| App.classifier := Some (App.default_classifier "sk-env");
        App.sys := fresh [] |})
  /\ App.init_classifier bare_env (idle_app [])
     = ((false, App.no_key_message), idle_app []).
Proof.
  split.
  - exact (proj1 (init_classifier_outcome _ keyed_env (idle_app []))
             "sk-env" eq_refl ltac:(discriminate)).
  - exact (proj2 (init_classifier_outcome _ bare_env (idle_app []))
             (or_introl eq_refl)).
Defined.

Lemma handlers_without_key_witness :
  run_text bare_env (PyDict [("text", PyStr "Hello")]) (idle_app [])
  = (Ok (App.error_body
           ("Failed to initialize classifier: " ++ App.no_key_message), 500),
     idle_app []).
Proof.
  exact (proj1 (handlers_without_key Json.loads Format.format no_str
                  written_nonzero _ Scripted.create bare_env (idle_app [])
                  eq_refl (or_introl eq_refl))
           (PyDict [("text", PyStr "Hello")])).
Defined.

Lemma classify_text_blank_witness :
  all_space (" " ++ nl) = true
  /\ run_text bare_env (PyDict [("text", PyStr (" " ++ nl))])
       (ready_app [Scripted.says inquiry_reply])
     = (Ok (App.error_body "No text provided", 400),
        ready_app [Scripted.says inquiry_reply]).
Proof.
  split; [reflexivity |].
  apply (classify_text_blank Json.loads Format.format _ Scripted.create
           bare_env (ready_app [Scripted.says inquiry_reply]) default_engine
           [("text", PyStr (" " ++ nl))] eq_refl).
  right. exists (" " ++ nl). now split.
Defined.

Lemma classify_text_answers_witness :
  exists r st,
    run_text bare_env (PyDict [("text", PyStr " What are your hours? ")])
      (ready_app [mute_failure])
    = (Ok (PyDict (App.item (of_result r)), 200), st)
    /\ text r = "What are your hours?"
    /\ error r = Some "".
Proof.
  destruct (classify_text_answers Json.loads Format.format _ Scripted.create
              bare_env (ready_app [mute_failure]) default_engine
              [("text", PyStr " What are your hours? ")]
              " What are your hours? " eq_refl eq_refl eq_refl)
    as (r & st & Hr & Ht & _ & Hh & _).
  exists r. eexists. split; [exact Hh |]. split; [exact Ht |].
  vm_compute in Hr. now injection Hr as <- _.
Defined.

Lemma classify_text_raises_witness :
  run_text bare_env (PyDict [("text", PyNum "5")]) (ready_app [])
  = (Raise (Exn AttributeError "'int' object has no attribute 'strip'"),
     ready_app [])
  /\ run_text bare_env (PyList [PyStr "Hello"]) (ready_app [])
     = (Raise (Exn AttributeError "'list' object has no attribute 'get'"),
        ready_app []).
Proof.
  pose proof (classify_text_raises Json.loads Format.format _ Scripted.create
                bare_env (ready_app []) default_engine eq_refl) as [H1 H2].
  split.
  - apply (H2 [("text", PyNum "5")] (PyNum "5") eq_refl). discriminate.
  - apply (H1 (PyList [PyStr "Hello"])). discriminate.
Defined.

Lemma classify_batch_rejects_witness :
  100 < List.length (repeat (PyStr "Hello") 101)
  /\ run_batch bare_env
       (PyDict [("texts", PyList (repeat (PyStr "Hello") 101))])
       (ready_app [])
     = (Ok (App.error_body "Maximum 100 texts per batch", 400), ready_app [])
  /\ run_batch bare_env (PyDict [("texts", PyStr "Hello")]) (ready_app [])
     = (Ok (App.error_body "No texts provided or invalid format", 400),
        ready_app []).
Proof.
  assert (Hlen : 100 < List.length (repeat (PyStr "Hello") 101))
    by (rewrite repeat_length; lia).
  split; [exact Hlen |].
  split.
  - exact (proj2 (proj2 (classify_batch_rejects Json.loads Format.format
                           written_nonzero _ Scripted.create bare_env (ready_app [])
                           default_engine
                           [("texts", PyList (repeat (PyStr "Hello") 101))]
                           eq_refl)) _ eq_refl Hlen).
  - apply (proj1 (proj2 (classify_batch_rejects Json.loads Format.format
                           written_nonzero _ Scripted.create bare_env (ready_app [])
                           default_engine [("texts", PyStr "Hello")] eq_refl))
             (PyStr "Hello") eq_refl).
    discriminate.
Defined.

Lemma classify_batch_answers_witness :
  exists rs st,
    run_batch bare_env (PyDict [("texts", PyList [PyStr "Hello"; PyStr " "])])
      (ready_app [Scripted.says inquiry_reply])
    = (Ok (PyDict
             [("results",
               PyList (map (fun r => PyDict (App.item (of_result r))) rs));
              ("count", PyNum "2")], 200), st)
    /\ map error rs = [None; Some "Empty text provided"].
Proof.
  destruct (classify_batch_answers Json.loads Format.format written_nonzero _
              Scripted.create bare_env (ready_app [Scripted.says inquiry_reply]) default_engine
              [("texts", PyList [PyStr "Hello"; PyStr " "])] ["Hello"; " "]
              eq_refl eq_refl ltac:(discriminate) ltac:(simpl; lia))
    as (rs & Hr & _ & Hh).
  exists rs. eexists. split; [exact Hh |].
  vm_compute in Hr. now injection Hr as <-.
Defined.

Lemma classify_batch_stops_at_non_string_witness :
  py_truthy written_nonzero (PyNum "5") = true
  /\ exists st,
       run_batch bare_env
         (PyDict [("texts", PyList [PyStr "Hello"; PyNum "5"; PyStr "Bye"])])
         (ready_app [Scripted.says inquiry_reply])
       = (Ok (App.error_body "'int' object has no attribute 'strip'", 500), st)
       /\ List.length (sent (App.sys st)) = 1.
Proof.
  split; [reflexivity |]. eexists. split.
  - apply (classify_batch_stops_at_non_string Json.loads Format.format
             written_nonzero _ Scripted.create bare_env (ready_app [Scripted.says inquiry_reply])
             default_engine
             [("texts", PyList [PyStr "Hello"; PyNum "5"; PyStr "Bye"])]
             ["Hello"] (PyNum "5") [PyStr "Bye"] eq_refl eq_refl);
      [discriminate | reflexivity | simpl; lia].
  - reflexivity.
Defined.

Lemma texts_of_lines_witness :
  let content := "first" ++ nl ++ "  " ++ nl ++ " second " in
  texts_of_content Json.loads no_str content = Ok ["first"; "second"].
Proof.
  cbv zeta.
  exact (proj1 (texts_of_lines Json.loads no_str
                  ("first" ++ nl ++ "  " ++ nl ++ " second ")
                  (Exn JSONDecodeError "Expecting value") eq_refl eq_refl)).
Defined.

Lemma texts_of_json_witness :
  texts_of_content Json.loads no_str
    ("[" ++ dq ++ "first" ++ dq ++ ", " ++ dq ++ " " ++ dq ++ "]")
  = Ok ["first"; " "]
  /\ texts_of_content Json.loads no_str " 42 " = Ok [" 42 "].
Proof.
  split.
  - exact (proj1 (texts_of_json Json.loads no_str
                    ("[" ++ dq ++ "first" ++ dq ++ ", " ++ dq ++ " " ++ dq
                     ++ "]"))
             ["first"; " "] eq_refl).
  - apply (proj2 (texts_of_json Json.loads no_str " 42 ") (PyNum "42") eq_refl).
    discriminate.
Defined.

Lemma classify_file_answers_witness :
  run_file bare_env (Some ("blank.txt", Ok (" " ++ nl ++ " ")))
    (ready_app [Scripted.says inquiry_reply])
  = (Ok (App.error_body "No valid texts found in file", 400),
     ready_app [Scripted.says inquiry_reply])
  /\ exists rs st,
       run_file bare_env (Some ("two.txt", Ok ("first" ++ nl ++ " second ")))
         (ready_app [Scripted.says inquiry_reply])
       = (Ok (PyDict
                [("results",
                  PyList (map (fun r => PyDict (App.item (of_result r))) rs));
                 ("count", PyNum "2")], 200), st)
       /\ map text rs = ["first"; "second"].
Proof.
  split.
  - apply (proj1 (classify_file_answers Json.loads Format.format no_str _
                    Scripted.create bare_env
                    (ready_app [Scripted.says inquiry_reply]) default_engine
                    "blank.txt" (" " ++ nl ++ " ") []
                    eq_refl ltac:(discriminate) eq_refl)).
    reflexivity.
  - destruct (proj2 (proj2 (classify_file_answers Json.loads Format.format
                              no_str _ Scripted.create bare_env
                              (ready_app [Scripted.says inquiry_reply])
                              default_engine "two.txt"
                              ("first" ++ nl ++ " second ")
                              ["first"; "second"]
                              eq_refl ltac:(discriminate) eq_refl))
                ltac:(discriminate) ltac:(simpl; lia))
      as (rs & Hr & _ & Hh).
    exists rs. eexists. split; [exact Hh |].
    vm_compute in Hr. now injection Hr as <-.
Defined.

Lemma silent_failure_witness :
  exists r,
    fst (run_classify default_engine "Hello" [mute_failure]) = Ok r
    /\ cli_item written_nonzero r
       = [("text", PyStr "Hello"); ("predicted_label", PyStr "Other")].
Proof.
  destruct (silent_failure Json.loads Format.format written_nonzero _
              Scripted.create default_engine "Hello"
              match _build_prompt Format.format default_engine "Hello" with
              | Ok prompt => prompt
              | Raise _ => ""
              end
              (fresh [mute_failure]) (Exn (LibraryError "TimeoutError") "")
              eq_refl eq_refl eq_refl eq_refl)
    as (r & Hr & _ & Hc & _).
  exists r. split; [exact Hr | exact Hc].
Defined.

Lemma interactive_needs_quit_witness :
  interactive Json.loads Format.format Scripted.create 7 default_engine
    ["Hello"; ""] (fresh [Scripted.says inquiry_reply]) []
  = None.
Proof.
  apply (interactive_needs_quit Json.loads Format.format _ Scripted.create
           default_engine 7).
  repeat constructor.
Defined.

Lemma interactive_until_quit_witness :
  exists rs st,
    interactive Json.loads Format.format Scripted.create 5 default_engine
      [" "; " Hello "; " QUIT "; "never read"]
      (fresh [Scripted.says inquiry_reply]) []
    = Some (map interactive_item rs, st)
    /\ map text rs = ["Hello"]
    /\ List.length (sent st) = 1.
Proof.
  destruct (interactive_until_quit Json.loads Format.format _ Scripted.create
              default_engine [" "; " Hello "] " QUIT " ["never read"] 2
              ltac:(repeat constructor) eq_refl
              (fresh [Scripted.says inquiry_reply]) [])
    as (rs & Hr & _ & Hi).
  exists rs. eexists. split; [exact Hi |].
  vm_compute in Hr. injection Hr as <-. split; reflexivity.
Defined.
